(** * Review scraper: extraction and pagination controller

    A shallow embedding of the two scripts of the repository,
    [scraper.py] (module [Scraper]) and [review_scraper.py] (module
    [ReviewScraper]), and the properties of their date filtering,
    per-candidate error recovery and pagination, followed by further
    properties of their helpers (URLs, ratings, pauses, the cookie banner,
    the challenge wall) and of whole runs.

    The Python standard library pieces the scripts rely on ([str] methods,
    naive [datetime] values, [strptime]/[strftime] with the format
    [%Y-%m-%d], one regular expression) are written out as executable
    functions in module [Py].  The browser is a fixed page fixture ([env]);
    the third-party date parsers [dateparser.parse] and
    [dateutil.parser.parse] are parameters of the development. *)

From Stdlib Require Import ZArith List String Ascii Bool Lia RelationClasses.
Import ListNotations.

Set Implicit Arguments.

(* ===================================================================== *)
(** * Python values *)
(* ===================================================================== *)

Module Py.

Local Open Scope string_scope.

(** ** Strings *)

(** [str.isspace] on the ASCII range: TAB..CR, FS..US and the blank. *)
Definition is_space (c : ascii) : bool :=
  let n := nat_of_ascii c in
  (Nat.leb 9 n && Nat.leb n 13) || (Nat.leb 28 n && Nat.leb n 32).

Definition is_digit (c : ascii) : bool :=
  let n := nat_of_ascii c in Nat.leb 48 n && Nat.leb n 57.

Definition lower_char (c : ascii) : ascii :=
  let n := nat_of_ascii c in
  if Nat.leb 65 n && Nat.leb n 90 then ascii_of_nat (n + 32) else c.

(** [s.lower()] *)
Fixpoint lower (s : string) : string :=
  match s with
  | EmptyString => EmptyString
  | String c s' => String (lower_char c) (lower s')
  end.

Fixpoint lstrip (s : string) : string :=
  match s with
  | EmptyString => EmptyString
  | String c s' => if is_space c then lstrip s' else s
  end.

Fixpoint rstrip (s : string) : string :=
  match s with
  | EmptyString => EmptyString
  | String c s' =>
      match rstrip s' with
      | EmptyString => if is_space c then EmptyString else String c EmptyString
      | r => String c r
      end
  end.

(** [s.strip()] *)
Definition strip (s : string) : string := rstrip (lstrip s).

(** Truth value of a [str]: only the empty string is falsy. *)
Definition truthy (s : string) : bool :=
  match s with EmptyString => false | String _ _ => true end.

(** Truth value of an [Optional[str]]: [None] and the empty string are falsy. *)
Definition truthy_opt (o : option string) : bool :=
  match o with None => false | Some s => truthy s end.

(** [a or b] on strings. *)
Definition str_or (a b : string) : string := if truthy a then a else b.

(** [o or b] where [o] is an [Optional[str]]. *)
Definition opt_or (o : option string) (b : string) : string :=
  match o with Some s => str_or s b | None => b end.

(** [s.replace(old, new)] for a non-empty [old]: occurrences are replaced
    from left to right and do not overlap.  [skip] counts the characters of
    an occurrence that are still to be dropped. *)
Fixpoint replace_from (skip : nat) (old new s : string) : string :=
  match s with
  | EmptyString => EmptyString
  | String c s' =>
      match skip with
      | S k => replace_from k old new s'
      | O =>
          if prefix old s
          then new ++ replace_from (String.length old - 1) old new s'
          else String c (replace_from 0 old new s')
      end
  end.

Definition replace (old new s : string) : string := replace_from 0 old new s.

(** ** Decimal fields *)

Local Open Scope Z_scope.

Definition digit_char (d : Z) : ascii := ascii_of_nat (48 + Z.to_nat d).

Definition digit_val (c : ascii) : Z := Z.of_nat (nat_of_ascii c) - 48.

(** [%02d] *)
Definition pad2 (n : Z) : string :=
  String (digit_char (n / 10 mod 10)) (String (digit_char (n mod 10)) EmptyString).

(** [%04d] *)
Definition pad4 (n : Z) : string :=
  String (digit_char (n / 1000 mod 10))
    (String (digit_char (n / 100 mod 10)) (pad2 n)).

(** [%06d] *)
Definition pad6 (n : Z) : string :=
  String (digit_char (n / 100000 mod 10))
    (String (digit_char (n / 10000 mod 10)) (pad4 n)).

(** ** Naive datetimes *)

Record datetime : Type := mk_datetime {
  year : Z; month : Z; day : Z;
  hour : Z; minute : Z; second : Z; microsecond : Z
}.

Definition midnight (y m d : Z) : datetime := mk_datetime y m d 0 0 0 0.

(** Python compares naive datetimes as the tuples
    [(year, month, day, hour, minute, second, microsecond)]. *)
Definition dt_fields (d : datetime) : list Z :=
  [year d; month d; day d; hour d; minute d; second d; microsecond d].

Fixpoint tuple_compare (a b : list Z) : comparison :=
  match a, b with
  | [], [] => Eq
  | [], _ :: _ => Lt
  | _ :: _, [] => Gt
  | x :: a', y :: b' =>
      match x ?= y with
      | Eq => tuple_compare a' b'
      | c => c
      end
  end.

Definition dt_compare (a b : datetime) : comparison :=
  tuple_compare (dt_fields a) (dt_fields b).

(** [a < b] *)
Definition dt_lt (a b : datetime) : bool :=
  match dt_compare a b with Lt => true | _ => false end.

(** [a <= b] *)
Definition dt_le (a b : datetime) : bool :=
  match dt_compare a b with Gt => false | _ => true end.

(** The calendar date of a datetime, [dt.date()], as a tuple. *)
Definition date_fields (d : datetime) : list Z := [year d; month d; day d].

(** [a.date() <= b.date()] *)
Definition date_le (a b : datetime) : bool :=
  match tuple_compare (date_fields a) (date_fields b) with
  | Gt => false
  | _ => true
  end.

(** [dt.strftime("%Y-%m-%d")] *)
Definition strftime_ymd (d : datetime) : string :=
  (pad4 (year d) ++ "-" ++ pad2 (month d) ++ "-" ++ pad2 (day d))%string.

(** [str(dt)]: ISO format with a blank separator; the fraction is printed
    only when it is not zero. *)
Definition dt_str (d : datetime) : string :=
  (strftime_ymd d ++ " " ++ pad2 (hour d) ++ ":" ++ pad2 (minute d) ++ ":"
     ++ pad2 (second d)
     ++ (if Z.eqb (microsecond d) 0 then EmptyString
         else "." ++ pad6 (microsecond d)))%string.

Definition is_leap (y : Z) : bool :=
  (y mod 4 =? 0) && (negb (y mod 100 =? 0) || (y mod 400 =? 0)).

Definition days_in_month (y m : Z) : Z :=
  if m =? 2 then (if is_leap y then 29 else 28)
  else if (m =? 4) || (m =? 6) || (m =? 9) || (m =? 11) then 30
  else 31.

(** [datetime.strptime(s, "%Y-%m-%d")]; [None] stands for [ValueError].
    The format's directives are the regular expressions of CPython's
    [_strptime]: four digits for [%Y], [1[0-2]|0[1-9]|[1-9]] for [%m] and
    [3[01]|[12]\d|0[1-9]|[1-9]| [1-9]] for [%d]; the whole string must be
    consumed and the fields must form a date of the calendar. *)
Definition parse_month (s : string) : option (Z * string) :=
  match s with
  | String a (String b rest) =>
      if (Ascii.eqb a "1"%char && is_digit b && (digit_val b <=? 2))%bool
      then Some (10 + digit_val b, rest)
      else if (Ascii.eqb a "0"%char && is_digit b && (1 <=? digit_val b))%bool
      then Some (digit_val b, rest)
      else if (is_digit a && (1 <=? digit_val a))%bool
      then Some (digit_val a, String b rest)
      else None
  | String a EmptyString =>
      if (is_digit a && (1 <=? digit_val a))%bool
      then Some (digit_val a, EmptyString) else None
  | EmptyString => None
  end.

Definition parse_day (s : string) : option (Z * string) :=
  match s with
  | String a (String b rest) =>
      if (Ascii.eqb a "3"%char && is_digit b && (digit_val b <=? 1))%bool
      then Some (30 + digit_val b, rest)
      else if (is_digit a && (1 <=? digit_val a) && (digit_val a <=? 2)
               && is_digit b)%bool
      then Some (10 * digit_val a + digit_val b, rest)
      else if (Ascii.eqb a "0"%char && is_digit b && (1 <=? digit_val b))%bool
      then Some (digit_val b, rest)
      else if (is_digit a && (1 <=? digit_val a))%bool
      then Some (digit_val a, String b rest)
      else if (Ascii.eqb a " "%char && is_digit b && (1 <=? digit_val b))%bool
      then Some (digit_val b, rest)
      else None
  | String a EmptyString =>
      if (is_digit a && (1 <=? digit_val a))%bool
      then Some (digit_val a, EmptyString) else None
  | EmptyString => None
  end.

Definition strptime_ymd (s : string) : option datetime :=
  match s with
  | String y1 (String y2 (String y3 (String y4 (String dash1 rest)))) =>
      if (is_digit y1 && is_digit y2 && is_digit y3 && is_digit y4
          && Ascii.eqb dash1 "-"%char)%bool
      then
        let y := 1000 * digit_val y1 + 100 * digit_val y2
                 + 10 * digit_val y3 + digit_val y4 in
        match parse_month rest with
        | Some (m, String dash2 rest') =>
            if Ascii.eqb dash2 "-"%char then
              match parse_day rest' with
              | Some (d, EmptyString) =>
                  if ((1 <=? y) && (d <=? days_in_month y m))%bool
                  then Some (midnight y m d) else None
              | _ => None
              end
            else None
        | _ => None
        end
      else None
  | _ => None
  end.

(** ** The rating pattern

    [re.search(r"([0-9]+(\.[0-9]+)?)\s*out of\s*([0-9]+)", s, re.I)],
    returning group 1.  Every piece of the pattern is followed by a
    character it cannot itself match, so the longest match of each piece is
    the only one that can succeed and no backtracking is needed. *)

Local Open Scope string_scope.

(** The longest prefix of decimal digits, and what follows it. *)
Fixpoint take_digits (s : string) : string * string :=
  match s with
  | EmptyString => (EmptyString, EmptyString)
  | String c s' =>
      if is_digit c
      then let (d, r) := take_digits s' in (String c d, r)
      else (EmptyString, s)
  end.

(** Matches the lower-case literal [lit] at the head of [s], ignoring case. *)
Fixpoint match_ci (lit s : string) : option string :=
  match lit with
  | EmptyString => Some s
  | String a lit' =>
      match s with
      | String b s' =>
          if Ascii.eqb (lower_char b) a then match_ci lit' s' else None
      | EmptyString => None
      end
  end.

(** The optional group [(\.[0-9]+)?]. *)
Definition take_fraction (s : string) : string * string :=
  match s with
  | String c r =>
      if Ascii.eqb c "."%char
      then let (f, r') := take_digits r in
           if truthy f then (String c f, r') else (EmptyString, s)
      else (EmptyString, s)
  | EmptyString => (EmptyString, s)
  end.

(** The pattern matched at the head of [s]: group 1 on success. *)
Definition match_rating_here (s : string) : option string :=
  let (whole, r1) := take_digits s in
  if truthy whole then
    let (frac, r2) := take_fraction r1 in
    match match_ci "out of" (lstrip r2) with
    | Some r3 =>
        let (scale, _) := take_digits (lstrip r3) in
        if truthy scale then Some (whole ++ frac) else None
    | None => None
    end
  else None.

(** The leftmost match. *)
Fixpoint search_rating (s : string) : option string :=
  match match_rating_here s with
  | Some g => Some g
  | None =>
      match s with
      | EmptyString => None
      | String _ s' => search_rating s'
      end
  end.

End Py.

(* ===================================================================== *)
(** * Exceptions, the page fixture and the run state *)
(* ===================================================================== *)

Import Py.

(** The library functions are not unfolded when a run is simplified. *)
Arguments strftime_ymd : simpl never.
Arguments strptime_ymd : simpl never.
Arguments dt_str : simpl never.
Arguments dt_lt : simpl never.
Arguments dt_le : simpl never.
Arguments date_le : simpl never.
Arguments strip : simpl never.
Arguments lower : simpl never.
Arguments replace : simpl never.

(** The exceptions of the model; all of them derive from [Exception]. *)
Inductive exn : Type :=
| ValueError (msg : string)
| TypeError
| UnboundLocalError
| PlaywrightTimeoutError
| PlaywrightError
| ParserError.

(** The result of a call that may raise. *)
Inductive res (A : Type) : Type :=
| Ok (a : A)
| Raise (e : exn).
Arguments Raise {A} e.

(** An element handle below a review card: [inner_text()] and
    [get_attribute(name)], either of which may raise. *)
Record element : Type := mk_element {
  inner_text : res string;
  get_attribute : string -> res (option string)
}.

(** A review card: [card.query_selector(selector)]. *)
Record card : Type := mk_card {
  query_selector : string -> res (option element)
}.

(** One listing page of the fixture, by selector: whether a matching
    element appears in time, the review cards, what a click on a visible
    and enabled control does ([None]: no such control or the click fails;
    [Some true]: the next listing page is loaded), and whether a challenge
    signal is on the page ([Some n]: it is, and it is still there at the
    next [n] looks). *)
Record page_fixture : Type := mk_page {
  pf_appears : string -> bool;
  pf_query_all : string -> list card;
  pf_click : string -> option bool;
  pf_challenge : string -> option nat
}.

(** The world a run observes: the clock and the random generator, read in
    order, the listing pages, and whether the first navigation completes. *)
Record env : Type := mk_env {
  clock : nat -> datetime;
  rand : nat -> Z;
  site : nat -> page_fixture;
  goto_ok : string -> bool
}.

(** What the scripts ask of the browser, in order. *)
Inductive event : Type :=
| Launch (persistent headless : bool) (slow_mo : Z) (user_agent : option string)
    (viewport : option (Z * Z))
| ApplyStealth
| Goto (url : string)
| QuerySelector (selector : string)
| QuerySelectorAll (selector : string)
| WaitForSelector (selector : string) (timeout_ms : Z)
| Click (selector : string)
| MouseWheel (dy : Z)
| Sleep (ms : Z)
| Close.

(** The time the calls to [time.sleep] have taken, in milliseconds. *)
Fixpoint slept (evs : list event) : Z :=
  match evs with
  | [] => 0
  | Sleep ms :: evs' => ms + slept evs'
  | _ :: evs' => slept evs'
  end.

(** The state of a run: the script's variables [vars], the listing page
    the browser shows, the browser calls made so far, and how often the
    clock and the random generator were read. *)
Record state (L : Type) : Type := mk_state {
  vars : L;
  browser_page : nat;
  trace : list event;
  clock_reads : nat;
  rand_reads : nat
}.

Definition initial_state (L : Type) (l : L) : state L := mk_state l 0 [] 0 0.

(** Control after one pass through a loop body. *)
Inductive ctl : Type := Continue | Break.

(** ** A state monad in which an exception keeps the state

    A Python exception does not undo the assignments and the [append]s
    made before it: [Raise] carries the state reached so far. *)

Section Monad.

Variable L : Type.

Definition M (A : Type) : Type := state L -> res A * state L.

Definition ret (A : Type) (a : A) : M A := fun s => (Ok a, s).

Definition bind (A B : Type) (m : M A) (k : A -> M B) : M B :=
  fun s =>
    match m s with
    | (Ok a, s') => k a s'
    | (Raise e, s') => (Raise e, s')
    end.

Definition raise (A : Type) (e : exn) : M A := fun s => (Raise e, s).

(** The result of a call on the fixture. *)
Definition lift (A : Type) (r : res A) : M A := fun s => (r, s).

(** [try: m  except Exception: h] *)
Definition try_except (A : Type) (m : M A) (h : exn -> M A) : M A :=
  fun s =>
    match m s with
    | (Ok a, s') => (Ok a, s')
    | (Raise e, s') => h e s'
    end.

Definition read : M L := fun s => (Ok (vars s), s).

(** The state after an assignment to the script's variables. *)
Definition with_vars (f : L -> L) (s : state L) : state L :=
  mk_state (f (vars s)) (browser_page s) (trace s) (clock_reads s) (rand_reads s).

(** The state after one more reading of the clock. *)
Definition tick (s : state L) : state L :=
  mk_state (vars s) (browser_page s) (trace s) (S (clock_reads s)) (rand_reads s).

Definition update (f : L -> L) : M unit := fun s => (Ok tt, with_vars f s).

Definition emit (e : event) : M unit :=
  fun s => (Ok tt, mk_state (vars s) (browser_page s) (trace s ++ [e])
                     (clock_reads s) (rand_reads s)).

Definition shown : M nat := fun s => (Ok (browser_page s), s).

(** [time.time()], in milliseconds: the time spent in [time.sleep] so far. *)
Definition time_time : M Z := fun s => (Ok (slept (trace s)), s).

Definition load_next_page : M unit :=
  fun s => (Ok tt, mk_state (vars s) (S (browser_page s)) (trace s)
                     (clock_reads s) (rand_reads s)).

End Monad.

Arguments ret {L A} a.
Arguments bind {L A B} m k.
Arguments raise {L A} e.
Arguments lift {L A} r.
Arguments try_except {L A} m h.
Arguments read {L}.
Arguments with_vars {L} f s.
Arguments tick {L} s.
Arguments update {L} f.
Arguments emit {L} e.
Arguments shown {L}.
Arguments time_time {L}.
Arguments load_next_page {L}.

Declare Scope py_scope.
Delimit Scope py_scope with py.
Notation "x <- m ;; k" := (bind m (fun x => k))
  (at level 61, m at next level, right associativity) : py_scope.
Notation "m ;; k" := (bind m (fun _ => k))
  (at level 61, right associativity) : py_scope.

Local Open Scope py_scope.

(** [for x in xs: body(x)] without [break]. *)
Fixpoint for_each (L A : Type) (body : A -> M L unit) (xs : list A) : M L unit :=
  match xs with
  | [] => ret tt
  | x :: xs' => body x ;; for_each body xs'
  end.

(** [for x in xs: body(x)] where the body may [break]. *)
Fixpoint for_each_break (L A : Type) (body : A -> M L ctl) (xs : list A)
  : M L unit :=
  match xs with
  | [] => ret tt
  | x :: xs' =>
      c <- body x ;;
      match c with
      | Break => ret tt
      | Continue => for_each_break body xs'
      end
  end.

(** [while True: body], unrolled at most [fuel] times; [None] when the
    loop has not ended by then. *)
Fixpoint while_true (L : Type) (fuel : nat) (body : M L ctl)
  : state L -> option (res unit * state L) :=
  fun s =>
    match fuel with
    | O => None
    | S fuel' =>
        match body s with
        | (Ok Continue, s') => while_true fuel' body s'
        | (Ok Break, s') => Some (Ok tt, s')
        | (Raise e, s') => Some (Raise e, s')
        end
    end.

(** ** The clock and the random generator *)

Section World.

Variable E : env.
Variable L : Type.

(** [datetime.now()] / [datetime.utcnow()] *)
Definition now : M L datetime :=
  fun s => (Ok (clock E (clock_reads s)), tick s).

Definition draw : M L Z :=
  fun s => (Ok (rand E (rand_reads s)),
            mk_state (vars s) (browser_page s) (trace s)
              (clock_reads s) (S (rand_reads s))).

(** [random.randint(a, b)] *)
Definition randint (a b : Z) : M L Z :=
  r <- draw ;; ret (a + r mod (b - a + 1))%Z.

(** [random.uniform(a, b)], in milliseconds. *)
Definition uniform (a b : Z) : M L Z := randint a b.

(** [random.choice(xs)] *)
Definition choice (xs : list string) : M L string :=
  r <- draw ;;
  ret (nth (Z.to_nat (r mod Z.of_nat (List.length xs))) xs EmptyString).

(** The listing page the browser shows. *)
Definition page : M L page_fixture :=
  n <- shown ;; ret (site E n).

(** [page.goto(url, timeout=60000)]: raises when the navigation times out. *)
Definition goto (url : string) : M L unit :=
  emit (Goto url) ;;
  if goto_ok E url then ret tt else raise PlaywrightTimeoutError.

End World.

Arguments now E {L}.
Arguments draw E {L}.
Arguments randint E {L} a b.
Arguments uniform E {L} a b.
Arguments choice E {L} xs.
Arguments page E {L}.
Arguments goto E {L} url.

(** The dictionary both scripts append for an accepted candidate. *)
Record review : Type := mk_review {
  source : string;
  title : string;
  description : string;
  date : string;
  rating : string
}.

(* ===================================================================== *)
(** * scraper.py *)
(* ===================================================================== *)

Module Scraper.

Local Open Scope string_scope.

Definition USER_AGENTS : list string :=
  [ "Mozilla/5.0 (Windows NT 10.0; Win64; x64) AppleWebKit/537.36 (KHTML, like Gecko) Chrome/120.0.0.0 Safari/537.36";
    "Mozilla/5.0 (Windows NT 10.0; Win64; x64; rv:121.0) Gecko/20100101 Firefox/121.0";
    "Mozilla/5.0 (Macintosh; Intel Mac OS X 13_6_3) AppleWebKit/605.1.15 (KHTML, like Gecko) Version/17.1 Safari/605.1.15" ].

Definition iso_date (dt : datetime) : string := strftime_ymd dt.

Record Selectors : Type := mk_Selectors {
  s_review_card : string;
  s_title : string;
  s_body : string;
  s_date : string;
  s_rating : option string;
  s_next_btn : option string
}.

Definition get_selectors (source : string) : option Selectors :=
  let s := lower source in
  if s =? "g2" then
    Some (mk_Selectors
      "div.paper, div.review"
      "div.review-content__title a, a.review-title, h3, h4"
      "[itemprop='reviewBody'], div.review-body, div.review-content__body"
      "time, span.time-ago, span.display-date"
      (Some "meta[itemprop='ratingValue'], [data-test='star-rating'], div.stars, span[aria-label*='star']")
      (Some "a[aria-label='Next'], a.pagination__next, a[rel='next'], button[aria-label='Next']"))
  else if s =? "capterra" then
    Some (mk_Selectors
      "div.review-card, article[data-testid='review-card'], div[data-automation='review-card']"
      "h3.review-card-title, h3[data-testid='review-title'], h3"
      "div.review-card-text, div[data-testid='review-text'], [itemprop='reviewBody']"
      "div.review-card-date, time, span[data-testid='review-date']"
      (Some "div.star-rating, [data-testid='star-rating'], span[aria-label*='star']")
      (Some "button[aria-label='Next'], button.pagination-next, a[rel='next']"))
  else if s =? "sourceforge" then
    Some (mk_Selectors
      "section.topic, div.review, article.review"
      "p.lead, h3, h4, a.title"
      "div.content, div.review-body, div.body"
      "span.posted-date, time, span.date"
      (Some "div.stars, span[aria-label*='star'], [itemprop='ratingValue']")
      (Some "a.pagination-next, a[rel='next'], a[aria-label='Next'], button[aria-label='Next']"))
  else None.

(** [extract_text_safe(root, selector)]: every exception is swallowed. *)
Definition extract_text_safe (root : card) (selector : string) : string :=
  match query_selector root selector with
  | Ok (Some el) =>
      match inner_text el with
      | Ok txt => strip (str_or txt "")
      | Raise _ => ""
      end
  | Ok None => ""
  | Raise _ => ""
  end.

(** [extract_rating_safe(root, selector)] *)
Definition extract_rating_safe (root : card) (selector : option string) : string :=
  match selector with
  | None => ""
  | Some sel =>
      if negb (truthy sel) then "" else
      match query_selector root sel with
      | Ok (Some el) =>
          match get_attribute el "aria-label" with
          | Raise _ => ""
          | Ok a =>
              let aria := opt_or a "" in
              match (if truthy aria then search_rating aria else None) with
              | Some g => g
              | None =>
                  match inner_text el with
                  | Raise _ => ""
                  | Ok txt =>
                      let content := strip (str_or txt "") in
                      if truthy content then content else ""
                  end
              end
          end
      | Ok None => ""
      | Raise _ => ""
      end
  end.

(** [c.replace(" ", "-")] *)
Definition build_url (source company : string) : string :=
  let s := lower source in
  let slug := replace " " "-" (lower (strip company)) in
  if s =? "g2" then "https://www.g2.com/products/" ++ slug ++ "/reviews"
  else if s =? "capterra" then "https://www.capterra.com/p/" ++ slug ++ "/reviews"
  else if s =? "sourceforge"
  then "https://sourceforge.net/software/product/" ++ slug ++ "/reviews"
  else "".

Definition within_range (dt start end_ : datetime) : bool :=
  dt_le start dt && dt_le dt end_.

(** The variables of [scrape_reviews] that the page loop assigns. *)
Record locals : Type := mk_locals {
  results : list review;
  old_review_reached : bool;
  page_index : nat
}.

Definition set_old_review_reached (b : bool) (l : locals) : locals :=
  mk_locals (results l) b (page_index l).

Definition append_result (r : review) (l : locals) : locals :=
  mk_locals (results l ++ [r]) (old_review_reached l) (page_index l).

Definition incr_page_index (l : locals) : locals :=
  mk_locals (results l) (old_review_reached l) (S (page_index l)).

Section Run.

(** [dateparser.parse(s, settings=...)] with [RELATIVE_BASE] set to the
    second argument: a date, [None], or an exception. *)
Variable dateparse : string -> datetime -> res (option datetime).

Variable E : env.

Local Open Scope py_scope.

Definition human_sleep (a b : Z) : M locals unit :=
  t <- uniform E a b ;; emit (Sleep t).

Definition now_utc : M locals datetime := now E.

Definition parse_date_str (s : option string) : M locals (option datetime) :=
  match s with
  | None => ret None
  | Some s =>
      if negb (truthy s) then ret None
      else
        base <- now_utc ;;
        lift (dateparse s base)
  end.

Definition captcha_signals : list string :=
  [ "iframe[src*='hcaptcha']"; "iframe[src*='recaptcha']";
    "#challenge-stage"; "#cf-challenge-running" ].

(** [while time.time() < deadline: human_sleep(1.0, 2.0); if not
    page.query_selector(sel): return].  Every pass sleeps for a second at
    least, so [fuel] passes are enough when [fuel] exceeds the seconds to
    the deadline; [still] is the number of looks at which the signal is still
    on the page. *)
Fixpoint wait_for_manual_solve (fuel : nat) (sel : string) (deadline : Z)
    (still : nat) : M locals unit :=
  match fuel with
  | O => ret tt
  | S fuel' =>
      t <- time_time ;;
      if (t <? deadline)%Z then
        human_sleep 1000 2000 ;;
        emit (QuerySelector sel) ;;
        match still with
        | O => ret tt
        | S still' => wait_for_manual_solve fuel' sel deadline still'
        end
      else ret tt
  end.

(** [detect_and_handle_captcha(page, max_wait_seconds)]: the first signal
    found is waited for, and nothing that goes wrong is let out. *)
Definition detect_and_handle_captcha (max_wait_seconds : Z) : M locals unit :=
  try_except
    (for_each_break
       (fun sel =>
          emit (QuerySelector sel) ;;
          p <- page E ;;
          match pf_challenge p sel with
          | Some still =>
              t <- time_time ;;
              wait_for_manual_solve (S (Z.to_nat max_wait_seconds)) sel
                (t + 1000 * max_wait_seconds) still ;;
              ret Break
          | None => ret Continue
          end)
       captcha_signals)
    (fun _ => ret tt).

Definition try_click (selector : string) (timeout_ms : Z) : M locals bool :=
  emit (WaitForSelector selector timeout_ms) ;;
  p <- page E ;;
  match pf_click p selector with
  | Some advances =>
      emit (Click selector) ;;
      (if advances then load_next_page else ret tt) ;;
      ret true
  | None => ret false
  end.

Definition possible_accepts : list string :=
  [ "button#onetrust-accept-btn-handler"; "button[aria-label='Accept all']";
    "button:has-text('Accept All')"; "button:has-text('I Agree')";
    "button:has-text('Accept')"; "button:has-text('Got it')" ].

Definition accept_cookies_if_any : M locals unit :=
  for_each_break
    (fun sel =>
       clicked <- try_click sel 1500 ;;
       if clicked then human_sleep 800 1800 ;; ret Break else ret Continue)
    possible_accepts.

Fixpoint scroll_page (steps : nat) : M locals unit :=
  match steps with
  | O => ret tt
  | S k =>
      dy <- randint E 800 1400 ;;
      emit (MouseWheel dy) ;;
      human_sleep 400 1000 ;;
      scroll_page k
  end.

Section Loop.

Variable selectors : Selectors.
Variables start end_ : datetime.
Variable source : string.

(** The text handed to the normalizer: the visible date, or the
    [datetime] attribute when the visible text is empty. *)
Definition date_raw_of (c : card) : M locals (option string) :=
  let date_raw := extract_text_safe c (s_date selectors) in
  if negb (truthy date_raw) then
    date_el <- lift (query_selector c (s_date selectors)) ;;
    match date_el with
    | Some el => lift (get_attribute el "datetime")
    | None => ret (Some "")
    end
  else ret (Some date_raw).

(** The dictionary appended for a candidate dated [dt]. *)
Definition record_of (c : card) (dt : datetime) : review :=
  let title := str_or (extract_text_safe c (s_title selectors)) "" in
  let body := str_or (extract_text_safe c (s_body selectors)) "" in
  let rating := str_or (extract_rating_safe c (s_rating selectors)) "" in
  mk_review (lower source) title body (iso_date dt) (str_or rating "N/A").

(** [dt = parse_date_str(date_raw)] *)
Definition normalized_date (c : card) : M locals (option datetime) :=
  date_raw <- date_raw_of c ;;
  parse_date_str date_raw.

(** The three tests on [dt]; [continue] ends the pass. *)
Definition classify (c : card) (dt : option datetime) : M locals unit :=
  match dt with
  | None => ret tt
  | Some dt =>
      if dt_lt dt start then update (set_old_review_reached true)
      else if within_range dt start end_
      then update (append_result (record_of c dt))
      else ret tt
  end.

(** The body of the [try] in the loop over the cards. *)
Definition card_body (c : card) : M locals unit :=
  dt <- normalized_date c ;;
  classify c dt.

(** [try: ... except Exception: continue] *)
Definition card_iteration (c : card) : M locals unit :=
  try_except (card_body c) (fun _ => ret tt).

(** The end of the loop body: the click on the next-page control. *)
Definition paginate : M locals ctl :=
  has_next <-
    (match s_next_btn selectors with
     | Some next_btn =>
         if truthy next_btn then
           scroll_page 3 ;; scroll_page 3 ;; try_click next_btn 3000
         else ret false
     | None => ret false
     end) ;;
  if negb has_next then ret Break
  else update incr_page_index ;; human_sleep 2000 4000 ;; ret Continue.

(** One pass through the body of [while True]. *)
Definition page_iteration : M locals ctl :=
  detect_and_handle_captcha 120 ;;
  emit (WaitForSelector (s_review_card selectors) 15000) ;;
  p <- page E ;;
  if negb (pf_appears p (s_review_card selectors)) then ret Break
  else
    emit (QuerySelectorAll (s_review_card selectors)) ;;
    match pf_query_all p (s_review_card selectors) with
    | [] => ret Break
    | cards =>
        for_each card_iteration cards ;;
        l <- read ;;
        if old_review_reached l then ret Break else paginate
    end.

End Loop.

(** The browser session up to the page loop. *)
Definition open_session (company source : string) (headless : bool)
    (user_data_dir start_url : option string) (wait_after_nav : Z) : M locals unit :=
  ua <- choice E USER_AGENTS ;;
  launch_slow_mo <- randint E 200 600 ;;
  width <- randint E 1280 1680 ;;
  height <- randint E 800 1050 ;;
  emit (Launch (truthy_opt user_data_dir) headless launch_slow_mo (Some ua)
          (Some (width, height))) ;;
  emit ApplyStealth ;;
  let url := if truthy_opt start_url then opt_or start_url ""
             else build_url source company in
  try_except (goto E url)
    (fun e => match e with
              | PlaywrightTimeoutError => ret tt
              | _ => raise e
              end) ;;
  accept_cookies_if_any ;;
  detect_and_handle_captcha 120 ;;
  (if (0 <? wait_after_nav)%Z then emit (Sleep (1000 * wait_after_nav)) else ret tt) ;;
  scroll_page 5.

Definition initial : state locals := initial_state (mk_locals [] false 1).

(** [scrape_reviews(company, start_date, end_date, source, headless,
    user_data_dir, start_url, wait_after_nav)]; [None] when the page loop
    has not ended after [fuel] pages. *)
Definition scrape_reviews (fuel : nat) (company start_date end_date source : string)
    (headless : bool) (user_data_dir start_url : option string)
    (wait_after_nav : Z) : option (res (list review) * state locals) :=
  match get_selectors source with
  | None => Some (Raise (ValueError ("Unsupported source: " ++ source)), initial)
  | Some selectors =>
      match strptime_ymd start_date with
      | None => Some (Raise (ValueError "time data does not match format"), initial)
      | Some start =>
          match strptime_ymd end_date with
          | None => Some (Raise (ValueError "time data does not match format"), initial)
          | Some end_ =>
              if dt_lt end_ start
              then Some (Raise (ValueError "end_date must be >= start_date"), initial)
              else
                match open_session company source headless user_data_dir
                        start_url wait_after_nav initial with
                | (Raise e, s) => Some (Raise e, s)
                | (Ok _, s1) =>
                    match while_true fuel
                            (page_iteration selectors start end_ source) s1 with
                    | None => None
                    | Some (Raise e, s2) => Some (Raise e, s2)
                    | Some (Ok _, s2) =>
                        match emit Close s2 with
                        | (_, s3) => Some (Ok (results (vars s3)), s3)
                        end
                    end
                end
          end
      end
  end.

End Run.

(** The values that the command line of scraper.py admits for [--source]
    ([choices] in [main]). *)
Definition SOURCE_CHOICES : list string := ["g2"; "capterra"; "sourceforge"].

End Scraper.

(* ===================================================================== *)
(** * review_scraper.py *)
(* ===================================================================== *)

Module ReviewScraper.

Local Open Scope string_scope.

(** The double quote, for the selectors that contain one. *)
Definition dq : string := String (ascii_of_nat 34) EmptyString.

(** The dictionary returned by [get_selectors], by key. *)
Record selector_dict : Type := mk_selector_dict {
  k_review_card : string;
  k_title : string;
  k_body : string;
  k_date : string;
  k_rating : string;
  k_next_btn : string
}.

Definition get_selectors (source : string) : option selector_dict :=
  if source =? "https://www.g2.com/" then
    Some (mk_selector_dict
      "div.paper"
      "div.review-content__title a"
      ("div[itemprop=" ++ dq ++ "reviewBody" ++ dq ++ "]")
      "time"
      ("meta[itemprop=" ++ dq ++ "ratingValue" ++ dq ++ "]")
      "a.pagination__named-link.js-log-click")
  else if source =? "https://www.capterra.in/" then
    Some (mk_selector_dict
      "div.review-card"
      "h3.review-card-title"
      "div.review-card-text"
      "div.review-card-date"
      "div.star-rating"
      "button.pagination-next")
  else if source =? "sourceforge" then
    Some (mk_selector_dict
      "section.topic"
      "p.lead"
      "div.content"
      "span.posted-date"
      "div.stars"
      "a.pagination-next")
  else None.

(** The variables of [scrape_reviews] that the page loop assigns. *)
Record locals : Type := mk_locals {
  reviews_data : list review;
  found_old_review : bool
}.

Definition set_found_old_review (b : bool) (l : locals) : locals :=
  mk_locals (reviews_data l) b.

Definition append_item (r : review) (l : locals) : locals :=
  mk_locals (reviews_data l ++ [r]) (found_old_review l).

(** [clean_str] in [parse_date]: the text without the prefixes
    [Written on] and [Posted on]. *)
Definition clean_str_of (date_str : string) : string :=
  strip (replace "Posted on" "" (replace "Written on" "" date_str)).

Section Run.

(** [dateutil.parser.parse(s)]: a date or an exception.  The second
    argument is the clock reading from which the parser fills the fields
    the text leaves out. *)
Variable dateutil_parse : string -> datetime -> res datetime.

Variable E : env.

Local Open Scope py_scope.

(** [parse_date(date_str)]: the bare [except] turns every failure into
    [datetime.now()]. *)
Definition parse_date (date_str : string) : M locals datetime :=
  try_except
    (today <- now E ;;
     lift (dateutil_parse (clean_str_of date_str) today))
    (fun _ => now E).

Section Loop.

Variable selectors : selector_dict.
Variables start end_ : datetime.
Variable source : string.

(** The text of the element [el], or the fallback when there is none. *)
Definition text_or (el : option element) (fallback : string) : M locals string :=
  match el with
  | Some e => t <- lift (inner_text e) ;; ret (strip t)
  | None => ret fallback
  end.

(** [date_text], with [str(datetime.now())] for a card without a date
    element. *)
Definition date_text_of (c : card) : M locals string :=
  date_el <- lift (query_selector c (k_date selectors)) ;;
  match date_el with
  | Some el => lift (inner_text el)
  | None => n <- now E ;; ret (dt_str n)
  end.

(** [review_date = parse_date(date_text)] *)
Definition review_date_of (c : card) : M locals datetime :=
  date_text <- date_text_of c ;;
  parse_date date_text.

(** The filter and the extraction; [break] on a card older than the range. *)
Definition classify (c : card) (review_date : datetime) : M locals ctl :=
  if dt_lt review_date start then
    update (set_found_old_review true) ;; ret Break
  else if dt_le start review_date && dt_le review_date end_ then
    title_el <- lift (query_selector c (k_title selectors)) ;;
    body_el <- lift (query_selector c (k_body selectors)) ;;
    item_title <- text_or title_el "No Title" ;;
    item_description <- text_or body_el "" ;;
    update (append_item
              (mk_review source item_title item_description
                 (strftime_ymd review_date) "N/A")) ;;
    ret Continue
  else ret Continue.

(** The body of the [try] in the loop over the cards. *)
Definition card_body (c : card) : M locals ctl :=
  review_date <- review_date_of c ;;
  classify c review_date.

(** [try: ... except Exception as e: continue] *)
Definition card_iteration (c : card) : M locals ctl :=
  try_except (card_body c) (fun _ => ret Continue).

(** The end of the loop body: the click on the next-page control. *)
Definition paginate : M locals ctl :=
  emit (QuerySelector (k_next_btn selectors)) ;;
  p <- page E ;;
  match pf_click p (k_next_btn selectors) with
  | Some advances =>
      emit (Click (k_next_btn selectors)) ;;
      (if advances then load_next_page else ret tt) ;;
      t <- uniform E 3000 6000 ;;
      emit (Sleep t) ;;
      ret Continue
  | None => ret Break
  end.

(** One pass through the body of [while True]. *)
Definition page_iteration : M locals ctl :=
  emit (QuerySelectorAll (k_review_card selectors)) ;;
  p <- page E ;;
  match pf_query_all p (k_review_card selectors) with
  | [] => ret Break
  | cards =>
      update (set_found_old_review false) ;;
      for_each_break card_iteration cards ;;
      l <- read ;;
      if found_old_review l then ret Break else paginate
  end.

End Loop.

(** The URL by source; an unknown source leaves [url] unbound. *)
Definition url_of (source company : string) : res string :=
  if source =? "g2"
  then Ok ("https://www.g2.com/products/" ++ lower company ++ "/reviews")
  else if source =? "capterra"
  then Ok ("https://www.capterra.com/p/" ++ lower company ++ "/reviews")
  else if source =? "sourceforge"
  then Ok ("https://sourceforge.net/software/product/" ++ company ++ "/reviews")
  else Raise UnboundLocalError.

(** The browser session up to the page loop. *)
Definition open_session (company source : string) : M locals unit :=
  emit (Launch false false 500 None None) ;;
  url <- lift (url_of source company) ;;
  goto E url ;;
  emit (Sleep 10000).

(** [selectors['review_card']] and the rest of the loop body: subscripting
    [None] raises [TypeError]. *)
Definition loop_body (selectors : option selector_dict)
    (start end_ : datetime) (source : string) : M locals ctl :=
  match selectors with
  | Some d => page_iteration d start end_ source
  | None => raise TypeError
  end.

Definition initial : state locals := initial_state (mk_locals [] false).

(** [scrape_reviews(company, start_date, end_date, source)] *)
Definition scrape_reviews (fuel : nat) (company start_date end_date source : string)
  : option (res (list review) * state locals) :=
  match strptime_ymd start_date with
  | None => Some (Raise (ValueError "time data does not match format"), initial)
  | Some start =>
      match strptime_ymd end_date with
      | None => Some (Raise (ValueError "time data does not match format"), initial)
      | Some end_ =>
          match open_session company source initial with
          | (Raise e, s) => Some (Raise e, s)
          | (Ok _, s1) =>
              match while_true fuel
                      (loop_body (get_selectors source) start end_ source) s1 with
              | None => None
              | Some (Raise e, s2) => Some (Raise e, s2)
              | Some (Ok _, s2) =>
                  match emit Close s2 with
                  | (_, s3) => Some (Ok (reviews_data (vars s3)), s3)
                  end
              end
          end
      end
  end.

End Run.

(** The values that the command line of review_scraper.py admits for
    [--source] ([choices] in the main block). *)
Definition SOURCE_CHOICES : list string := ["g2"; "capterra"; "sourceforge"].

End ReviewScraper.

(* ===================================================================== *)
(** * A page fixture *)
(* ===================================================================== *)

(** A three-page SourceForge listing that answers the selectors of both
    scripts, with stand-ins for the external parsers that read ISO dates
    and reject every other text. *)
Module Fixture.

Local Open Scope string_scope.

Definition text_element (txt : string) : element :=
  mk_element (Ok txt) (fun _ => Ok None).

Definition stars_element (aria : string) : element :=
  mk_element (Ok "")
    (fun name => if name =? "aria-label" then Ok (Some aria) else Ok None).

(** A card with a visible date, a title, a body and a star rating. *)
Definition review_card (date_text title_text body_text aria : string) : card :=
  mk_card (fun sel =>
    if prefix "span.posted-date" sel then Ok (Some (text_element date_text))
    else if prefix "p.lead" sel then Ok (Some (text_element title_text))
    else if prefix "div.content" sel then Ok (Some (text_element body_text))
    else if prefix "div.stars" sel then Ok (Some (stars_element aria))
    else Ok None).

(** A card whose every lookup fails. *)
Definition broken_card : card := mk_card (fun _ => Raise PlaywrightError).

Definition listing (cards : list card) (has_next : bool) : page_fixture :=
  mk_page
    (fun _ => match cards with [] => false | _ => true end)
    (fun _ => cards)
    (fun sel => if prefix "a.pagination-next" sel && has_next
                then Some true else None)
    (fun _ => None).

(** The page [p] behind a Cloudflare challenge that is still there at the
    next [n] looks. *)
Definition behind_challenge (p : page_fixture) (n : nat) : page_fixture :=
  mk_page (pf_appears p) (pf_query_all p) (pf_click p)
    (fun sel => if sel =? "#challenge-stage" then Some n else None).

Definition site_of (pages : list page_fixture) (n : nat) : page_fixture :=
  nth n pages (listing [] false).

Definition noon (y m d : Z) : datetime := mk_datetime y m d 12 0 0 0.

Definition world (pages : list page_fixture) (today : datetime) (seed : Z) : env :=
  mk_env (fun _ => today) (fun n => (seed + Z.of_nat n)%Z) (site_of pages)
    (fun _ => true).

(** Stand-in for [dateparser.parse]: ISO dates only. *)
Definition iso_dateparse (s : string) (base : datetime) : res (option datetime) :=
  Ok (strptime_ymd s).

(** Stand-in for [dateparser.parse] that also reads the relative date
    [now] as the base it is given. *)
Definition relative_dateparse (s : string) (base : datetime)
  : res (option datetime) :=
  if s =? "now" then Ok (Some base) else Ok (strptime_ymd s).

(** Stand-in for [dateutil.parser.parse]: ISO dates only. *)
Definition iso_dateutil (s : string) (today : datetime) : res datetime :=
  match strptime_ymd s with
  | Some d => Ok d
  | None => Raise ParserError
  end.

Definition in_range_card (d : string) : card :=
  review_card d "Great" "Works well" "4.5 out of 5 stars".

Definition page1 : page_fixture :=
  listing (map in_range_card
             ["2024-03-09"; "2024-03-08"; "2024-03-07"; "2024-03-06"; "2024-03-05"])
    true.

Definition page2 : page_fixture :=
  listing (map in_range_card
             ["2024-03-04"; "2024-02-27"; "2024-03-03"; "2024-02-26"; "2024-03-01"])
    true.

Definition page3 : page_fixture :=
  listing (map in_range_card ["2024-02-20"; "2024-02-19"]) false.

Definition three_pages : list page_fixture := [page1; page2; page3].

(** The same listing with a challenge on its first page that does not go
    away by itself. *)
Definition challenged_pages : list page_fixture :=
  [behind_challenge page1 1000; page2; page3].

(** The SourceForge selectors of the two scripts. *)
Definition sourceforge : Scraper.Selectors :=
  match Scraper.get_selectors "sourceforge" with
  | Some d => d
  | None => Scraper.mk_Selectors "" "" "" "" None None
  end.

Definition sourceforge_rs : ReviewScraper.selector_dict :=
  match ReviewScraper.get_selectors "sourceforge" with
  | Some d => d
  | None => ReviewScraper.mk_selector_dict "" "" "" "" "" ""
  end.

End Fixture.

(* ===================================================================== *)
(** * Vocabulary of the properties *)
(* ===================================================================== *)

(** The part of the state that the clock does not touch. *)
Definition beside_clock (L : Type) (s : state L) : L * nat * list event * nat :=
  (vars s, browser_page s, trace s, rand_reads s).

(** The browser's side of the state. *)
Definition browser_side (L : Type) (s : state L) : nat * list event * nat :=
  (browser_page s, trace s, rand_reads s).

(** The date of a dictionary lies in the range: it is the ISO date of a
    datetime between [start] and [end_]. *)
Definition dated_within (start end_ : datetime) (r : review) : Prop :=
  exists dt,
    date r = Scraper.iso_date dt /\
    dt_le start dt = true /\ dt_le dt end_ = true /\
    date_le start dt = true /\ date_le dt end_ = true.

(** The run of scraper.py on the three-page fixture, read on 10 March 2024
    for the range 1 to 9 March 2024. *)
Definition fixture_run : option (res (list review) * state Scraper.locals) :=
  Scraper.scrape_reviews Fixture.iso_dateparse
    (Fixture.world Fixture.three_pages (Fixture.noon 2024 3 10) 7) 5
    "Acme Tool" "2024-03-01" "2024-03-09" "SourceForge" true None None 0.

(** The same listing read by review_scraper.py. *)
Definition fixture_run_rs : option (res (list review) * state ReviewScraper.locals) :=
  ReviewScraper.scrape_reviews Fixture.iso_dateutil
    (Fixture.world Fixture.three_pages (Fixture.noon 2024 3 10) 7) 5
    "Acme Tool" "2024-03-01" "2024-03-09" "sourceforge".

(** The collected dictionaries are kept, and a flag that is set stays set. *)
Definition collects_more (l l' : Scraper.locals) : Prop :=
  (exists more, Scraper.results l' = Scraper.results l ++ more) /\
  (Scraper.old_review_reached l = true -> Scraper.old_review_reached l' = true).

(** A browser call that leaves the listing page as it is: neither a click
    nor a navigation. *)
Definition stays_on_page (e : event) : Prop :=
  match e with
  | Click _ | Goto _ => False
  | _ => True
  end.

(** Two runs read the same listing at the same times: the clock, the pages
    and the outcome of the first navigation are the same; the random
    generator need not be. *)
Definition same_fixture (E1 E2 : env) : Prop :=
  clock E1 = clock E2 /\ site E1 = site E2 /\ goto_ok E1 = goto_ok E2.

(** What a run hands back to its caller: the returned dictionaries or the
    exception, or nothing when the page loop has not ended. *)
Definition outcome (L : Type) (r : option (res (list review) * state L))
  : option (res (list review)) :=
  option_map fst r.

(** The dictionaries of a run that returned, none otherwise. *)
Definition fst_ok (L : Type) (r : res (list review) * state L) : list review :=
  match fst r with
  | Ok rs => rs
  | Raise _ => []
  end.

Arguments fst_ok {L} r.

(** The part of the state that does not depend on the random generator. *)
Definition core (L : Type) (s : state L) : L * nat * nat :=
  (vars s, browser_page s, clock_reads s).

(** Two results are the same exception, or two values related by [Q]. *)
Definition res_rel (A : Type) (Q : A -> A -> Prop) (r1 r2 : res A) : Prop :=
  match r1, r2 with
  | Ok a1, Ok a2 => Q a1 a2
  | Raise e1, Raise e2 => e1 = e2
  | _, _ => False
  end.

(** Two computations that, started in states with the same core, end in
    states with the same core and with related results. *)
Definition agree (L A : Type) (Q : A -> A -> Prop) (m1 m2 : M L A) : Prop :=
  forall s1 s2,
    core s1 = core s2 ->
    res_rel Q (fst (m1 s1)) (fst (m2 s2)) /\
    core (snd (m1 s1)) = core (snd (m2 s2)).

(** Any two values. *)
Definition whatever (A : Type) (a1 a2 : A) : Prop := True.

(** The character [c] occurs in [s]. *)
Fixpoint has_char (c : ascii) (s : string) : bool :=
  match s with
  | EmptyString => false
  | String a s' => Ascii.eqb a c || has_char c s'
  end.

(** Every character of [s] is a decimal digit. *)
Fixpoint all_digits (s : string) : bool :=
  match s with
  | EmptyString => true
  | String c s' => is_digit c && all_digits s'
  end.

(** No character of [s] is a decimal digit. *)
Fixpoint no_digit (s : string) : bool :=
  match s with
  | EmptyString => true
  | String c s' => negb (is_digit c) && no_digit s'
  end.

(** [s] is a non-empty run of decimal digits. *)
Definition digit_run (s : string) : bool := truthy s && all_digits s.

(** [g] is a decimal number: digits, then possibly a point and more
    digits. *)
Definition decimal_number (g : string) : Prop :=
  exists whole frac,
    g = (whole ++ frac)%string /\ digit_run whole = true /\
    (frac = EmptyString \/
     exists f, frac = String "."%char f /\ digit_run f = true).

(** [old in s]: the text [old] occurs somewhere in [s]. *)
Fixpoint occurs (old s : string) : bool :=
  prefix old s ||
  match s with
  | EmptyString => false
  | String _ s' => occurs old s'
  end.

(** The selectors clicked, in order. *)
Fixpoint clicked (evs : list event) : list string :=
  match evs with
  | [] => []
  | Click sel :: evs' => sel :: clicked evs'
  | _ :: evs' => clicked evs'
  end.

(** The wheel moves, in order. *)
Fixpoint wheeled (evs : list event) : list Z :=
  match evs with
  | [] => []
  | MouseWheel dy :: evs' => dy :: wheeled evs'
  | _ :: evs' => wheeled evs'
  end.

(** The pauses, in order, in milliseconds. *)
Fixpoint pauses (evs : list event) : list Z :=
  match evs with
  | [] => []
  | Sleep ms :: evs' => ms :: pauses evs'
  | _ :: evs' => pauses evs'
  end.

(** A browser call made on the page once the session is open: neither a
    launch, nor the stealth set-up, nor a navigation, nor the close. *)
Definition on_the_site (e : event) : Prop :=
  match e with
  | Launch _ _ _ _ _ | ApplyStealth | Goto _ | Close => False
  | _ => True
  end.

(** The page [p] has a visible and enabled control for [sel]. *)
Definition clickable (p : page_fixture) (sel : string) : bool :=
  match pf_click p sel with
  | Some _ => true
  | None => false
  end.

(** No character of [s] is white space. *)
Fixpoint no_space (s : string) : bool :=
  match s with
  | EmptyString => true
  | String c s' => negb (is_space c) && no_space s'
  end.

(** [dt] is a time after midnight: its fields of the time of day are not
    negative and not all zero. *)
Definition after_midnight (dt : datetime) : Prop :=
  (0 <= hour dt /\ 0 <= minute dt /\ 0 <= second dt /\ 0 <= microsecond dt /\
   0 < hour dt + minute dt + second dt + microsecond dt)%Z.

(** The date text of a card as the loop of scraper.py reads it: the visible
    text of the date element, or its [datetime] attribute when that text is
    empty. *)
Definition date_text (selectors : Scraper.Selectors) (c : card)
  : res (option string) :=
  let date_raw := Scraper.extract_text_safe c (Scraper.s_date selectors) in
  if truthy date_raw then Ok (Some date_raw)
  else
    match query_selector c (Scraper.s_date selectors) with
    | Ok (Some el) => get_attribute el "datetime"
    | Ok None => Ok (Some EmptyString)
    | Raise e => Raise e
    end.

(** The date of a card, read at the time [base]; none for a card without a
    date that can be read. *)
Definition card_date (dateparse : string -> datetime -> res (option datetime))
    (base : datetime) (selectors : Scraper.Selectors) (c : card)
  : option datetime :=
  match date_text selectors c with
  | Ok (Some text) =>
      if truthy text then
        match dateparse text base with
        | Ok (Some d) => Some d
        | _ => None
        end
      else None
  | _ => None
  end.

(** The dictionaries of the cards of a page that are dated within the
    range, in the order of the cards. *)
Definition page_records (dateparse : string -> datetime -> res (option datetime))
    (base : datetime) (selectors : Scraper.Selectors) (start end_ : datetime)
    (src : string) (cards : list card) : list review :=
  flat_map
    (fun c =>
       match card_date dateparse base selectors c with
       | Some d =>
           if Scraper.within_range d start end_
           then [Scraper.record_of selectors src c d] else []
       | None => []
       end)
    cards.

(** Some card of the page is dated before the start of the range. *)
Definition page_has_older (dateparse : string -> datetime -> res (option datetime))
    (base : datetime) (selectors : Scraper.Selectors) (start : datetime)
    (cards : list card) : bool :=
  existsb
    (fun c =>
       match card_date dateparse base selectors c with
       | Some d => dt_lt d start
       | None => false
       end)
    cards.

(** The page the browser shows when the page loop of scraper.py starts:
    the first page, or the second when the first has a cookie button whose
    click loads the next page. *)
Definition landing_page (E : env) : nat :=
  match find (clickable (site E 0)) Scraper.possible_accepts with
  | Some sel =>
      match pf_click (site E 0) sel with
      | Some true => 1
      | _ => 0
      end
  | None => 0
  end.

(** The dictionaries of the listing from page [k] on, as a crawl of at most
    [passes] pages collects them: the cards of each page that are dated
    within the range, page after page, up to the first page that shows no
    cards, holds a card dated before the start, or has no next-page control
    to click.  A click that does not load the next page makes the same page
    be read again. *)
Fixpoint listing_records
    (dateparse : string -> datetime -> res (option datetime)) (base : datetime)
    (E : env) (selectors : Scraper.Selectors) (start end_ : datetime)
    (src : string) (passes k : nat) : list review :=
  match passes with
  | O => []
  | S passes' =>
      let p := site E k in
      if negb (pf_appears p (Scraper.s_review_card selectors)) then []
      else
        match pf_query_all p (Scraper.s_review_card selectors) with
        | [] => []
        | cards =>
            page_records dateparse base selectors start end_ src cards ++
            (if page_has_older dateparse base selectors start cards then []
             else
               match Scraper.s_next_btn selectors with
               | Some next_btn =>
                   if truthy next_btn then
                     match pf_click p next_btn with
                     | Some advances =>
                         listing_records dateparse base E selectors start end_
                           src passes' (if advances then S k else k)
                     | None => []
                     end
                   else []
               | None => []
               end)
        end
  end.



(* ===================================================================== *)
(** * Facts about the Python values *)
(* ===================================================================== *)

Section TupleOrder.

Local Open Scope Z_scope.

Lemma tuple_compare_refl (a : list Z) : tuple_compare a a = Eq.
Proof.
  induction a as [|x a IH]; cbn; [reflexivity|].
  now rewrite Z.compare_refl.
Qed.

Lemma tuple_compare_antisym (a b : list Z) :
  tuple_compare b a = CompOpp (tuple_compare a b).
Proof.
  revert b; induction a as [|x a IH]; intros [|y b]; cbn; try reflexivity.
  rewrite (Z.compare_antisym x y).
  destruct (x ?= y); cbn; auto.
Qed.

Lemma tuple_compare_le_lt (a b c : list Z) :
  tuple_compare a b <> Gt -> tuple_compare b c = Lt -> tuple_compare a c = Lt.
Proof.
  revert b c; induction a as [|x a IH]; intros [|y b] [|z c]; cbn;
    try congruence.
  destruct (Z.compare_spec x y), (Z.compare_spec y z), (Z.compare_spec x z);
    subst; try lia; try congruence; eauto.
Qed.

Lemma tuple_compare_le_trans (a b c : list Z) :
  tuple_compare a b <> Gt -> tuple_compare b c <> Gt -> tuple_compare a c <> Gt.
Proof.
  revert b c; induction a as [|x a IH]; intros [|y b] [|z c]; cbn;
    try congruence.
  destruct (Z.compare_spec x y), (Z.compare_spec y z), (Z.compare_spec x z);
    subst; try lia; try congruence; eauto.
Qed.

End TupleOrder.

Section DatetimeOrder.

Local Open Scope Z_scope.

Implicit Types a b c : datetime.

Lemma dt_le_refl a : dt_le a a = true.
Proof. unfold dt_le, dt_compare. now rewrite tuple_compare_refl. Qed.

Lemma dt_lt_not_le a b : dt_lt a b = negb (dt_le b a).
Proof.
  unfold dt_lt, dt_le, dt_compare.
  rewrite (tuple_compare_antisym (dt_fields a) (dt_fields b)).
  now destruct (tuple_compare (dt_fields a) (dt_fields b)).
Qed.

Lemma dt_le_true a b : dt_le a b = true <-> dt_compare a b <> Gt.
Proof. unfold dt_le. destruct (dt_compare a b); intuition congruence. Qed.

Lemma dt_lt_true a b : dt_lt a b = true <-> dt_compare a b = Lt.
Proof. unfold dt_lt. destruct (dt_compare a b); intuition congruence. Qed.

Lemma dt_le_trans a b c : dt_le a b = true -> dt_le b c = true -> dt_le a c = true.
Proof. rewrite !dt_le_true. apply tuple_compare_le_trans. Qed.

Lemma dt_le_lt_trans a b c : dt_le a b = true -> dt_lt b c = true -> dt_lt a c = true.
Proof. rewrite dt_le_true, !dt_lt_true. apply tuple_compare_le_lt. Qed.

(** A datetime that is not after another is not on a later day. *)
Lemma dt_le_date_le a b : dt_le a b = true -> date_le a b = true.
Proof.
  unfold dt_le, date_le, dt_compare, dt_fields, date_fields; cbn.
  destruct (year a ?= year b); try easy.
  destruct (month a ?= month b); try easy.
  destruct (day a ?= day b); easy.
Qed.

(** An older datetime is not within a range that starts later. *)
Lemma dt_le_not_lt a b : dt_le a b = true -> dt_lt b a = false.
Proof. intros H. rewrite dt_lt_not_le, H. reflexivity. Qed.

End DatetimeOrder.

Section Strings.

Local Open Scope string_scope.

Lemma truthy_str_or (a b : string) : truthy b = true -> truthy (str_or a b) = true.
Proof. unfold str_or. destruct (truthy a) eqn:Ha; auto. Qed.

Lemma str_or_cases (a b : string) :
  (truthy a = true /\ str_or a b = a) \/ (a = "" /\ str_or a b = b).
Proof. destruct a; cbn; auto. Qed.

Lemma truthy_not_empty (s : string) : truthy s = true <-> s <> "".
Proof. destruct s; cbn; intuition congruence. Qed.

Lemma truthy_append (a b : string) : truthy a = true -> truthy (a ++ b) = true.
Proof. destruct a; cbn; easy. Qed.

(** Group 1 of the rating pattern holds at least one digit. *)
Lemma match_rating_here_truthy (s g : string) :
  match_rating_here s = Some g -> truthy g = true.
Proof.
  unfold match_rating_here.
  destruct (take_digits s) as [whole r1].
  destruct (truthy whole) eqn:Hw; [|discriminate].
  destruct (take_fraction r1) as [frac r2].
  destruct (match_ci "out of" (lstrip r2)) as [r3|]; [|discriminate].
  destruct (take_digits (lstrip r3)) as [scale r4].
  destruct (truthy scale); [|discriminate].
  intros [= <-]. now apply truthy_append.
Qed.

Lemma search_rating_truthy (s g : string) :
  search_rating s = Some g -> truthy g = true.
Proof.
  induction s as [|c s IH]; cbn [search_rating].
  - destruct (match_rating_here "") eqn:H; [|discriminate].
    intros [= <-]. eauto using match_rating_here_truthy.
  - destruct (match_rating_here (String c s)) eqn:H; [|exact IH].
    intros [= <-]. eauto using match_rating_here_truthy.
Qed.

End Strings.

(* ===================================================================== *)
(** * Reasoning about runs *)
(* ===================================================================== *)

(** ** What a computation does to the state

    [respects R m]: every run of [m] takes a state to one related by the
    preorder [R], whether it returns or raises. *)

Section Respects.

Variable L : Type.
Variable R : state L -> state L -> Prop.
Context {R_pre : PreOrder R}.

Definition respects (A : Type) (m : M L A) : Prop :=
  forall s, R s (snd (m s)).

Lemma respects_ret (A : Type) (a : A) : respects (ret a).
Proof. intros s; cbn; reflexivity. Qed.

Lemma respects_raise (A : Type) (e : exn) : respects (@raise L A e).
Proof. intros s; cbn; reflexivity. Qed.

Lemma respects_lift (A : Type) (r : res A) : respects (lift r).
Proof. intros s; cbn; reflexivity. Qed.

Lemma respects_read : respects read.
Proof. intros s; cbn; reflexivity. Qed.

Lemma respects_shown : respects shown.
Proof. intros s; cbn; reflexivity. Qed.

Lemma respects_time_time : respects time_time.
Proof. intros s; cbn; reflexivity. Qed.

Lemma respects_bind (A B : Type) (m : M L A) (k : A -> M L B) :
  respects m -> (forall a, respects (k a)) -> respects (bind m k).
Proof.
  intros Hm Hk s. unfold bind.
  specialize (Hm s). destruct (m s) as [[a|e] s1]; cbn in *; auto.
  transitivity s1; auto. apply Hk.
Qed.

Lemma respects_try_except (A : Type) (m : M L A) (h : exn -> M L A) :
  respects m -> (forall e, respects (h e)) -> respects (try_except m h).
Proof.
  intros Hm Hh s. unfold try_except.
  specialize (Hm s). destruct (m s) as [[a|e] s1]; cbn in *; auto.
  transitivity s1; auto. apply Hh.
Qed.

Lemma respects_for_each (A : Type) (body : A -> M L unit) (xs : list A) :
  (forall x, respects (body x)) -> respects (for_each body xs).
Proof.
  intros Hb. induction xs as [|x xs IH]; cbn [for_each].
  - apply respects_ret.
  - apply respects_bind; auto.
Qed.

Lemma respects_for_each_break (A : Type) (body : A -> M L ctl) (xs : list A) :
  (forall x, respects (body x)) -> respects (for_each_break body xs).
Proof.
  intros Hb. induction xs as [|x xs IH]; cbn [for_each_break].
  - apply respects_ret.
  - apply respects_bind; auto. intros []; auto. apply respects_ret.
Qed.

Lemma respects_while_true (body : M L ctl) :
  respects body ->
  forall fuel s r s', while_true fuel body s = Some (r, s') -> R s s'.
Proof.
  intros Hb. induction fuel as [|fuel IH]; intros s r s'; cbn [while_true].
  - discriminate.
  - specialize (Hb s). destruct (body s) as [[[]|e] s1]; cbn in Hb.
    + intros H. transitivity s1; eauto.
    + intros [= <- <-]. exact Hb.
    + intros [= <- <-]. exact Hb.
Qed.

End Respects.

(** ** The relations used below *)

Section Relations.

Variable L : Type.

(** [f] has the same value afterwards. *)
Definition keeps (X : Type) (f : state L -> X) (s s' : state L) : Prop :=
  f s' = f s.

(** What holds of the variables before holds of them afterwards. *)
Definition holds (I : L -> Prop) (s s' : state L) : Prop :=
  I (vars s) -> I (vars s').

(** The browser calls made in between all satisfy [Q]. *)
Definition grows (Q : event -> Prop) (s s' : state L) : Prop :=
  exists evs, trace s' = trace s ++ evs /\ Forall Q evs.

Definition both (R1 R2 : state L -> state L -> Prop) (s s' : state L) : Prop :=
  R1 s s' /\ R2 s s'.

#[global] Instance keeps_pre (X : Type) (f : state L -> X) : PreOrder (keeps f).
Proof.
  split; [intros s; reflexivity|].
  intros a b c H1 H2; unfold keeps in *; congruence.
Qed.

#[global] Instance holds_pre (I : L -> Prop) : PreOrder (holds I).
Proof. split; [intros s; red; auto | intros a b c H1 H2; red; auto]. Qed.

#[global] Instance grows_pre (Q : event -> Prop) : PreOrder (grows Q).
Proof.
  split.
  - intros s. exists []. now rewrite app_nil_r.
  - intros a b c [e1 [H1 Q1]] [e2 [H2 Q2]]. exists (e1 ++ e2). split.
    + now rewrite H2, H1, app_assoc.
    + apply Forall_app; auto.
Qed.

#[global] Instance both_pre (R1 R2 : state L -> state L -> Prop)
  {P1 : PreOrder R1} {P2 : PreOrder R2} : PreOrder (both R1 R2).
Proof.
  split.
  - intros s; split; reflexivity.
  - intros a b c [H1 H2] [H3 H4]; split; etransitivity; eauto.
Qed.

Lemma respects_both (R1 R2 : state L -> state L -> Prop) (A : Type) (m : M L A) :
  respects R1 m -> respects R2 m -> respects (both R1 R2) m.
Proof. intros H1 H2 s; split; auto. Qed.

(** A relation between the script's variables before and afterwards. *)
Definition on_vars (Rv : L -> L -> Prop) (s s' : state L) : Prop :=
  Rv (vars s) (vars s').

#[global] Instance on_vars_pre (Rv : L -> L -> Prop) {P : PreOrder Rv} :
  PreOrder (on_vars Rv).
Proof.
  split.
  - intros s; red; reflexivity.
  - intros a b c H1 H2; red; etransitivity; eauto.
Qed.

Section OnVars.

Variable Rv : L -> L -> Prop.
Context {Rv_pre : PreOrder Rv}.
Variable E : env.

Lemma on_vars_emit (e : event) : respects (on_vars Rv) (emit e).
Proof. intros s; red; cbn; reflexivity. Qed.

Lemma on_vars_now : respects (on_vars Rv) (now E).
Proof. intros s; red; cbn; reflexivity. Qed.

Lemma on_vars_draw : respects (on_vars Rv) (draw E).
Proof. intros s; red; cbn; reflexivity. Qed.

Lemma on_vars_load_next_page : respects (on_vars Rv) load_next_page.
Proof. intros s; red; cbn; reflexivity. Qed.

Lemma on_vars_update (f : L -> L) :
  (forall l, Rv l (f l)) -> respects (on_vars Rv) (update f).
Proof. intros H s; red; cbn; apply H. Qed.

Lemma on_vars_randint (a b : Z) : respects (on_vars Rv) (randint E a b).
Proof. intros s; red; cbn; reflexivity. Qed.

Lemma on_vars_choice (xs : list string) : respects (on_vars Rv) (choice E xs).
Proof. intros s; red; cbn; reflexivity. Qed.

Lemma on_vars_page : respects (on_vars Rv) (page E).
Proof. intros s; red; cbn; reflexivity. Qed.

End OnVars.

End Relations.

(** Decomposes a [respects] goal along the structure of the computation. *)
Ltac respects_step :=
  lazymatch goal with
  | |- respects _ (ret _) => apply respects_ret; exact _
  | |- respects _ (raise _) => apply respects_raise; exact _
  | |- respects _ (lift _) => apply respects_lift; exact _
  | |- respects _ read => apply respects_read; exact _
  | |- respects _ shown => apply respects_shown; exact _
  | |- respects _ time_time => apply respects_time_time; exact _
  | |- respects _ (goto _ _) => unfold goto
  | |- respects _ (bind _ _) => apply respects_bind; [exact _ | | intros ?]
  | |- respects _ (try_except _ _) =>
      apply respects_try_except; [exact _ | | intros ?]
  | |- respects _ (for_each _ _) =>
      apply respects_for_each; [exact _ | intros ?]
  | |- respects _ (for_each_break _ _) =>
      apply respects_for_each_break; [exact _ | intros ?]
  | |- respects (on_vars _) (emit _) => apply on_vars_emit; exact _
  | |- respects (on_vars _) (now _) => apply on_vars_now; exact _
  | |- respects (on_vars _) (draw _) => apply on_vars_draw; exact _
  | |- respects (on_vars _) (randint _ _ _) => apply on_vars_randint; exact _
  | |- respects (on_vars _) (uniform _ _ _) => apply on_vars_randint; exact _
  | |- respects (on_vars _) (choice _ _) => apply on_vars_choice; exact _
  | |- respects (on_vars _) (page _) => apply on_vars_page; exact _
  | |- respects (on_vars _) load_next_page =>
      apply on_vars_load_next_page; exact _
  | |- respects _ (if ?b then _ else _) => destruct b
  | |- respects _ (match ?x with _ => _ end) => destruct x
  end.

(** A call that only reads or writes a field the relation ignores. *)
Ltac respects_prim :=
  let s := fresh "s" in
  intros s; cbn;
  first [ reflexivity
        | solve [red; cbn; auto]
        | solve [eexists; split; [reflexivity | repeat constructor; cbn; auto]]
        | solve [exists []; split; [now rewrite app_nil_r | constructor]] ].

Ltac respects_auto :=
  repeat respects_step; try solve [respects_prim | auto].

(* ===================================================================== *)
(** * scraper.py: the candidates of one page *)
(* ===================================================================== *)

Section ScraperCards.

Variable dateparse : string -> datetime -> res (option datetime).
Variable E : env.
Variable selectors : Scraper.Selectors.
Variables start end_ : datetime.
Variable source : string.

#[local] Abbreviation date_raw_of := (Scraper.date_raw_of selectors).
#[local] Abbreviation parse_date_str := (Scraper.parse_date_str dateparse E).
#[local] Abbreviation normalized_date := (Scraper.normalized_date dateparse E selectors).
#[local] Abbreviation classify := (Scraper.classify selectors start end_ source).
#[local] Abbreviation record_of := (Scraper.record_of selectors source).
#[local] Abbreviation card_body := (Scraper.card_body dateparse E selectors start end_ source).
#[local] Abbreviation card_iteration :=
  (Scraper.card_iteration dateparse E selectors start end_ source).

(** Looking up the date text leaves the state alone. *)
Lemma date_raw_of_pure (c : card) (s : state Scraper.locals) :
  snd (date_raw_of c s) = s.
Proof.
  unfold Scraper.date_raw_of.
  destruct (negb _); [|reflexivity].
  unfold bind, lift.
  destruct (query_selector c _) as [[el|]|e]; cbn; auto.
Qed.

(** The normalizer: absent for [None] and the empty string without a look
    at the clock; otherwise what [dateparser] makes of the text, relative
    to one reading of the clock. *)
Lemma parse_date_str_falsy (raw : option string) (s : state Scraper.locals) :
  truthy_opt raw = false -> parse_date_str raw s = (Ok None, s).
Proof.
  destruct raw as [str|]; cbn; [|reflexivity].
  intros ->. reflexivity.
Qed.

Lemma parse_date_str_truthy (str : string) (s : state Scraper.locals) :
  truthy str = true ->
  parse_date_str (Some str) s = (dateparse str (clock E (clock_reads s)), tick s).
Proof. cbn. intros ->. reflexivity. Qed.

Lemma parse_date_str_state (raw : option string) (s s' : state Scraper.locals)
    (r : res (option datetime)) :
  parse_date_str raw s = (r, s') ->
  (s' = s /\ r = Ok None) \/ s' = tick s.
Proof.
  destruct (truthy_opt raw) eqn:Hraw.
  - destruct raw as [str|]; [|discriminate]. cbn in Hraw.
    rewrite parse_date_str_truthy by assumption. intros [= <- <-]. auto.
  - rewrite parse_date_str_falsy by assumption. intros [= <- <-]. auto.
Qed.

Lemma normalized_date_state (c : card) (s s' : state Scraper.locals)
    (r : res (option datetime)) :
  normalized_date c s = (r, s') ->
  (s' = s /\ forall dt, r <> Ok (Some dt)) \/ s' = tick s.
Proof.
  unfold Scraper.normalized_date, bind.
  pose proof (date_raw_of_pure c s) as Hpure.
  destruct (date_raw_of c s) as [[raw|e] s1]; cbn in Hpure; subst s1.
  - intros H. apply parse_date_str_state in H as [[-> ->] | ->]; auto.
    left; split; [reflexivity|congruence].
  - intros [= <- <-]. left; split; [reflexivity|congruence].
Qed.

(** The three tests never raise. *)
Lemma classify_cases (c : card) (dt : option datetime) (s : state Scraper.locals) :
  classify c dt s =
  (Ok tt,
   match dt with
   | None => s
   | Some d =>
       if dt_lt d start then with_vars (Scraper.set_old_review_reached true) s
       else if Scraper.within_range d start end_
       then with_vars (Scraper.append_result (record_of c d)) s
       else s
   end).
Proof.
  unfold Scraper.classify. destruct dt as [d|]; [|reflexivity].
  destruct (dt_lt d start); [reflexivity|].
  destruct (Scraper.within_range d start end_); reflexivity.
Qed.

(** The pass over a card whose date was normalized to [dt]. *)
Lemma card_body_normalized (c : card) (s s1 : state Scraper.locals)
    (dt : option datetime) :
  normalized_date c s = (Ok dt, s1) ->
  card_body c s = classify c dt s1.
Proof. intros H. unfold Scraper.card_body, bind. now rewrite H. Qed.

Lemma card_iteration_normalized (c : card) (s s1 : state Scraper.locals)
    (dt : option datetime) :
  normalized_date c s = (Ok dt, s1) ->
  card_iteration c s = classify c dt s1.
Proof.
  intros H. unfold Scraper.card_iteration, try_except.
  rewrite (card_body_normalized c s H), classify_cases. reflexivity.
Qed.

(** An exception in the pass over a card comes from the lookup of its
    date or from the parser, before any assignment. *)
Lemma card_body_raises (c : card) (s s' : state Scraper.locals) (e : exn) :
  card_body c s = (Raise e, s') ->
  normalized_date c s = (Raise e, s') /\ (s' = s \/ s' = tick s).
Proof.
  unfold Scraper.card_body, bind.
  destruct (normalized_date c s) as [[dt|e'] s1] eqn:Hn.
  - rewrite classify_cases. discriminate.
  - intros [= <- <-]. split; [reflexivity|].
    apply normalized_date_state in Hn as [[-> _] | ->]; auto.
Qed.

(** The [try] around the pass always comes back normally. *)
Lemma card_iteration_returns (c : card) (s : state Scraper.locals) :
  fst (card_iteration c s) = Ok tt.
Proof.
  unfold Scraper.card_iteration, try_except.
  destruct (card_body c s) as [[[]|e] s1]; reflexivity.
Qed.

Lemma for_each_card_returns (cards : list card) (s : state Scraper.locals) :
  fst (for_each card_iteration cards s) = Ok tt.
Proof.
  revert s; induction cards as [|c cards IH]; intros s; cbn [for_each].
  - reflexivity.
  - unfold bind. pose proof (card_iteration_returns c s) as Hc.
    destruct (card_iteration c s) as [r s1]; cbn in Hc; subst r. apply IH.
Qed.

(** The loop over the cards is the passes one after the other. *)
Lemma for_each_card_cons (c : card) (cards : list card)
    (s : state Scraper.locals) :
  for_each card_iteration (c :: cards) s =
  for_each card_iteration cards (snd (card_iteration c s)).
Proof.
  cbn [for_each]. unfold bind.
  pose proof (card_iteration_returns c s) as Hc.
  destruct (card_iteration c s) as [r s1]; cbn in *; subst r. reflexivity.
Qed.

Lemma for_each_card_app (cards1 cards2 : list card) (s : state Scraper.locals) :
  for_each card_iteration (cards1 ++ cards2) s =
  for_each card_iteration cards2 (snd (for_each card_iteration cards1 s)).
Proof.
  revert s; induction cards1 as [|c cards1 IH]; intros s.
  - reflexivity.
  - rewrite <- app_comm_cons, !for_each_card_cons. apply IH.
Qed.

End ScraperCards.

(* ===================================================================== *)
(** * scraper.py: what a run does to the variables *)
(* ===================================================================== *)

Section ScraperVars.

Variable dateparse : string -> datetime -> res (option datetime).
Variable E : env.

(** A preorder on the variables that every assignment of the page loop
    respects. *)
Variable Rv : Scraper.locals -> Scraper.locals -> Prop.
Context {Rv_pre : PreOrder Rv}.

Lemma human_sleep_vars (a b : Z) : respects (on_vars Rv) (Scraper.human_sleep E a b).
Proof. unfold Scraper.human_sleep. respects_auto. Qed.

Lemma scroll_page_vars (steps : nat) : respects (on_vars Rv) (Scraper.scroll_page E steps).
Proof.
  induction steps as [|k IH]; cbn [Scraper.scroll_page]; respects_auto.
  apply human_sleep_vars.
Qed.

Lemma try_click_vars (selector : string) (timeout_ms : Z) :
  respects (on_vars Rv) (Scraper.try_click E selector timeout_ms).
Proof. unfold Scraper.try_click. respects_auto. Qed.

Lemma wait_for_manual_solve_vars (fuel : nat) (sel : string) (deadline : Z)
    (still : nat) :
  respects (on_vars Rv)
    (Scraper.wait_for_manual_solve E fuel sel deadline still).
Proof.
  revert still; induction fuel as [|fuel IH]; intros still;
    cbn [Scraper.wait_for_manual_solve]; respects_auto;
    auto using human_sleep_vars.
Qed.

Lemma detect_and_handle_captcha_vars (max_wait_seconds : Z) :
  respects (on_vars Rv) (Scraper.detect_and_handle_captcha E max_wait_seconds).
Proof.
  unfold Scraper.detect_and_handle_captcha. respects_auto.
  apply wait_for_manual_solve_vars.
Qed.

Lemma accept_cookies_if_any_vars :
  respects (on_vars Rv) (Scraper.accept_cookies_if_any E).
Proof.
  unfold Scraper.accept_cookies_if_any. respects_auto.
  - apply try_click_vars.
  - apply human_sleep_vars.
Qed.

Lemma open_session_vars (company source : string) (headless : bool)
    (user_data_dir start_url : option string) (wait_after_nav : Z) :
  respects (on_vars Rv)
    (Scraper.open_session E company source headless user_data_dir start_url
       wait_after_nav).
Proof.
  unfold Scraper.open_session. respects_auto;
    auto using accept_cookies_if_any_vars, detect_and_handle_captcha_vars,
      scroll_page_vars.
Qed.

Section Loop.

Variable selectors : Scraper.Selectors.
Variables start end_ : datetime.
Variable source : string.

Hypothesis Rv_old : forall l, Rv l (Scraper.set_old_review_reached true l).
Hypothesis Rv_append :
  forall c dt l,
    dt_lt dt start = false -> Scraper.within_range dt start end_ = true ->
    Rv l (Scraper.append_result (Scraper.record_of selectors source c dt) l).
Hypothesis Rv_incr : forall l, Rv l (Scraper.incr_page_index l).

Lemma card_iteration_vars (c : card) :
  respects (on_vars Rv)
    (Scraper.card_iteration dateparse E selectors start end_ source c).
Proof.
  intros s. red.
  destruct (Scraper.normalized_date dateparse E selectors c s) as [[dt|e] s1] eqn:Hn.
  - erewrite card_iteration_normalized by exact Hn. rewrite classify_cases.
    assert (Hv : vars s1 = vars s)
      by (apply normalized_date_state in Hn as [[-> _] | ->]; reflexivity).
    cbn [snd]. destruct dt as [d|]; [|rewrite Hv; reflexivity].
    destruct (dt_lt d start) eqn:Hlt; [cbn; rewrite Hv; apply Rv_old|].
    destruct (Scraper.within_range d start end_) eqn:Hin.
    + cbn; rewrite Hv. now apply Rv_append.
    + rewrite Hv; reflexivity.
  - unfold Scraper.card_iteration, try_except, Scraper.card_body, bind.
    rewrite Hn. cbn.
    apply normalized_date_state in Hn as [[-> _] | ->]; reflexivity.
Qed.

Lemma page_iteration_vars :
  respects (on_vars Rv)
    (Scraper.page_iteration dateparse E selectors start end_ source).
Proof.
  unfold Scraper.page_iteration, Scraper.paginate. respects_auto;
    auto using detect_and_handle_captcha_vars, card_iteration_vars,
      scroll_page_vars, try_click_vars, human_sleep_vars, on_vars_update.
Qed.

End Loop.

End ScraperVars.

(* ===================================================================== *)
(** * scraper.py: a whole run *)
(* ===================================================================== *)

Section ScraperRun.

Variable dateparse : string -> datetime -> res (option datetime).
Variable E : env.

Local Open Scope string_scope.

(** A run that returns has passed the checks of the arguments, opened the
    session, left the page loop and closed the browser. *)
Lemma scrape_reviews_returns (fuel : nat) (company start_date end_date source : string)
    (headless : bool) (user_data_dir start_url : option string)
    (wait_after_nav : Z) (rs : list review) (st : state Scraper.locals) :
  Scraper.scrape_reviews dateparse E fuel company start_date end_date source
    headless user_data_dir start_url wait_after_nav = Some (Ok rs, st) ->
  exists selectors start end_ s1 s2,
    Scraper.get_selectors source = Some selectors /\
    strptime_ymd start_date = Some start /\
    strptime_ymd end_date = Some end_ /\
    dt_lt end_ start = false /\
    Scraper.open_session E company source headless user_data_dir start_url
      wait_after_nav Scraper.initial = (Ok tt, s1) /\
    while_true fuel
      (Scraper.page_iteration dateparse E selectors start end_ source) s1
      = Some (Ok tt, s2) /\
    st = snd (emit Close s2) /\
    rs = Scraper.results (vars s2).
Proof.
  unfold Scraper.scrape_reviews.
  destruct (Scraper.get_selectors source) as [selectors|]; [|discriminate].
  destruct (strptime_ymd start_date) as [start|]; [|discriminate].
  destruct (strptime_ymd end_date) as [end_|]; [|discriminate].
  destruct (dt_lt end_ start) eqn:Hlt; [discriminate|].
  destruct (Scraper.open_session _ _ _ _ _ _ _ _) as [[[]|e] s1] eqn:Hopen;
    [|discriminate].
  destruct (while_true _ _ _) as [[[[]|e] s2]|] eqn:Hloop; try discriminate.
  cbn. intros [= <- <-].
  exists selectors, start, end_, s1, s2. auto 10.
Qed.

(** Every dictionary of the result was built from a card whose date
    passed the range test. *)
Lemma scrape_reviews_all (P : review -> Prop)
    (fuel : nat) (company start_date end_date source : string)
    (headless : bool) (user_data_dir start_url : option string)
    (wait_after_nav : Z) (rs : list review) (st : state Scraper.locals) :
  (forall selectors start end_ c dt,
      Scraper.get_selectors source = Some selectors ->
      strptime_ymd start_date = Some start ->
      strptime_ymd end_date = Some end_ ->
      Scraper.within_range dt start end_ = true ->
      P (Scraper.record_of selectors source c dt)) ->
  Scraper.scrape_reviews dateparse E fuel company start_date end_date source
    headless user_data_dir start_url wait_after_nav = Some (Ok rs, st) ->
  Forall P rs.
Proof.
  intros HP Hrun.
  apply scrape_reviews_returns in Hrun
    as (selectors & start & end_ & s1 & s2 & Hsel & Hs & He & _ & Hopen & Hloop & _ & ->).
  set (Rv := fun l l' : Scraper.locals =>
               Forall P (Scraper.results l) -> Forall P (Scraper.results l')).
  assert (Rv_pre : PreOrder Rv).
  { split; [intros l; red; auto | intros a b c H1 H2; red; auto]. }
  assert (H1 : on_vars Rv Scraper.initial s1).
  { pose proof (@open_session_vars E Rv Rv_pre company source headless
                  user_data_dir start_url wait_after_nav Scraper.initial) as H.
    now rewrite Hopen in H. }
  assert (H2 : on_vars Rv s1 s2).
  { eapply respects_while_true; [exact _| |exact Hloop].
    apply page_iteration_vars; [exact _| | |].
    - intros l; red; auto.
    - intros c dt l _ Hin; red; cbn. intros Hl.
      apply Forall_app; split; [assumption|].
      constructor; [|constructor]. eapply HP; eauto.
    - intros l; red; auto. }
  apply H2, H1. constructor.
Qed.

End ScraperRun.

(* ===================================================================== *)
(** * review_scraper.py: the candidates of one page *)
(* ===================================================================== *)

Section ReviewScraperCards.

Variable dateutil_parse : string -> datetime -> res datetime.
Variable E : env.
Variable selectors : ReviewScraper.selector_dict.
Variables start end_ : datetime.
Variable source : string.

#[local] Abbreviation rs_parse_date := (ReviewScraper.parse_date dateutil_parse E).
#[local] Abbreviation rs_review_date_of :=
  (ReviewScraper.review_date_of dateutil_parse E selectors).
#[local] Abbreviation rs_classify := (ReviewScraper.classify selectors start end_ source).
#[local] Abbreviation rs_card_body :=
  (ReviewScraper.card_body dateutil_parse E selectors start end_ source).
#[local] Abbreviation rs_card_iteration :=
  (ReviewScraper.card_iteration dateutil_parse E selectors start end_ source).

Local Open Scope string_scope.

(** [parse_date] returns what [dateutil] reads in the cleaned text. *)
Lemma parse_date_parsed (date_str : string) (s : state ReviewScraper.locals)
    (d : datetime) :
  dateutil_parse (ReviewScraper.clean_str_of date_str) (clock E (clock_reads s)) = Ok d ->
  rs_parse_date date_str s = (Ok d, tick s).
Proof.
  intros H. unfold ReviewScraper.parse_date, try_except, bind, now, lift.
  now rewrite H.
Qed.

(** When [dateutil] raises, [parse_date] returns the next reading of the
    clock. *)
Lemma parse_date_fallback (date_str : string) (s : state ReviewScraper.locals)
    (e : exn) :
  dateutil_parse (ReviewScraper.clean_str_of date_str) (clock E (clock_reads s)) = Raise e ->
  rs_parse_date date_str s = (Ok (clock E (S (clock_reads s))), tick (tick s)).
Proof.
  intros H. unfold ReviewScraper.parse_date, try_except, bind, now, lift.
  now rewrite H.
Qed.

(** [parse_date] never raises and never returns without a date. *)
Lemma parse_date_total (date_str : string) (s : state ReviewScraper.locals) :
  exists d s', rs_parse_date date_str s = (Ok d, s') /\
               beside_clock s' = beside_clock s.
Proof.
  destruct (dateutil_parse (ReviewScraper.clean_str_of date_str) (clock E (clock_reads s)))
    as [d|e] eqn:H.
  - exists d, (tick s). split; [now apply parse_date_parsed | reflexivity].
  - eexists _, _. split; [eapply parse_date_fallback; eassumption | reflexivity].
Qed.

(** Finding and normalizing the date only reads the clock. *)
Lemma review_date_of_beside_clock (c : card) :
  respects (keeps (@beside_clock _)) (rs_review_date_of c).
Proof.
  intros s. unfold keeps, ReviewScraper.review_date_of, bind.
  assert (Ht : keeps (@beside_clock _) s
                 (snd (ReviewScraper.date_text_of E selectors c s))).
  { unfold ReviewScraper.date_text_of, bind, lift.
    destruct (query_selector c _) as [[el|]|e]; cbn; reflexivity. }
  destruct (ReviewScraper.date_text_of E selectors c s) as [[txt|e] s1];
    cbn [snd] in Ht |- *; [|exact Ht].
  destruct (parse_date_total txt s1) as (d & s2 & -> & H2). cbn.
  unfold keeps in Ht. congruence.
Qed.

(** The filter either flags the page, appends one dictionary, leaves the
    state alone, or raises while it extracts the title and the body, before
    it has appended anything. *)
Lemma classify_cases_rs (c : card) (d : datetime) (s s' : state ReviewScraper.locals)
    (r : res ctl) :
  rs_classify c d s = (r, s') ->
  (dt_lt d start = true /\ r = Ok Break /\
   s' = with_vars (ReviewScraper.set_found_old_review true) s)
  \/ (dt_lt d start = false /\ dt_le start d && dt_le d end_ = true /\
      r = Ok Continue /\
      exists t b, s' = with_vars (ReviewScraper.append_item
                                    (mk_review source t b (strftime_ymd d) "N/A")) s)
  \/ (dt_lt d start = false /\ s' = s /\ r <> Ok Break).
Proof.
  unfold ReviewScraper.classify.
  destruct (dt_lt d start) eqn:Hlt.
  - cbn. intros [= <- <-]. auto.
  - destruct (dt_le start d && dt_le d end_) eqn:Hin.
    + unfold bind, lift, ReviewScraper.text_or.
      destruct (query_selector c (ReviewScraper.k_title selectors))
        as [title_el|e]; [|intros [= <- <-]; right; right; easy].
      destruct (query_selector c (ReviewScraper.k_body selectors))
        as [body_el|e]; [|intros [= <- <-]; right; right; easy].
      destruct title_el as [el|]; cbn.
      * destruct (inner_text el) as [t|e]; cbn;
          [|intros [= <- <-]; right; right; easy].
        destruct body_el as [el'|]; cbn.
        -- destruct (inner_text el') as [b|e]; cbn;
             [|intros [= <- <-]; right; right; easy].
           intros [= <- <-]. right; left. repeat split; eauto.
        -- intros [= <- <-]. right; left. repeat split; eauto.
      * destruct body_el as [el'|]; cbn.
        -- destruct (inner_text el') as [b|e]; cbn;
             [|intros [= <- <-]; right; right; easy].
           intros [= <- <-]. right; left. repeat split; eauto.
        -- intros [= <- <-]. right; left. repeat split; eauto.
    + cbn. intros [= <- <-]. right; right. easy.
Qed.

(** An exception in the pass over a card leaves everything but the clock
    as it was. *)
Lemma card_body_raises_rs (c : card) (s s' : state ReviewScraper.locals) (e : exn) :
  rs_card_body c s = (Raise e, s') -> beside_clock s' = beside_clock s.
Proof.
  unfold ReviewScraper.card_body, bind.
  pose proof (review_date_of_beside_clock c s) as Hd. unfold keeps in Hd.
  destruct (rs_review_date_of c s) as [[d|e'] s1]; cbn in Hd.
  - intros H. apply classify_cases_rs in H
      as [(_ & [=] & _) | [(_ & _ & [=] & _) | (_ & -> & _)]].
    exact Hd.
  - intros [= <- <-]. exact Hd.
Qed.

(** The [try] around the pass always comes back normally. *)
Lemma card_iteration_returns_rs (c : card) (s : state ReviewScraper.locals) :
  exists k, fst (rs_card_iteration c s) = Ok k.
Proof.
  unfold ReviewScraper.card_iteration, try_except.
  destruct (rs_card_body c s) as [[k|e] s1]; cbn; eauto.
Qed.

(** The pass over a card whose date was normalized to [d]. *)
Lemma card_iteration_dated_rs (c : card) (s s1 : state ReviewScraper.locals)
    (d : datetime) :
  rs_review_date_of c s = (Ok d, s1) ->
  rs_card_iteration c s =
  match rs_classify c d s1 with
  | (Ok k, s2) => (Ok k, s2)
  | (Raise _, s2) => (Ok Continue, s2)
  end.
Proof.
  intros H. unfold ReviewScraper.card_iteration, try_except,
    ReviewScraper.card_body, bind.
  rewrite H. destruct (rs_classify c d s1) as [[k|e] s2]; reflexivity.
Qed.

End ReviewScraperCards.

(* ===================================================================== *)
(** * review_scraper.py: a whole run *)
(* ===================================================================== *)

Section ReviewScraperVars.

Variable dateutil_parse : string -> datetime -> res datetime.
Variable E : env.

Variable Rv : ReviewScraper.locals -> ReviewScraper.locals -> Prop.
Context {Rv_pre : PreOrder Rv}.

Local Open Scope string_scope.

Lemma open_session_vars_rs (company source : string) :
  respects (on_vars Rv) (ReviewScraper.open_session E company source).
Proof. unfold ReviewScraper.open_session. respects_auto. Qed.

Section Loop.

Variables start end_ : datetime.
Variable source : string.

Hypothesis Rv_found : forall b l, Rv l (ReviewScraper.set_found_old_review b l).
Hypothesis Rv_append :
  forall t b d l,
    Rv l (ReviewScraper.append_item (mk_review source t b (strftime_ymd d) "N/A") l).

Lemma card_iteration_vars_rs (selectors : ReviewScraper.selector_dict) (c : card) :
  respects (on_vars Rv)
    (ReviewScraper.card_iteration dateutil_parse E selectors start end_ source c).
Proof.
  unfold ReviewScraper.card_iteration, ReviewScraper.card_body,
    ReviewScraper.review_date_of, ReviewScraper.date_text_of,
    ReviewScraper.parse_date, ReviewScraper.classify, ReviewScraper.text_or.
  respects_auto; auto using on_vars_update.
Qed.

Lemma loop_body_vars_rs (selectors : option ReviewScraper.selector_dict) :
  respects (on_vars Rv)
    (ReviewScraper.loop_body dateutil_parse E selectors start end_ source).
Proof.
  unfold ReviewScraper.loop_body, ReviewScraper.page_iteration,
    ReviewScraper.paginate.
  respects_auto; auto using on_vars_update, card_iteration_vars_rs.
Qed.

End Loop.

End ReviewScraperVars.

Section ReviewScraperRun.

Variable dateutil_parse : string -> datetime -> res datetime.
Variable E : env.

Local Open Scope string_scope.

(** A run that returns has read both dates, opened the session, left the
    page loop and closed the browser. *)
Lemma scrape_reviews_returns_rs (fuel : nat)
    (company start_date end_date source : string)
    (rs : list review) (st : state ReviewScraper.locals) :
  ReviewScraper.scrape_reviews dateutil_parse E fuel company start_date end_date
    source = Some (Ok rs, st) ->
  exists start end_ s1 s2,
    strptime_ymd start_date = Some start /\
    strptime_ymd end_date = Some end_ /\
    ReviewScraper.open_session E company source ReviewScraper.initial = (Ok tt, s1) /\
    while_true fuel
      (ReviewScraper.loop_body dateutil_parse E
         (ReviewScraper.get_selectors source) start end_ source) s1
      = Some (Ok tt, s2) /\
    st = snd (emit Close s2) /\
    rs = ReviewScraper.reviews_data (vars s2).
Proof.
  unfold ReviewScraper.scrape_reviews.
  destruct (strptime_ymd start_date) as [start|]; [|discriminate].
  destruct (strptime_ymd end_date) as [end_|]; [|discriminate].
  destruct (ReviewScraper.open_session _ _ _ _) as [[[]|e] s1] eqn:Hopen;
    [|discriminate].
  destruct (while_true _ _ _) as [[[[]|e] s2]|] eqn:Hloop; try discriminate.
  cbn. intros [= <- <-].
  exists start, end_, s1, s2. auto 10.
Qed.

(** Every dictionary of the result has the shape the loop gives it. *)
Lemma scrape_reviews_all_rs (P : review -> Prop) (fuel : nat)
    (company start_date end_date source : string)
    (rs : list review) (st : state ReviewScraper.locals) :
  (forall t b d, P (mk_review source t b (strftime_ymd d) "N/A")) ->
  ReviewScraper.scrape_reviews dateutil_parse E fuel company start_date end_date
    source = Some (Ok rs, st) ->
  Forall P rs.
Proof.
  intros HP Hrun.
  apply scrape_reviews_returns_rs in Hrun
    as (start & end_ & s1 & s2 & Hs & He & Hopen & Hloop & _ & ->).
  set (Rv := fun l l' : ReviewScraper.locals =>
               Forall P (ReviewScraper.reviews_data l) ->
               Forall P (ReviewScraper.reviews_data l')).
  assert (Rv_pre : PreOrder Rv).
  { split; [intros l; red; auto | intros a b c H1 H2; red; auto]. }
  assert (H1 : on_vars Rv ReviewScraper.initial s1).
  { pose proof (@open_session_vars_rs E Rv Rv_pre company source
                  ReviewScraper.initial) as H.
    now rewrite Hopen in H. }
  assert (H2 : on_vars Rv s1 s2).
  { eapply respects_while_true; [exact _| |exact Hloop].
    apply loop_body_vars_rs; [exact _| |].
    - intros b l; red; auto.
    - intros t b d l; red; cbn. intros Hl.
      apply Forall_app; split; [assumption|].
      constructor; [|constructor]. apply HP. }
  apply H2, H1. constructor.
Qed.

End ReviewScraperRun.

(* ===================================================================== *)
(** * The date range *)
(* ===================================================================== *)

Section DateRange.

Variable dateparse : string -> datetime -> res (option datetime).
Variable E : env.

(** A candidate whose normalized date passes the range test is appended. *)
Lemma card_iteration_in_range (selectors : Scraper.Selectors)
    (start end_ : datetime) (source : string) (c : card)
    (s s1 : state Scraper.locals) (dt : datetime) :
  Scraper.normalized_date dateparse E selectors c s = (Ok (Some dt), s1) ->
  Scraper.within_range dt start end_ = true ->
  Scraper.card_iteration dateparse E selectors start end_ source c s =
  (Ok tt, with_vars (Scraper.append_result
                       (Scraper.record_of selectors source c dt)) s1).
Proof.
  intros Hn Hin.
  erewrite card_iteration_normalized by exact Hn. rewrite classify_cases.
  rewrite Hin.
  unfold Scraper.within_range in Hin. apply andb_prop in Hin as [H1 _].
  now rewrite (dt_le_not_lt _ _ H1).
Qed.

(** A candidate older than the range sets the flag and nothing else. *)
Lemma card_iteration_older (selectors : Scraper.Selectors)
    (start end_ : datetime) (source : string) (c : card)
    (s s1 : state Scraper.locals) (dt : datetime) :
  Scraper.normalized_date dateparse E selectors c s = (Ok (Some dt), s1) ->
  dt_lt dt start = true ->
  Scraper.card_iteration dateparse E selectors start end_ source c s =
  (Ok tt, with_vars (Scraper.set_old_review_reached true) s1).
Proof.
  intros Hn Hlt.
  erewrite card_iteration_normalized by exact Hn. rewrite classify_cases.
  now rewrite Hlt.
Qed.

(** A candidate newer than the range changes nothing. *)
Lemma card_iteration_newer (selectors : Scraper.Selectors)
    (start end_ : datetime) (source : string) (c : card)
    (s s1 : state Scraper.locals) (dt : datetime) :
  dt_le start end_ = true ->
  Scraper.normalized_date dateparse E selectors c s = (Ok (Some dt), s1) ->
  dt_lt end_ dt = true ->
  Scraper.card_iteration dateparse E selectors start end_ source c s = (Ok tt, s1).
Proof.
  intros Hse Hn Hlt.
  erewrite card_iteration_normalized by exact Hn. rewrite classify_cases.
  assert (H1 : dt_lt start dt = true) by (eapply dt_le_lt_trans; eauto).
  assert (H2 : dt_lt dt start = false).
  { rewrite dt_lt_not_le in H1. rewrite dt_lt_not_le.
    destruct (dt_le dt start) eqn:Hds; [discriminate|].
    destruct (dt_le start dt) eqn:Hsd; [reflexivity|].
    unfold dt_le in Hds, Hsd. unfold dt_compare in *.
    rewrite (tuple_compare_antisym (dt_fields dt) (dt_fields start)) in Hsd.
    destruct (tuple_compare (dt_fields dt) (dt_fields start)); discriminate. }
  rewrite H2. unfold Scraper.within_range.
  rewrite dt_lt_not_le in Hlt. destruct (dt_le dt end_); [discriminate|].
  now rewrite andb_false_r.
Qed.

End DateRange.



(* ===================================================================== *)
(** * The rating *)
(* ===================================================================== *)

Section Rating.

Local Open Scope string_scope.

(** What [extract_rating_safe] returns is empty, group 1 of the pattern in
    the [aria-label], or the stripped text of the element. *)
Lemma extract_rating_safe_cases (root : card) (selector : option string) :
  Scraper.extract_rating_safe root selector = ""
  \/ (exists el a g sel,
        selector = Some sel /\ query_selector root sel = Ok (Some el) /\
        get_attribute el "aria-label" = Ok a /\
        search_rating (opt_or a "") = Some g /\
        Scraper.extract_rating_safe root selector = g /\ truthy g = true)
  \/ (exists el txt sel,
        selector = Some sel /\ query_selector root sel = Ok (Some el) /\
        inner_text el = Ok txt /\
        Scraper.extract_rating_safe root selector = strip (str_or txt "") /\
        truthy (strip (str_or txt "")) = true).
Proof.
  unfold Scraper.extract_rating_safe.
  destruct selector as [sel|]; [|auto].
  destruct (negb (truthy sel)); [auto|].
  destruct (query_selector root sel) as [[el|]|e] eqn:Hq; auto.
  destruct (get_attribute el "aria-label") as [a|e] eqn:Ha; auto.
  cbv zeta.
  destruct (truthy (opt_or a "")) eqn:Haria.
  - destruct (search_rating (opt_or a "")) as [g|] eqn:Hs.
    + right; left. exists el, a, g, sel.
      repeat split; auto. eapply search_rating_truthy; eauto.
    + destruct (inner_text el) as [txt|e] eqn:Ht; auto.
      destruct (truthy (strip (str_or txt ""))) eqn:Hc; auto.
      right; right. exists el, txt, sel. auto 10.
  - destruct (inner_text el) as [txt|e] eqn:Ht; auto.
    destruct (truthy (strip (str_or txt ""))) eqn:Hc; auto.
    right; right. exists el, txt, sel. auto 10.
Qed.

(** The rating of the dictionary built for a card. *)
Lemma record_of_rating (selectors : Scraper.Selectors) (source : string)
    (c : card) (dt : datetime) :
  rating (Scraper.record_of selectors source c dt) =
  str_or (Scraper.extract_rating_safe c (Scraper.s_rating selectors)) "N/A".
Proof.
  unfold Scraper.record_of; cbn.
  destruct (Scraper.extract_rating_safe c (Scraper.s_rating selectors)); reflexivity.
Qed.

End Rating.

(** C9: the rating of every dictionary returned by either script is not the
    empty string.  In scraper.py it is what [extract_rating_safe] found (a
    non-empty value) or else the literal N/A; in review_scraper.py it is
    always N/A. *)
Theorem rating_never_empty :
  forall (dateparse : string -> datetime -> res (option datetime))
         (dateutil_parse : string -> datetime -> res datetime) (E : env),
    (forall fuel company start_date end_date source headless user_data_dir
            start_url wait_after_nav rs st,
        Scraper.scrape_reviews dateparse E fuel company start_date end_date
          source headless user_data_dir start_url wait_after_nav
          = Some (Ok rs, st) ->
        Forall (fun r => rating r <> EmptyString) rs)
    /\
    (forall selectors source c dt,
        (rating (Scraper.record_of selectors source c dt) = "N/A"%string /\
         Scraper.extract_rating_safe c (Scraper.s_rating selectors) = EmptyString)
        \/
        (rating (Scraper.record_of selectors source c dt)
           = Scraper.extract_rating_safe c (Scraper.s_rating selectors) /\
         Scraper.extract_rating_safe c (Scraper.s_rating selectors) <> EmptyString))
    /\
    (forall fuel company start_date end_date source rs st,
        ReviewScraper.scrape_reviews dateutil_parse E fuel company start_date
          end_date source = Some (Ok rs, st) ->
        Forall (fun r => rating r = "N/A"%string) rs).
Proof.
  intros dateparse dateutil_parse E. split; [|split].
  - intros fuel company start_date end_date source headless user_data_dir
      start_url wait_after_nav rs st Hrun.
    eapply scrape_reviews_all; [|exact Hrun].
    intros selectors start end_ c dt _ _ _ _.
    rewrite record_of_rating. apply truthy_not_empty.
    now apply truthy_str_or.
  - intros selectors source c dt. rewrite record_of_rating.
    destruct (str_or_cases
                (Scraper.extract_rating_safe c (Scraper.s_rating selectors))
                "N/A") as [[Ht ->] | [He ->]].
    + right. split; [reflexivity|]. now apply truthy_not_empty.
    + left. auto.
  - intros fuel company start_date end_date source rs st Hrun.
    eapply scrape_reviews_all_rs; [|exact Hrun].
    intros t b d. reflexivity.
Qed.

(** On the fixture every rating is the 4.5 of the star label, and
    review_scraper.py reports N/A for the same cards. *)
Lemma rating_never_empty_witness :
  exists rs st rs' st',
    fixture_run = Some (Ok rs, st) /\
    Forall (fun r => rating r <> EmptyString) rs /\
    map rating rs = repeat "4.5"%string 8 /\
    fixture_run_rs = Some (Ok rs', st') /\
    Forall (fun r => rating r = "N/A"%string) rs'.
Proof.
  destruct (rating_never_empty Fixture.iso_dateparse Fixture.iso_dateutil
              (Fixture.world Fixture.three_pages (Fixture.noon 2024 3 10) 7))
    as (H1 & _ & H3).
  eexists _, _, _, _. split; [vm_compute; reflexivity|]. split; [|split; [|split]].
  - eapply (H1 5 "Acme Tool" "2024-03-01" "2024-03-09" "SourceForge" true None
              None 0%Z)%string.
    vm_compute; reflexivity.
  - vm_compute; reflexivity.
  - vm_compute; reflexivity.
  - eapply (H3 5 "Acme Tool" "2024-03-01" "2024-03-09" "sourceforge")%string.
    vm_compute; reflexivity.
Defined.

(* ===================================================================== *)
(** * A candidate that fails *)
(* ===================================================================== *)

Section ReviewScraperLoop.

Variable dateutil_parse : string -> datetime -> res datetime.
Variable E : env.
Variable selectors : ReviewScraper.selector_dict.
Variables start end_ : datetime.
Variable source : string.

(** The loop over the cards goes on after a pass that says [continue]. *)
Lemma for_each_break_continue (c : card) (rest : list card)
    (s s' : state ReviewScraper.locals) :
  ReviewScraper.card_iteration dateutil_parse E selectors start end_ source c s
    = (Ok Continue, s') ->
  for_each_break
    (ReviewScraper.card_iteration dateutil_parse E selectors start end_ source)
    (c :: rest) s =
  for_each_break
    (ReviewScraper.card_iteration dateutil_parse E selectors start end_ source)
    rest s'.
Proof. intros H. cbn [for_each_break]. unfold bind. now rewrite H. Qed.

(** The loop over the cards ends at a pass that says [break]. *)
Lemma for_each_break_break (c : card) (rest : list card)
    (s s' : state ReviewScraper.locals) :
  ReviewScraper.card_iteration dateutil_parse E selectors start end_ source c s
    = (Ok Break, s') ->
  for_each_break
    (ReviewScraper.card_iteration dateutil_parse E selectors start end_ source)
    (c :: rest) s = (Ok tt, s').
Proof. intros H. cbn [for_each_break]. unfold bind. now rewrite H. Qed.

End ReviewScraperLoop.

(** C7: in both scripts an exception raised in the pass over one card is
    caught by the [try] around that pass: the pass ends normally, the
    collected dictionaries, the flags, the page shown and the browser calls
    are what they were before the card (only the clock may have been read),
    and the loop goes on with the remaining cards of the page. *)
Theorem candidate_failure_is_local :
  forall (dateparse : string -> datetime -> res (option datetime))
         (dateutil_parse : string -> datetime -> res datetime) (E : env),
    (forall selectors start end_ source c rest s s' e,
        Scraper.card_body dateparse E selectors start end_ source c s
          = (Raise e, s') ->
        Scraper.card_iteration dateparse E selectors start end_ source c s
          = (Ok tt, s') /\
        beside_clock s' = beside_clock s /\
        for_each (Scraper.card_iteration dateparse E selectors start end_ source)
          (c :: rest) s =
        for_each (Scraper.card_iteration dateparse E selectors start end_ source)
          rest s')
    /\
    (forall selectors start end_ source c rest s s' e,
        ReviewScraper.card_body dateutil_parse E selectors start end_ source c s
          = (Raise e, s') ->
        ReviewScraper.card_iteration dateutil_parse E selectors start end_ source
          c s = (Ok Continue, s') /\
        beside_clock s' = beside_clock s /\
        for_each_break
          (ReviewScraper.card_iteration dateutil_parse E selectors start end_
             source) (c :: rest) s =
        for_each_break
          (ReviewScraper.card_iteration dateutil_parse E selectors start end_
             source) rest s').
Proof.
  intros dateparse dateutil_parse E. split.
  - intros selectors start end_ source c rest s s' e Hraise.
    assert (Hit : Scraper.card_iteration dateparse E selectors start end_ source
                    c s = (Ok tt, s')).
    { unfold Scraper.card_iteration, try_except. now rewrite Hraise. }
    split; [exact Hit|]. split.
    + apply card_body_raises in Hraise as [_ [-> | ->]]; reflexivity.
    + rewrite for_each_card_cons, Hit. reflexivity.
  - intros selectors start end_ source c rest s s' e Hraise.
    assert (Hit : ReviewScraper.card_iteration dateutil_parse E selectors start
                    end_ source c s = (Ok Continue, s')).
    { unfold ReviewScraper.card_iteration, try_except. now rewrite Hraise. }
    split; [exact Hit|]. split.
    + eapply card_body_raises_rs; eauto.
    + now apply for_each_break_continue.
Qed.

(** A card whose every lookup fails, followed by a card of 5 March: both
    scripts drop the first and collect the second. *)
Lemma candidate_failure_is_local_witness :
  (let body := Scraper.card_iteration Fixture.iso_dateparse
                 (Fixture.world [] (Fixture.noon 2024 3 10) 0)
                 Fixture.sourceforge (midnight 2024 3 1) (midnight 2024 3 9)
                 "sourceforge" in
   body Fixture.broken_card Scraper.initial = (Ok tt, Scraper.initial) /\
   for_each body [Fixture.broken_card; Fixture.in_range_card "2024-03-05"]
     Scraper.initial =
   for_each body [Fixture.in_range_card "2024-03-05"] Scraper.initial)
  /\
  (let body := ReviewScraper.card_iteration Fixture.iso_dateutil
                 (Fixture.world [] (Fixture.noon 2024 3 10) 0)
                 Fixture.sourceforge_rs (midnight 2024 3 1) (midnight 2024 3 9)
                 "sourceforge" in
   body Fixture.broken_card ReviewScraper.initial
     = (Ok Continue, ReviewScraper.initial) /\
   for_each_break body
     [Fixture.broken_card; Fixture.in_range_card "2024-03-05"]
     ReviewScraper.initial =
   for_each_break body [Fixture.in_range_card "2024-03-05"]
     ReviewScraper.initial).
Proof.
  destruct (candidate_failure_is_local Fixture.iso_dateparse Fixture.iso_dateutil
              (Fixture.world [] (Fixture.noon 2024 3 10) 0)) as [H1 H2].
  split.
  - destruct (H1 Fixture.sourceforge (midnight 2024 3 1) (midnight 2024 3 9)
                "sourceforge"%string Fixture.broken_card
                [Fixture.in_range_card "2024-03-05"] Scraper.initial
                Scraper.initial PlaywrightError) as (Ha & _ & Hb).
    + vm_compute; reflexivity.
    + split; [exact Ha | exact Hb].
  - destruct (H2 Fixture.sourceforge_rs (midnight 2024 3 1) (midnight 2024 3 9)
                "sourceforge"%string Fixture.broken_card
                [Fixture.in_range_card "2024-03-05"] ReviewScraper.initial
                ReviewScraper.initial PlaywrightError) as (Ha & _ & Hb).
    + vm_compute; reflexivity.
    + split; [exact Ha | exact Hb].
Defined.

(* ===================================================================== *)
(** * Candidates newer than the range *)
(* ===================================================================== *)

Section Newer.

Variable dateutil_parse : string -> datetime -> res datetime.
Variable E : env.

(** A date after the end of a range that does not end before it starts is
    neither before the start nor within the range. *)
Lemma newer_not_in_range (start end_ d : datetime) :
  dt_le start end_ = true -> dt_lt end_ d = true ->
  dt_lt d start = false /\ dt_le start d && dt_le d end_ = false.
Proof.
  intros Hse Hlt.
  assert (H1 : dt_lt start d = true) by (eapply dt_le_lt_trans; eauto).
  split.
  - rewrite dt_lt_not_le. rewrite dt_lt_true in H1.
    unfold dt_le. now rewrite H1.
  - rewrite dt_lt_not_le in Hlt. destruct (dt_le d end_); [discriminate|].
    apply andb_false_r.
Qed.

Lemma card_iteration_newer_rs (selectors : ReviewScraper.selector_dict)
    (start end_ : datetime) (source : string) (c : card)
    (s s1 : state ReviewScraper.locals) (d : datetime) :
  dt_le start end_ = true ->
  ReviewScraper.review_date_of dateutil_parse E selectors c s = (Ok d, s1) ->
  dt_lt end_ d = true ->
  ReviewScraper.card_iteration dateutil_parse E selectors start end_ source c s
    = (Ok Continue, s1).
Proof.
  intros Hse Hd Hlt.
  erewrite card_iteration_dated_rs by exact Hd.
  destruct (newer_not_in_range _ _ _ Hse Hlt) as [H1 H2].
  unfold ReviewScraper.classify. rewrite H1, H2. reflexivity.
Qed.

End Newer.

(** C10: a candidate whose normalized date is after the end of the range
    (a range with [start <= end], which scraper.py checks before it opens
    the browser) is passed over: the pass ends normally, nothing is appended,
    no flag is set, the page index, the page shown and the browser calls
    stay as they were, and the loop goes on with the remaining cards. *)
Theorem newer_candidate_is_ignored :
  forall (dateparse : string -> datetime -> res (option datetime))
         (dateutil_parse : string -> datetime -> res datetime) (E : env),
    (forall selectors start end_ source c rest s s1 dt,
        dt_le start end_ = true ->
        Scraper.normalized_date dateparse E selectors c s = (Ok (Some dt), s1) ->
        dt_lt end_ dt = true ->
        Scraper.card_iteration dateparse E selectors start end_ source c s
          = (Ok tt, s1) /\
        beside_clock s1 = beside_clock s /\
        for_each (Scraper.card_iteration dateparse E selectors start end_ source)
          (c :: rest) s =
        for_each (Scraper.card_iteration dateparse E selectors start end_ source)
          rest s1)
    /\
    (forall selectors start end_ source c rest s s1 d,
        dt_le start end_ = true ->
        ReviewScraper.review_date_of dateutil_parse E selectors c s = (Ok d, s1) ->
        dt_lt end_ d = true ->
        ReviewScraper.card_iteration dateutil_parse E selectors start end_ source
          c s = (Ok Continue, s1) /\
        beside_clock s1 = beside_clock s /\
        for_each_break
          (ReviewScraper.card_iteration dateutil_parse E selectors start end_
             source) (c :: rest) s =
        for_each_break
          (ReviewScraper.card_iteration dateutil_parse E selectors start end_
             source) rest s1).
Proof.
  intros dateparse dateutil_parse E. split.
  - intros selectors start end_ source c rest s s1 dt Hse Hn Hlt.
    assert (Hit : Scraper.card_iteration dateparse E selectors start end_ source
                    c s = (Ok tt, s1))
      by (eapply card_iteration_newer; eassumption).
    split; [exact Hit|]. split.
    + apply normalized_date_state in Hn as [[-> _] | ->]; reflexivity.
    + rewrite for_each_card_cons, Hit. reflexivity.
  - intros selectors start end_ source c rest s s1 d Hse Hd Hlt.
    assert (Hit : ReviewScraper.card_iteration dateutil_parse E selectors start
                    end_ source c s = (Ok Continue, s1))
      by (eapply card_iteration_newer_rs; eassumption).
    split; [exact Hit|]. split.
    + pose proof (review_date_of_beside_clock dateutil_parse E selectors c s) as H.
      unfold keeps in H. now rewrite Hd in H.
    + now apply for_each_break_continue.
Qed.

(** A card of 20 March in front of a card of 5 March, for the range 1 to
    9 March: both scripts pass over the first and collect the second. *)
Lemma newer_candidate_is_ignored_witness :
  (let body := Scraper.card_iteration Fixture.iso_dateparse
                 (Fixture.world [] (Fixture.noon 2024 3 10) 0)
                 Fixture.sourceforge (midnight 2024 3 1) (midnight 2024 3 9)
                 "sourceforge" in
   body (Fixture.in_range_card "2024-03-20") Scraper.initial
     = (Ok tt, tick Scraper.initial) /\
   for_each body
     [Fixture.in_range_card "2024-03-20"; Fixture.in_range_card "2024-03-05"]
     Scraper.initial =
   for_each body [Fixture.in_range_card "2024-03-05"] (tick Scraper.initial))
  /\
  (let body := ReviewScraper.card_iteration Fixture.iso_dateutil
                 (Fixture.world [] (Fixture.noon 2024 3 10) 0)
                 Fixture.sourceforge_rs (midnight 2024 3 1) (midnight 2024 3 9)
                 "sourceforge" in
   body (Fixture.in_range_card "2024-03-20") ReviewScraper.initial
     = (Ok Continue, tick ReviewScraper.initial) /\
   for_each_break body
     [Fixture.in_range_card "2024-03-20"; Fixture.in_range_card "2024-03-05"]
     ReviewScraper.initial =
   for_each_break body [Fixture.in_range_card "2024-03-05"]
     (tick ReviewScraper.initial)).
Proof.
  destruct (newer_candidate_is_ignored Fixture.iso_dateparse Fixture.iso_dateutil
              (Fixture.world [] (Fixture.noon 2024 3 10) 0)) as [H1 H2].
  split.
  - destruct (H1 Fixture.sourceforge (midnight 2024 3 1) (midnight 2024 3 9)
                "sourceforge"%string (Fixture.in_range_card "2024-03-20")
                [Fixture.in_range_card "2024-03-05"] Scraper.initial
                (tick Scraper.initial) (midnight 2024 3 20))
      as (Ha & _ & Hb); try (vm_compute; reflexivity).
    split; [exact Ha | exact Hb].
  - destruct (H2 Fixture.sourceforge_rs (midnight 2024 3 1) (midnight 2024 3 9)
                "sourceforge"%string (Fixture.in_range_card "2024-03-20")
                [Fixture.in_range_card "2024-03-05"] ReviewScraper.initial
                (tick ReviewScraper.initial) (midnight 2024 3 20))
      as (Ha & _ & Hb); try (vm_compute; reflexivity).
    split; [exact Ha | exact Hb].
Defined.

(* ===================================================================== *)
(** * Dates that cannot be read *)
(* ===================================================================== *)

(** C2 (as amended): in scraper.py the normalizer returns absent for a
    missing or empty date text, without looking at the clock, and for a text
    of which [dateparser] makes nothing; a candidate whose date is absent is
    passed over: nothing is appended, no flag is set, the page index and the
    browser are untouched, and the loop goes on.  In review_scraper.py
    [parse_date] instead answers a text that [dateutil] rejects with the
    next reading of the clock. *)
Theorem unreadable_date_is_skipped :
  forall (dateparse : string -> datetime -> res (option datetime))
         (dateutil_parse : string -> datetime -> res datetime) (E : env),
    (forall raw s,
        truthy_opt raw = false ->
        Scraper.parse_date_str dateparse E raw s = (Ok None, s))
    /\
    (forall str s,
        truthy str = true ->
        dateparse str (clock E (clock_reads s)) = Ok None ->
        Scraper.parse_date_str dateparse E (Some str) s = (Ok None, tick s))
    /\
    (forall selectors start end_ source c rest s raw,
        Scraper.date_raw_of selectors c s = (Ok raw, s) ->
        truthy_opt raw = false \/
        (exists str,
            raw = Some str /\ truthy str = true /\
            dateparse str (clock E (clock_reads s)) = Ok None) ->
        exists s1,
          Scraper.normalized_date dateparse E selectors c s = (Ok None, s1) /\
          Scraper.card_iteration dateparse E selectors start end_ source c s
            = (Ok tt, s1) /\
          beside_clock s1 = beside_clock s /\
          for_each (Scraper.card_iteration dateparse E selectors start end_ source)
            (c :: rest) s =
          for_each (Scraper.card_iteration dateparse E selectors start end_ source)
            rest s1)
    /\
    (forall date_str s e,
        dateutil_parse (ReviewScraper.clean_str_of date_str)
          (clock E (clock_reads s)) = Raise e ->
        ReviewScraper.parse_date dateutil_parse E date_str s
          = (Ok (clock E (S (clock_reads s))), tick (tick s))).
Proof.
  intros dateparse dateutil_parse E. split; [|split; [|split]].
  - intros raw s Hraw. now apply parse_date_str_falsy.
  - intros str s Hstr Hnone. rewrite parse_date_str_truthy by assumption.
    now rewrite Hnone.
  - intros selectors start end_ source c rest s raw Hraw Hbad.
    assert (Hn : exists s1,
               Scraper.normalized_date dateparse E selectors c s = (Ok None, s1)).
    { unfold Scraper.normalized_date, bind. rewrite Hraw.
      destruct Hbad as [Hfalsy | (str & -> & Hstr & Hnone)].
      - rewrite parse_date_str_falsy by assumption. eauto.
      - rewrite parse_date_str_truthy by assumption. rewrite Hnone. eauto. }
    destruct Hn as [s1 Hn]. exists s1. split; [exact Hn|].
    assert (Hit : Scraper.card_iteration dateparse E selectors start end_ source
                    c s = (Ok tt, s1)).
    { erewrite card_iteration_normalized by exact Hn. apply classify_cases. }
    split; [exact Hit|]. split.
    + apply normalized_date_state in Hn as [[-> _] | ->]; reflexivity.
    + rewrite for_each_card_cons, Hit. reflexivity.
  - intros date_str s e He. eapply parse_date_fallback; eassumption.
Qed.

(** A card without a readable date in front of a card of 5 March:
    scraper.py passes over the first and collects the second. *)
Lemma unreadable_date_is_skipped_witness :
  let body := Scraper.card_iteration Fixture.iso_dateparse
                (Fixture.world [] (Fixture.noon 2024 3 10) 0)
                Fixture.sourceforge (midnight 2024 3 1) (midnight 2024 3 9)
                "sourceforge" in
  body (Fixture.in_range_card "not a date") Scraper.initial
    = (Ok tt, tick Scraper.initial) /\
  body (Fixture.in_range_card "") Scraper.initial = (Ok tt, Scraper.initial) /\
  for_each body
    [Fixture.in_range_card "not a date"; Fixture.in_range_card "2024-03-05"]
    Scraper.initial =
  for_each body [Fixture.in_range_card "2024-03-05"] (tick Scraper.initial).
Proof.
  destruct (unreadable_date_is_skipped Fixture.iso_dateparse Fixture.iso_dateutil
              (Fixture.world [] (Fixture.noon 2024 3 10) 0)) as (_ & _ & H3 & _).
  cbv zeta.
  destruct (H3 Fixture.sourceforge (midnight 2024 3 1) (midnight 2024 3 9)
              "sourceforge"%string (Fixture.in_range_card "not a date")
              [Fixture.in_range_card "2024-03-05"] Scraper.initial
              (Some "not a date"%string)) as (s1 & Hn & Ha & _ & Hb).
  { vm_compute; reflexivity. }
  { right. exists "not a date"%string. repeat split; vm_compute; reflexivity. }
  destruct (H3 Fixture.sourceforge (midnight 2024 3 1) (midnight 2024 3 9)
              "sourceforge"%string (Fixture.in_range_card "")
              [] Scraper.initial None) as (s2 & Hn2 & Hc & _ & _).
  { vm_compute; reflexivity. }
  { left. reflexivity. }
  vm_compute in Hn. injection Hn as <-.
  vm_compute in Hn2. injection Hn2 as <-.
  split; [exact Ha|]. split; [exact Hc | exact Hb].
Defined.

(** review_scraper.py, read on 10 March 2024 for the range 1 to 31 March:
    the card whose date text is not a date is returned, dated 10 March. *)
Lemma unreadable_date_counterexample :
  exists st,
    ReviewScraper.scrape_reviews Fixture.iso_dateutil
      (Fixture.world [Fixture.listing [Fixture.in_range_card "not a date"] false]
         (Fixture.noon 2024 3 10) 0)
      2 "acme" "2024-03-01" "2024-03-31" "sourceforge"
    = Some (Ok [mk_review "sourceforge" "Great" "Works well" "2024-03-10" "N/A"],
            st).
Proof. eexists. vm_compute. reflexivity. Qed.

(* ===================================================================== *)
(** * Candidates older than the range *)
(* ===================================================================== *)

#[global] Instance collects_more_pre : PreOrder collects_more.
Proof.
  split.
  - intros l. split; [exists []; now rewrite app_nil_r | auto].
  - intros a b c [[m1 H1] F1] [[m2 H2] F2]. split; [|auto].
    exists (m1 ++ m2). now rewrite H2, H1, app_assoc.
Qed.

Section Older.

Variable dateparse : string -> datetime -> res (option datetime).
Variable dateutil_parse : string -> datetime -> res datetime.
Variable E : env.

(** The loop over the cards only adds to what was collected. *)
Lemma for_each_card_collects (selectors : Scraper.Selectors)
    (start end_ : datetime) (source : string) (cards : list card) :
  respects (on_vars collects_more)
    (for_each (Scraper.card_iteration dateparse E selectors start end_ source)
       cards).
Proof.
  apply respects_for_each; [exact _|]. intros c.
  apply card_iteration_vars; [exact _| |].
  - intros l. split; [exists []; cbn; now rewrite app_nil_r | reflexivity].
  - intros c' dt l _ _. split; [eexists; reflexivity | auto].
Qed.

(** In scraper.py an in-range card is collected whatever the cards before
    and after it on the page are. *)
Lemma in_range_card_is_collected (selectors : Scraper.Selectors)
    (start end_ : datetime) (source : string)
    (before after : list card) (c : card)
    (s sA sB : state Scraper.locals) (dt : datetime) :
  for_each (Scraper.card_iteration dateparse E selectors start end_ source)
    before s = (Ok tt, sA) ->
  Scraper.normalized_date dateparse E selectors c sA = (Ok (Some dt), sB) ->
  Scraper.within_range dt start end_ = true ->
  exists sC,
    for_each (Scraper.card_iteration dateparse E selectors start end_ source)
      (before ++ c :: after) s = (Ok tt, sC) /\
    In (Scraper.record_of selectors source c dt) (Scraper.results (vars sC)) /\
    (Scraper.old_review_reached (vars sA) = true ->
     Scraper.old_review_reached (vars sC) = true).
Proof.
  intros Hbefore Hn Hin.
  rewrite for_each_card_app, Hbefore. cbn [snd].
  rewrite for_each_card_cons.
  erewrite card_iteration_in_range by eassumption. cbn [snd].
  set (sB' := with_vars _ sB).
  pose proof (for_each_card_collects selectors start end_ source after sB')
    as [[more Hmore] Hflag].
  pose proof (for_each_card_returns dateparse E selectors start end_ source
                after sB') as Hok.
  destruct (for_each _ after sB') as [r sC]; cbn in Hok, Hmore, Hflag; subst r.
  exists sC. split; [reflexivity|]. split.
  - rewrite Hmore. apply in_or_app; left. apply in_or_app; right. now left.
  - intros HA. apply Hflag.
    apply normalized_date_state in Hn as [[-> _] | ->]; exact HA.
Qed.

(** In review_scraper.py the pass over a card older than the range says
    [break]. *)
Lemma card_iteration_older_rs (selectors : ReviewScraper.selector_dict)
    (start end_ : datetime) (source : string) (c : card)
    (s s1 : state ReviewScraper.locals) (d : datetime) :
  ReviewScraper.review_date_of dateutil_parse E selectors c s = (Ok d, s1) ->
  dt_lt d start = true ->
  ReviewScraper.card_iteration dateutil_parse E selectors start end_ source c s
    = (Ok Break, with_vars (ReviewScraper.set_found_old_review true) s1).
Proof.
  intros Hd Hlt. erewrite card_iteration_dated_rs by exact Hd.
  unfold ReviewScraper.classify. rewrite Hlt. reflexivity.
Qed.

End Older.

(** C3 (as amended): in scraper.py a candidate dated before the start of
    the range sets [old_review_reached] and the loop over the cards goes on
    with every remaining card, so that a card within the range is collected
    whatever stands before it on the page.  In review_scraper.py the loop
    over the cards ends at the first candidate dated before the start: the
    cards after it on the page are not looked at. *)
Theorem older_candidate_does_not_end_the_page :
  forall (dateparse : string -> datetime -> res (option datetime))
         (dateutil_parse : string -> datetime -> res datetime) (E : env),
    (forall selectors start end_ source c rest s s1 dt,
        Scraper.normalized_date dateparse E selectors c s = (Ok (Some dt), s1) ->
        dt_lt dt start = true ->
        Scraper.card_iteration dateparse E selectors start end_ source c s
          = (Ok tt, with_vars (Scraper.set_old_review_reached true) s1) /\
        for_each (Scraper.card_iteration dateparse E selectors start end_ source)
          (c :: rest) s =
        for_each (Scraper.card_iteration dateparse E selectors start end_ source)
          rest (with_vars (Scraper.set_old_review_reached true) s1))
    /\
    (forall selectors start end_ source before after c s sA sB dt,
        for_each (Scraper.card_iteration dateparse E selectors start end_ source)
          before s = (Ok tt, sA) ->
        Scraper.normalized_date dateparse E selectors c sA = (Ok (Some dt), sB) ->
        Scraper.within_range dt start end_ = true ->
        exists sC,
          for_each (Scraper.card_iteration dateparse E selectors start end_ source)
            (before ++ c :: after) s = (Ok tt, sC) /\
          In (Scraper.record_of selectors source c dt)
            (Scraper.results (vars sC)) /\
          (Scraper.old_review_reached (vars sA) = true ->
           Scraper.old_review_reached (vars sC) = true))
    /\
    (forall selectors start end_ source c rest s s1 d,
        ReviewScraper.review_date_of dateutil_parse E selectors c s = (Ok d, s1) ->
        dt_lt d start = true ->
        for_each_break
          (ReviewScraper.card_iteration dateutil_parse E selectors start end_
             source) (c :: rest) s
        = (Ok tt, with_vars (ReviewScraper.set_found_old_review true) s1)).
Proof.
  intros dateparse dateutil_parse E. split; [|split].
  - intros selectors start end_ source c rest s s1 dt Hn Hlt.
    assert (Hit : Scraper.card_iteration dateparse E selectors start end_ source
                    c s
                  = (Ok tt, with_vars (Scraper.set_old_review_reached true) s1))
      by (eapply card_iteration_older; eassumption).
    split; [exact Hit|]. rewrite for_each_card_cons, Hit. reflexivity.
  - intros selectors start end_ source before after c s sA sB dt H1 H2 H3.
    eapply in_range_card_is_collected; eassumption.
  - intros selectors start end_ source c rest s s1 d Hd Hlt.
    apply for_each_break_break.
    eapply card_iteration_older_rs; eassumption.
Qed.

(** A page with a card of 20 February in front of a card of 5 March, for
    the range 1 to 9 March: scraper.py sets the flag at the first card and
    collects the second. *)
Lemma older_candidate_does_not_end_the_page_witness :
  let body := Scraper.card_iteration Fixture.iso_dateparse
                (Fixture.world [] (Fixture.noon 2024 3 10) 0)
                Fixture.sourceforge (midnight 2024 3 1) (midnight 2024 3 9)
                "sourceforge" in
  exists sC,
    for_each body
      ([Fixture.in_range_card "2024-02-20"] ++
       Fixture.in_range_card "2024-03-05" :: []) Scraper.initial = (Ok tt, sC) /\
    In (Scraper.record_of Fixture.sourceforge "sourceforge"
          (Fixture.in_range_card "2024-03-05") (midnight 2024 3 5))
      (Scraper.results (vars sC)) /\
    Scraper.old_review_reached (vars sC) = true.
Proof.
  destruct (older_candidate_does_not_end_the_page Fixture.iso_dateparse
              Fixture.iso_dateutil
              (Fixture.world [] (Fixture.noon 2024 3 10) 0)) as (_ & H2 & _).
  cbv zeta.
  destruct (H2 Fixture.sourceforge (midnight 2024 3 1) (midnight 2024 3 9)
              "sourceforge"%string [Fixture.in_range_card "2024-02-20"] []
              (Fixture.in_range_card "2024-03-05") Scraper.initial
              (with_vars (Scraper.set_old_review_reached true)
                 (tick Scraper.initial))
              (tick (with_vars (Scraper.set_old_review_reached true)
                       (tick Scraper.initial)))
              (midnight 2024 3 5))
    as (sC & Ha & Hb & Hc); try (vm_compute; reflexivity).
  exists sC. split; [exact Ha|]. split; [exact Hb|]. apply Hc. reflexivity.
Defined.

(** The same page read by review_scraper.py: the card of 5 March is not
    collected. *)
Lemma older_candidate_counterexample :
  exists st,
    ReviewScraper.scrape_reviews Fixture.iso_dateutil
      (Fixture.world
         [Fixture.listing [Fixture.in_range_card "2024-02-20";
                           Fixture.in_range_card "2024-03-05"] false]
         (Fixture.noon 2024 3 10) 0)
      2 "acme" "2024-03-01" "2024-03-09" "sourceforge"
    = Some (Ok [], st).
Proof. eexists. vm_compute. reflexivity. Qed.

(* ===================================================================== *)
(** * The checks before the browser is opened *)
(* ===================================================================== *)

Section Configuration.

Variable dateutil_parse : string -> datetime -> res datetime.
Variable E : env.

Local Open Scope string_scope.

(** The first thing the session of review_scraper.py does is to launch the
    browser. *)
Lemma open_session_launches_rs (company source : string)
    (r : res unit) (s1 : state ReviewScraper.locals) :
  ReviewScraper.open_session E company source ReviewScraper.initial = (r, s1) ->
  exists evs, trace s1 = Launch false false 500 None None :: evs.
Proof.
  unfold ReviewScraper.open_session, bind, emit, lift, raise, ret. cbn.
  destruct (ReviewScraper.url_of source company) as [url|e].
  - destruct (goto_ok E url); intros [= <- <-]; cbn; eauto.
  - intros [= <- <-]; cbn; eauto.
Qed.

(** The page loop of review_scraper.py only adds to the browser calls. *)
Lemma loop_body_grows_rs (selectors : option ReviewScraper.selector_dict)
    (start end_ : datetime) (source : string) :
  respects (grows (fun _ => True))
    (ReviewScraper.loop_body dateutil_parse E selectors start end_ source).
Proof.
  unfold ReviewScraper.loop_body, ReviewScraper.page_iteration,
    ReviewScraper.paginate,
    ReviewScraper.card_iteration, ReviewScraper.card_body,
    ReviewScraper.review_date_of, ReviewScraper.date_text_of,
    ReviewScraper.parse_date, ReviewScraper.classify, ReviewScraper.text_or,
    uniform, randint, page.
  respects_auto.
Qed.

End Configuration.




(* ===================================================================== *)
(** * The end of the crawl *)
(* ===================================================================== *)

(** The browser still shows the same listing page, and no click and no
    navigation was made in between. *)
Definition same_page (L : Type) (s s' : state L) : Prop :=
  browser_page s' = browser_page s /\ grows stays_on_page s s'.

#[global] Instance same_page_pre (L : Type) : PreOrder (@same_page L).
Proof.
  split.
  - intros s. split; reflexivity.
  - intros a b c [H1 G1] [H2 G2]. split; [congruence|].
    etransitivity; eassumption.
Qed.

(** A call that leaves the page shown alone and makes at most browser calls
    that stay on the page. *)
Ltac same_page_prim :=
  let s := fresh "s" in
  intros s; split;
  [ reflexivity
  | first [ exists []; split; [now rewrite app_nil_r | constructor]
          | eexists; split; [reflexivity | repeat constructor] ] ].

(** States that differ beside the clock and the variables at most are on the
    same page. *)
Lemma browser_side_same_page (L : Type) (s s' : state L) :
  browser_side s' = browser_side s -> same_page s s'.
Proof.
  unfold browser_side. intros H. split; [congruence|].
  exists []. split; [rewrite app_nil_r; congruence | constructor].
Qed.

(** The page index is what it was. *)
Definition same_index (l l' : Scraper.locals) : Prop :=
  Scraper.page_index l' = Scraper.page_index l.

#[global] Instance page_index_pre : PreOrder same_index.
Proof.
  split; [intros l; reflexivity|].
  intros l1 l2 l3 H1 H2; unfold same_index in *; congruence.
Qed.

(** The page index and the page shown are what they were, and no click and
    no navigation was made in between. *)
Definition page_kept : state Scraper.locals -> state Scraper.locals -> Prop :=
  both (on_vars same_index) (@same_page _).

Ltac same_page_prim_at s :=
  split;
  [ reflexivity
  | first [ exists []; split; [now rewrite app_nil_r | constructor]
          | eexists; split; [reflexivity | repeat constructor] ] ].

(** What a sequence of two computations has done, by cases on the first. *)
Lemma bind_inv (L A B : Type) (m : M L A) (k : A -> M L B)
    (s s' : state L) (r : res B) :
  bind m k s = (r, s') ->
  (exists a s1, m s = (Ok a, s1) /\ k a s1 = (r, s')) \/
  (exists e, m s = (Raise e, s') /\ r = Raise e).
Proof.
  unfold bind. destruct (m s) as [[a|e] s1].
  - intros H. left. eauto.
  - intros [= <- <-]. right. eauto.
Qed.

Section PageStop.

Variable dateparse : string -> datetime -> res (option datetime).
Variable E : env.
Variable selectors : Scraper.Selectors.
Variables start end_ : datetime.
Variable source : string.

(** The look for a challenge wall always returns. *)
Lemma detect_and_handle_captcha_returns (max_wait_seconds : Z)
    (s : state Scraper.locals) :
  fst (Scraper.detect_and_handle_captcha E max_wait_seconds s) = Ok tt.
Proof.
  unfold Scraper.detect_and_handle_captcha, try_except.
  destruct (for_each_break _ _ s) as [[[]|e] s1]; reflexivity.
Qed.

Lemma human_sleep_same_page (a b : Z) :
  respects (@same_page _) (Scraper.human_sleep E a b).
Proof. unfold Scraper.human_sleep, uniform. respects_auto; same_page_prim. Qed.

Lemma wait_for_manual_solve_same_page (fuel : nat) (sel : string)
    (deadline : Z) (still : nat) :
  respects (@same_page _)
    (Scraper.wait_for_manual_solve E fuel sel deadline still).
Proof.
  revert still; induction fuel as [|fuel IH]; intros still;
    cbn [Scraper.wait_for_manual_solve]; respects_auto;
    auto using human_sleep_same_page; same_page_prim.
Qed.

(** The look for a challenge wall, however long it waits, neither clicks
    nor navigates. *)
Lemma detect_and_handle_captcha_same_page (max_wait_seconds : Z) :
  respects (@same_page _) (Scraper.detect_and_handle_captcha E max_wait_seconds).
Proof.
  unfold Scraper.detect_and_handle_captcha, page. respects_auto;
    auto using wait_for_manual_solve_same_page; same_page_prim.
Qed.

(** The pass over a card makes no browser call that the trace records and
    draws no random number. *)
Lemma card_iteration_browser_side (c : card) :
  respects (keeps (@browser_side _))
    (Scraper.card_iteration dateparse E selectors start end_ source c).
Proof.
  intros s. red.
  destruct (Scraper.normalized_date dateparse E selectors c s)
    as [[dt|e] s1] eqn:Hn.
  - erewrite card_iteration_normalized by exact Hn. rewrite classify_cases.
    assert (Hb : browser_side s1 = browser_side s)
      by (apply normalized_date_state in Hn as [[-> _] | ->]; reflexivity).
    cbn [snd]. destruct dt as [d|]; [|exact Hb].
    destruct (dt_lt d start); [exact Hb|].
    destruct (Scraper.within_range d start end_); exact Hb.
  - unfold Scraper.card_iteration, try_except, Scraper.card_body, bind.
    rewrite Hn. cbn.
    apply normalized_date_state in Hn as [[-> _] | ->]; reflexivity.
Qed.

(** The pass over a card leaves the page index alone. *)
Lemma card_iteration_page_index (c : card) :
  respects (on_vars same_index)
    (Scraper.card_iteration dateparse E selectors start end_ source c).
Proof.
  apply card_iteration_vars.
  - exact _.
  - intros l; reflexivity.
  - intros c' dt l _ _; reflexivity.
Qed.

(** The loop over the cards keeps the page index and the page. *)
Lemma for_each_card_page_kept (cards : list card) :
  respects page_kept
    (for_each (Scraper.card_iteration dateparse E selectors start end_ source)
       cards).
Proof.
  apply respects_for_each; [exact _|]. intros c s. split.
  - apply card_iteration_page_index.
  - apply browser_side_same_page. apply card_iteration_browser_side.
Qed.

(** The click on the next-page control leaves the flag alone. *)
Lemma paginate_flag :
  respects
    (on_vars (fun l l' =>
                Scraper.old_review_reached l' = Scraper.old_review_reached l))
    (Scraper.paginate E selectors).
Proof.
  assert (P : PreOrder (fun l l' : Scraper.locals =>
                Scraper.old_review_reached l' = Scraper.old_review_reached l)).
  { split; [intros l; reflexivity | intros l1 l2 l3 H1 H2; congruence]. }
  unfold Scraper.paginate. respects_auto;
    auto using scroll_page_vars, try_click_vars, human_sleep_vars.
Qed.

(** The pass over a page either says [break] on that page, or goes on to
    the click on the next-page control with the flag unset. *)
Lemma page_iteration_cases (s s' : state Scraper.locals) (c : res ctl) :
  Scraper.page_iteration dateparse E selectors start end_ source s = (c, s') ->
  (c = Ok Break /\ page_kept s s') \/
  (exists sC,
      page_kept s sC /\
      Scraper.old_review_reached (vars sC) = false /\
      Scraper.paginate E selectors sC = (c, s')).
Proof.
  intros Hrun. unfold Scraper.page_iteration in Hrun.
  (* the look for a challenge wall *)
  apply bind_inv in Hrun as [(a1 & sD & HD & Hrun) | (e & HD & _)];
    [|pose proof (detect_and_handle_captcha_returns 120 s) as Hr;
      rewrite HD in Hr; discriminate].
  assert (RD : page_kept s sD).
  { split.
    - pose proof (@detect_and_handle_captcha_vars E _ page_index_pre 120 s) as H.
      now rewrite HD in H.
    - pose proof (detect_and_handle_captcha_same_page 120 s) as H.
      now rewrite HD in H. }
  (* the wait for the cards *)
  apply bind_inv in Hrun as [(a2 & sW & HW & Hrun) | (e & [=] & _)].
  assert (RW : page_kept s sW).
  { transitivity sD; [exact RD|]. injection HW as _ <-.
    split; [reflexivity|]. same_page_prim_at sD. }
  apply bind_inv in Hrun as [(p & sW' & HP & Hrun) | (e & [=] & _)].
  injection HP as <- <-.
  destruct (negb (pf_appears _ _)).
  { injection Hrun as <- <-. auto. }
  (* the cards *)
  apply bind_inv in Hrun as [(a3 & sQ & HQ & Hrun) | (e & [=] & _)].
  assert (RQ : page_kept s sQ).
  { transitivity sW; [exact RW|]. injection HQ as _ <-.
    split; [reflexivity|]. same_page_prim_at sW. }
  destruct (pf_query_all _ _) as [|c0 cards].
  { injection Hrun as <- <-. auto. }
  apply bind_inv in Hrun as [(a4 & sC & HC & Hrun) | (e & HC & _)];
    [|pose proof (for_each_card_returns dateparse E selectors start end_ source
                    (c0 :: cards) sQ) as Hr;
      rewrite HC in Hr; discriminate].
  assert (RC : page_kept s sC).
  { transitivity sQ; [exact RQ|].
    pose proof (for_each_card_page_kept (c0 :: cards) sQ) as H.
    now rewrite HC in H. }
  apply bind_inv in Hrun as [(l & sC' & HR & Hrun) | (e & [=] & _)].
  injection HR as <- <-.
  destruct (Scraper.old_review_reached (vars sC)) eqn:Hold.
  - injection Hrun as <- <-. auto.
  - right. exists sC. auto.
Qed.

(** A page after which the flag is set ends the loop: the pass over the
    page says [break], with the page index and the page shown unchanged and
    without a click or a navigation. *)
Lemma page_iteration_stops (s s' : state Scraper.locals) (c : res ctl) :
  Scraper.page_iteration dateparse E selectors start end_ source s = (c, s') ->
  Scraper.old_review_reached (vars s') = true ->
  c = Ok Break /\
  Scraper.page_index (vars s') = Scraper.page_index (vars s) /\
  browser_page s' = browser_page s /\
  grows stays_on_page s s'.
Proof.
  intros Hrun Hflag.
  apply page_iteration_cases in Hrun
    as [(-> & Hi & Hp & Hg) | (sC & _ & Hold & Hrun)]; [auto|].
  pose proof (paginate_flag sC) as Hp.
  rewrite Hrun in Hp. red in Hp. cbn [snd] in Hp. congruence.
Qed.

Lemma scroll_page_same_page (steps : nat) :
  respects (@same_page _) (Scraper.scroll_page E steps).
Proof.
  induction steps as [|k IH]; cbn [Scraper.scroll_page]; respects_auto;
    auto using human_sleep_same_page; same_page_prim.
Qed.

(** The click on the next-page control does not raise; it says [continue]
    only after a click on a control of the page shown, which loads the next
    page or leaves the page as it is. *)
Lemma paginate_cases (s s' : state Scraper.locals) (c : res ctl) :
  Scraper.paginate E selectors s = (c, s') ->
  c = Ok Break \/
  (c = Ok Continue /\
   exists next_btn advances,
     pf_click (site E (browser_page s)) next_btn = Some advances /\
     browser_page s' =
       if advances then S (browser_page s) else browser_page s).
Proof.
  unfold Scraper.paginate. intros Hrun.
  apply bind_inv in Hrun as [(has_next & sT & HT & Hrun) | (e & HT & _)].
  - destruct has_next; cbn [negb] in Hrun;
      [|injection Hrun as <- _; auto].
    right.
    destruct (Scraper.s_next_btn selectors) as [next_btn|]; [|discriminate].
    destruct (truthy next_btn); [|discriminate].
    apply bind_inv in HT as [(a1 & s1 & H1 & HT) | (e & _ & [=])].
    apply bind_inv in HT as [(a2 & s2 & H2 & HT) | (e & _ & [=])].
    assert (Hp : browser_page s2 = browser_page s).
    { pose proof (scroll_page_same_page 3 s) as [P1 _].
      pose proof (scroll_page_same_page 3 s1) as [P2 _].
      rewrite H1 in P1. rewrite H2 in P2. cbn [snd] in P1, P2. congruence. }
    unfold Scraper.try_click in HT.
    apply bind_inv in HT as [(a3 & s3 & H3 & HT) | (e & _ & [=])].
    injection H3 as _ <-.
    apply bind_inv in HT as [(p & s4 & H4 & HT) | (e & _ & [=])].
    injection H4 as <- <-. cbn [browser_page] in HT.
    rewrite Hp in HT.
    destruct (pf_click (site E (browser_page s)) next_btn) as [advances|] eqn:Hc;
      [|discriminate].
    apply bind_inv in Hrun as [(a5 & s5 & H5 & Hrun) | (e & [=] & _)].
    injection H5 as _ <-.
    apply bind_inv in Hrun as [(a6 & s6 & H6 & Hrun) | (e & H6 & _)].
    + pose proof (human_sleep_same_page 2000 4000 (with_vars Scraper.incr_page_index sT))
        as [P6 _].
      rewrite H6 in P6. cbn [snd with_vars browser_page] in P6.
      injection Hrun as <- <-.
      split; [reflexivity|]. exists next_btn, advances. split; [exact Hc|].
      rewrite P6.
      destruct advances; unfold bind, emit, load_next_page, ret in HT;
        injection HT as <-; reflexivity.
    + discriminate H6.
  - exfalso.
    destruct (Scraper.s_next_btn selectors) as [next_btn|]; [|discriminate].
    destruct (truthy next_btn); [|discriminate].
    assert (Hs : forall n t, fst (Scraper.scroll_page E n t) = Ok tt).
    { induction n as [|n IH]; intros t; [reflexivity|]. apply IH. }
    apply bind_inv in HT as [(a1 & s1 & H1 & HT) | (e' & H1 & _)];
      [|pose proof (Hs 3%nat s) as Hr; rewrite H1 in Hr; discriminate].
    apply bind_inv in HT as [(a2 & s2 & H2 & HT) | (e' & H2 & _)];
      [|pose proof (Hs 3%nat s1) as Hr; rewrite H2 in Hr; discriminate].
    unfold Scraper.try_click, bind, emit, page, shown, ret in HT.
    cbn in HT. destruct (pf_click _ _) as [[]|]; discriminate.
Qed.

(** On a page without a control to click the loop over the pages ends. *)
Lemma page_iteration_last_page (s s' : state Scraper.locals) (c : res ctl) :
  (forall sel, pf_click (site E (browser_page s)) sel = None) ->
  Scraper.page_iteration dateparse E selectors start end_ source s = (c, s') ->
  c = Ok Break.
Proof.
  intros Hlast Hrun.
  apply page_iteration_cases in Hrun
    as [(-> & _) | (sC & (_ & Hp & _) & _ & Hrun)]; [reflexivity|].
  apply paginate_cases in Hrun as [-> | (_ & nb & adv & Hc & _)];
    [reflexivity|].
  rewrite Hp, Hlast in Hc. discriminate.
Qed.

(** On a listing whose clicks load the next page and whose page [n] pages
    ahead has no control to click, the loop over the pages ends within
    [n + 1] passes. *)
Lemma while_true_page_iteration_ends (n : nat) (s : state Scraper.locals) :
  (forall k sel advances,
      pf_click (site E k) sel = Some advances -> advances = true) ->
  (forall sel, pf_click (site E (browser_page s + n)) sel = None) ->
  exists s',
    while_true (S n)
      (Scraper.page_iteration dateparse E selectors start end_ source) s
    = Some (Ok tt, s').
Proof.
  intros Hadv. revert s; induction n as [|n IH]; intros s Hlast.
  - rewrite Nat.add_0_r in Hlast. cbn [while_true].
    destruct (Scraper.page_iteration _ _ _ _ _ _ s) as [c s'] eqn:Hrun.
    rewrite (page_iteration_last_page _ Hlast Hrun). eauto.
  - cbn [while_true].
    destruct (Scraper.page_iteration _ _ _ _ _ _ s) as [c s1] eqn:Hrun.
    apply page_iteration_cases in Hrun
      as [(-> & _) | (sC & (_ & Hp & _) & _ & Hrun)]; [eauto|].
    apply paginate_cases in Hrun as [-> | (-> & nb & adv & Hc & Hs1)]; [eauto|].
    rewrite (Hadv _ _ _ Hc) in Hs1.
    apply IH. rewrite Hs1, Hp.
    replace (S (browser_page s) + n) with (browser_page s + S n) by lia.
    exact Hlast.
Qed.

End PageStop.

Section PageStopReviewScraper.

Variable dateutil_parse : string -> datetime -> res datetime.
Variable E : env.
Variable selectors : ReviewScraper.selector_dict.
Variables start end_ : datetime.
Variable source : string.

(** The pass over a card makes no browser call that the trace records and
    draws no random number. *)
Lemma card_iteration_browser_side_rs (c : card) :
  respects (keeps (@browser_side _))
    (ReviewScraper.card_iteration dateutil_parse E selectors start end_ source c).
Proof.
  intros s. red.
  pose proof (review_date_of_beside_clock dateutil_parse E selectors c s) as Hd.
  unfold keeps, beside_clock in Hd.
  unfold ReviewScraper.card_iteration, try_except, ReviewScraper.card_body, bind.
  destruct (ReviewScraper.review_date_of dateutil_parse E selectors c s)
    as [[d|e] s1]; cbn [snd] in Hd.
  - assert (Hb : browser_side s1 = browser_side s)
      by (unfold browser_side; congruence).
    destruct (ReviewScraper.classify selectors start end_ source c d s1)
      as [r s2] eqn:Hc.
    apply classify_cases_rs in Hc
      as [(_ & -> & ->) | [(_ & _ & -> & t & b & ->) | (_ & -> & Hr)]];
      try exact Hb.
    destruct r as [k|e]; exact Hb.
  - cbn. unfold browser_side; congruence.
Qed.

Lemma for_each_break_returns_rs (cards : list card)
    (s : state ReviewScraper.locals) :
  fst (for_each_break
         (ReviewScraper.card_iteration dateutil_parse E selectors start end_
            source) cards s) = Ok tt.
Proof.
  revert s; induction cards as [|c cards IH]; intros s; cbn [for_each_break].
  - reflexivity.
  - unfold bind.
    destruct (card_iteration_returns_rs dateutil_parse E selectors start end_
                source c s) as [k Hk].
    destruct (ReviewScraper.card_iteration _ _ _ _ _ _ c s) as [r s1].
    cbn in Hk; subst r. destruct k; [apply IH | reflexivity].
Qed.

(** The click on the next-page control leaves the flag alone. *)
Lemma paginate_flag_rs :
  respects
    (on_vars (fun l l' => ReviewScraper.found_old_review l'
                          = ReviewScraper.found_old_review l))
    (ReviewScraper.paginate E selectors).
Proof.
  assert (P : PreOrder (fun l l' : ReviewScraper.locals =>
                ReviewScraper.found_old_review l'
                = ReviewScraper.found_old_review l)).
  { split; [intros l; reflexivity | intros l1 l2 l3 H1 H2; congruence]. }
  unfold ReviewScraper.paginate. respects_auto.
Qed.

(** A page after which the flag is set ends the loop, without a click or a
    navigation. *)
Lemma page_iteration_stops_rs (s s' : state ReviewScraper.locals) (c : res ctl) :
  ReviewScraper.page_iteration dateutil_parse E selectors start end_ source s
    = (c, s') ->
  ReviewScraper.found_old_review (vars s') = true ->
  c = Ok Break /\
  browser_page s' = browser_page s /\
  grows stays_on_page s s'.
Proof.
  unfold ReviewScraper.page_iteration.
  unfold bind at 1, emit at 1. unfold bind at 1, page, bind at 1, shown, ret at 1.
  cbn [vars browser_page trace clock_reads rand_reads].
  set (sQ := mk_state _ _ _ _ _).
  assert (HQ : grows stays_on_page s sQ).
  { eexists. split; [reflexivity|]. repeat constructor. }
  destruct (pf_query_all _ _) as [|c0 cards].
  { intros [= <- <-] _. auto. }
  unfold bind at 1, update at 1. unfold bind at 1.
  set (sU := with_vars _ sQ).
  pose proof (for_each_break_returns_rs (c0 :: cards) sU) as Hok.
  assert (HB : keeps (@browser_side _) sU
                 (snd (for_each_break
                         (ReviewScraper.card_iteration dateutil_parse E selectors
                            start end_ source) (c0 :: cards) sU)))
    by (apply respects_for_each_break;
        [exact _ | intros x; apply card_iteration_browser_side_rs]).
  destruct (for_each_break _ (c0 :: cards) sU) as [r sC].
  cbn [fst snd] in Hok, HB. subst r.
  unfold bind at 1, read. cbn [vars].
  destruct (ReviewScraper.found_old_review (vars sC)) eqn:Hold.
  - intros [= <- <-] _. unfold keeps, browser_side in HB.
    assert (Hpage : browser_page sC = browser_page sU) by congruence.
    assert (Htrace : trace sC = trace sU) by congruence.
    split; [reflexivity|]. split; [exact Hpage|].
    destruct HQ as [evs [HQ1 HQ2]]. exists evs.
    split; [rewrite Htrace; exact HQ1 | exact HQ2].
  - intros Hrun Hflag. pose proof (paginate_flag_rs sC) as Hp.
    rewrite Hrun in Hp. red in Hp. cbn [snd] in Hp. congruence.
Qed.

End PageStopReviewScraper.

(** C4: in both scripts, once the pass over a page leaves the
    older-than-range flag set, the loop over the pages ends with that pass:
    the run of the loop returns in the state reached at the end of the page,
    so the page index is not incremented and the browser still shows that
    page, and no click and no navigation was made during the pass. *)
Theorem crawl_ends_after_the_page_with_an_older_review :
  forall (dateparse : string -> datetime -> res (option datetime))
         (dateutil_parse : string -> datetime -> res datetime) (E : env),
    (forall selectors start end_ source fuel s c s',
        Scraper.page_iteration dateparse E selectors start end_ source s
          = (c, s') ->
        Scraper.old_review_reached (vars s') = true ->
        while_true (S fuel)
          (Scraper.page_iteration dateparse E selectors start end_ source) s
          = Some (Ok tt, s') /\
        Scraper.page_index (vars s') = Scraper.page_index (vars s) /\
        browser_page s' = browser_page s /\
        grows stays_on_page s s')
    /\
    (forall selectors start end_ source fuel s c s',
        ReviewScraper.page_iteration dateutil_parse E selectors start end_ source
          s = (c, s') ->
        ReviewScraper.found_old_review (vars s') = true ->
        while_true (S fuel)
          (ReviewScraper.loop_body dateutil_parse E (Some selectors) start end_
             source) s
          = Some (Ok tt, s') /\
        browser_page s' = browser_page s /\
        grows stays_on_page s s').
Proof.
  intros dateparse dateutil_parse E. split.
  - intros selectors start end_ source fuel s c s' Hrun Hflag.
    destruct (page_iteration_stops _ _ _ _ _ _ _ Hrun Hflag)
      as (-> & Hi & Hp & Hg).
    split; [|auto]. cbn [while_true]. now rewrite Hrun.
  - intros selectors start end_ source fuel s c s' Hrun Hflag.
    destruct (page_iteration_stops_rs _ _ _ _ _ _ _ Hrun Hflag)
      as (-> & Hp & Hg).
    split; [|auto]. cbn [while_true ReviewScraper.loop_body]. now rewrite Hrun.
Qed.

(** The second page of the fixture holds cards older than the range: the
    pass over it ends the loop of either script on that page, although the
    page has a next-page control. *)
Lemma crawl_ends_after_the_page_with_an_older_review_witness :
  (let W := Fixture.world Fixture.three_pages (Fixture.noon 2024 3 10) 7 in
   let body := Scraper.page_iteration Fixture.iso_dateparse W
                 Fixture.sourceforge (midnight 2024 3 1) (midnight 2024 3 9)
                 "sourceforge" in
   let s := mk_state (Scraper.mk_locals [] false 2) 1 [] 0 0 in
   exists s',
     body s = (Ok Break, s') /\
     (while_true 1 body s = Some (Ok tt, s') /\
      Scraper.page_index (vars s') = Scraper.page_index (vars s) /\
      browser_page s' = browser_page s /\
      grows stays_on_page s s'))
  /\
  (let W := Fixture.world Fixture.three_pages (Fixture.noon 2024 3 10) 7 in
   let s := mk_state (ReviewScraper.mk_locals [] false) 1 [] 0 0 in
   exists s',
     ReviewScraper.page_iteration Fixture.iso_dateutil W Fixture.sourceforge_rs
       (midnight 2024 3 1) (midnight 2024 3 9) "sourceforge" s = (Ok Break, s') /\
     (while_true 1
        (ReviewScraper.loop_body Fixture.iso_dateutil W
           (Some Fixture.sourceforge_rs) (midnight 2024 3 1) (midnight 2024 3 9)
           "sourceforge") s = Some (Ok tt, s') /\
      browser_page s' = browser_page s /\
      grows stays_on_page s s')).
Proof.
  destruct (crawl_ends_after_the_page_with_an_older_review
              Fixture.iso_dateparse Fixture.iso_dateutil
              (Fixture.world Fixture.three_pages (Fixture.noon 2024 3 10) 7))
    as [H1 H2].
  cbv zeta. split.
  - eexists. split; [vm_compute; reflexivity|].
    eapply H1; vm_compute; reflexivity.
  - eexists. split; [vm_compute; reflexivity|].
    eapply H2; vm_compute; reflexivity.
Defined.

(* ===================================================================== *)
(** * Two runs on the same fixture *)
(* ===================================================================== *)

Section Agree.

Variable L : Type.

Lemma res_rel_eq (A : Type) (r1 r2 : res A) : res_rel eq r1 r2 -> r1 = r2.
Proof. destruct r1, r2; cbn; congruence || contradiction. Qed.

Lemma agree_ret (A : Type) (Q : A -> A -> Prop) (a1 a2 : A) :
  Q a1 a2 -> agree (L:=L) Q (ret a1) (ret a2).
Proof. intros H s1 s2 Hs; cbn; auto. Qed.

Lemma agree_raise (A : Type) (Q : A -> A -> Prop) (e : exn) :
  agree (L:=L) Q (raise e) (raise e).
Proof. intros s1 s2 Hs; cbn; auto. Qed.

Lemma agree_lift (A : Type) (r : res A) : agree (L:=L) eq (lift r) (lift r).
Proof. intros s1 s2 Hs; destruct r; cbn; auto. Qed.

Lemma agree_read : agree (L:=L) eq read read.
Proof. intros s1 s2 Hs; cbn. split; [|exact Hs]. unfold core in Hs; congruence. Qed.

Lemma agree_shown : agree (L:=L) eq shown shown.
Proof. intros s1 s2 Hs; cbn. split; [|exact Hs]. unfold core in Hs; congruence. Qed.

Lemma agree_update (f : L -> L) : agree eq (update f) (update f).
Proof.
  intros s1 s2 Hs; cbn. split; [reflexivity|].
  unfold core in *; cbn; congruence.
Qed.

Lemma agree_emit (e1 e2 : event) : agree (L:=L) eq (emit e1) (emit e2).
Proof. intros s1 s2 Hs; cbn. split; [reflexivity|exact Hs]. Qed.

Lemma agree_load_next_page : agree (L:=L) eq load_next_page load_next_page.
Proof.
  intros s1 s2 Hs; cbn. split; [reflexivity|].
  unfold core in *; cbn; congruence.
Qed.

Lemma agree_bind (A B : Type) (Q : A -> A -> Prop) (Q' : B -> B -> Prop)
    (m1 m2 : M L A) (k1 k2 : A -> M L B) :
  agree Q m1 m2 ->
  (forall a1 a2, Q a1 a2 -> agree Q' (k1 a1) (k2 a2)) ->
  agree Q' (bind m1 k1) (bind m2 k2).
Proof.
  intros Hm Hk s1 s2 Hs. unfold bind.
  destruct (Hm s1 s2 Hs) as [Hr Hc].
  destruct (m1 s1) as [[a1|e1] t1], (m2 s2) as [[a2|e2] t2];
    cbn in Hr, Hc |- *; try contradiction.
  - now apply Hk.
  - auto.
Qed.

Lemma agree_try_except (A : Type) (Q : A -> A -> Prop)
    (m1 m2 : M L A) (h1 h2 : exn -> M L A) :
  agree Q m1 m2 ->
  (forall e, agree Q (h1 e) (h2 e)) ->
  agree Q (try_except m1 h1) (try_except m2 h2).
Proof.
  intros Hm Hh s1 s2 Hs. unfold try_except.
  destruct (Hm s1 s2 Hs) as [Hr Hc].
  destruct (m1 s1) as [[a1|e1] t1], (m2 s2) as [[a2|e2] t2];
    cbn in Hr, Hc |- *; try contradiction.
  - auto.
  - subst e2. now apply Hh.
Qed.

Lemma agree_for_each (A : Type) (b1 b2 : A -> M L unit) (xs : list A) :
  (forall x, agree eq (b1 x) (b2 x)) ->
  agree eq (for_each b1 xs) (for_each b2 xs).
Proof.
  intros Hb. induction xs as [|x xs IH]; cbn [for_each].
  - now apply agree_ret.
  - eapply agree_bind; [apply Hb|]. intros _ _ _. exact IH.
Qed.

Lemma agree_for_each_break (A : Type) (b1 b2 : A -> M L ctl) (xs : list A) :
  (forall x, agree eq (b1 x) (b2 x)) ->
  agree eq (for_each_break b1 xs) (for_each_break b2 xs).
Proof.
  intros Hb. induction xs as [|x xs IH]; cbn [for_each_break].
  - now apply agree_ret.
  - eapply agree_bind; [apply Hb|]. intros k1 k2 <-.
    destruct k1; [exact IH | now apply agree_ret].
Qed.

Lemma agree_while_true (b1 b2 : M L ctl) :
  agree eq b1 b2 ->
  forall fuel s1 s2,
    core s1 = core s2 ->
    match while_true fuel b1 s1, while_true fuel b2 s2 with
    | Some (r1, t1), Some (r2, t2) => r1 = r2 /\ core t1 = core t2
    | None, None => True
    | _, _ => False
    end.
Proof.
  intros Hb. induction fuel as [|fuel IH]; intros s1 s2 Hs; cbn [while_true].
  - exact I.
  - destruct (Hb s1 s2 Hs) as [Hr Hc].
    destruct (b1 s1) as [[k1|e1] t1], (b2 s2) as [[k2|e2] t2];
      cbn in Hr, Hc; try contradiction; subst.
    + destruct k2; [now apply IH | auto].
    + auto.
Qed.

Section World.

Variables E1 E2 : env.
Hypothesis HE : same_fixture E1 E2.

Lemma agree_now : agree (L:=L) eq (now E1) (now E2).
Proof.
  destruct HE as (Hclock & _ & _).
  intros s1 s2 Hs; cbn. unfold core in *; cbn.
  split; [|congruence].
  rewrite Hclock. congruence.
Qed.

Lemma agree_draw : agree (L:=L) (@whatever Z) (draw E1) (draw E2).
Proof. intros s1 s2 Hs; cbn. split; [exact I|exact Hs]. Qed.

Lemma agree_randint (a b : Z) :
  agree (L:=L) (@whatever Z) (randint E1 a b) (randint E2 a b).
Proof. intros s1 s2 Hs; cbn. split; [exact I|exact Hs]. Qed.

Lemma agree_choice (xs : list string) :
  agree (L:=L) (@whatever string) (choice E1 xs) (choice E2 xs).
Proof. intros s1 s2 Hs; cbn. split; [exact I|exact Hs]. Qed.

Lemma agree_goto (url : string) : agree (L:=L) eq (goto E1 url) (goto E2 url).
Proof.
  destruct HE as (_ & _ & Hgoto).
  unfold goto. rewrite Hgoto.
  eapply agree_bind; [apply agree_emit|]. intros _ _ _.
  destruct (goto_ok E2 url); [now apply agree_ret | apply agree_raise].
Qed.

(** Two computations that always return and leave the core alone agree,
    however differently they proceed. *)
Lemma agree_neutral (m1 m2 : M L unit) :
  (forall s, fst (m1 s) = Ok tt /\ core (snd (m1 s)) = core s) ->
  (forall s, fst (m2 s) = Ok tt /\ core (snd (m2 s)) = core s) ->
  agree eq m1 m2.
Proof.
  intros H1 H2 s1 s2 Hs.
  destruct (H1 s1) as [-> ->], (H2 s2) as [-> ->]. cbn. auto.
Qed.

Lemma agree_page : agree (L:=L) eq (page E1) (page E2).
Proof.
  destruct HE as (_ & Hsite & _).
  intros s1 s2 Hs; cbn. split; [|exact Hs].
  rewrite Hsite. unfold core in Hs. congruence.
Qed.

End World.

End Agree.

Create HintDb agree.

(** Decomposes an [agree] goal along the common structure of the two
    computations; the functions of the scripts are looked up in the hint
    database [agree]. *)
Ltac agree_step HE :=
  lazymatch goal with
  | |- agree _ (ret _) (ret _) => apply agree_ret; first [reflexivity | exact I]
  | |- agree _ (raise _) (raise _) => apply agree_raise
  | |- agree _ (lift _) (lift _) => apply agree_lift
  | |- agree _ read read => apply agree_read
  | |- agree _ shown shown => apply agree_shown
  | |- agree _ (update _) (update _) => apply agree_update
  | |- agree _ (emit _) (emit _) => apply agree_emit
  | |- agree _ load_next_page load_next_page => apply agree_load_next_page
  | |- agree _ (now _) (now _) => apply (agree_now HE)
  | |- agree _ (draw _) (draw _) => apply agree_draw
  | |- agree _ (randint _ _ _) (randint _ _ _) => apply agree_randint
  | |- agree _ (uniform _ _ _) (uniform _ _ _) => apply agree_randint
  | |- agree _ (choice _ _) (choice _ _) => apply agree_choice
  | |- agree _ (page _) (page _) => apply (agree_page HE)
  | |- agree _ (goto _ _) (goto _ _) => apply (agree_goto HE)
  | |- agree _ (bind _ _) (bind _ _) =>
      eapply agree_bind;
      [ repeat agree_step HE
      | let a1 := fresh "a" in let a2 := fresh "a" in let H := fresh "H" in
        intros a1 a2 H; try subst a2 ]
  | |- agree _ (try_except _ _) (try_except _ _) =>
      apply agree_try_except; [ | intros ? ]
  | |- agree _ (for_each _ _) (for_each _ _) => apply agree_for_each; intros ?
  | |- agree _ (for_each_break _ _) (for_each_break _ _) =>
      apply agree_for_each_break; intros ?
  | |- agree _ (if ?b then _ else _) (if ?b then _ else _) => destruct b
  | |- agree _ (match ?x with _ => _ end) (match ?x with _ => _ end) =>
      destruct x
  | |- agree _ _ _ => solve [eauto with agree]
  end.

Ltac agree_auto HE := repeat agree_step HE.

Section TwoRunsScraper.

Variable dateparse : string -> datetime -> res (option datetime).
Variables E1 E2 : env.
Hypothesis HE : same_fixture E1 E2.

Lemma human_sleep_agree (a b : Z) :
  agree eq (Scraper.human_sleep E1 a b) (Scraper.human_sleep E2 a b).
Proof. unfold Scraper.human_sleep. agree_auto HE. Qed.

Hint Resolve human_sleep_agree : agree.

Lemma scroll_page_agree (steps : nat) :
  agree eq (Scraper.scroll_page E1 steps) (Scraper.scroll_page E2 steps).
Proof.
  induction steps as [|k IH]; cbn [Scraper.scroll_page]; agree_auto HE.
Qed.

Hint Resolve scroll_page_agree : agree.

Lemma try_click_agree (selector : string) (timeout_ms : Z) :
  agree eq (Scraper.try_click E1 selector timeout_ms)
    (Scraper.try_click E2 selector timeout_ms).
Proof. unfold Scraper.try_click. agree_auto HE. Qed.

Hint Resolve try_click_agree : agree.

Lemma human_sleep_core (E : env) (a b : Z) :
  respects (keeps (@core _)) (Scraper.human_sleep E a b).
Proof. intros s; reflexivity. Qed.

Lemma wait_for_manual_solve_core (E : env) (fuel : nat) (sel : string)
    (deadline : Z) (still : nat) :
  respects (keeps (@core _))
    (Scraper.wait_for_manual_solve E fuel sel deadline still).
Proof.
  revert still; induction fuel as [|fuel IH]; intros still;
    cbn [Scraper.wait_for_manual_solve]; respects_auto;
    auto using human_sleep_core; intros s; reflexivity.
Qed.

(** The look for a challenge wall leaves the variables, the page shown and
    the clock alone, however long it waits. *)
Lemma detect_and_handle_captcha_core (E : env) (max_wait_seconds : Z) :
  respects (keeps (@core _)) (Scraper.detect_and_handle_captcha E max_wait_seconds).
Proof.
  unfold Scraper.detect_and_handle_captcha, page. respects_auto;
    auto using wait_for_manual_solve_core; intros s; reflexivity.
Qed.

(** The two runs may wait differently long for a challenge to go away: the
    wait ends when the sleeps, which are random, add up to the deadline. *)
Lemma detect_and_handle_captcha_agree (max_wait_seconds : Z) :
  agree eq (Scraper.detect_and_handle_captcha E1 max_wait_seconds)
    (Scraper.detect_and_handle_captcha E2 max_wait_seconds).
Proof.
  apply agree_neutral; intros s; split;
    auto using detect_and_handle_captcha_returns;
    apply detect_and_handle_captcha_core.
Qed.

Hint Resolve detect_and_handle_captcha_agree : agree.

Lemma accept_cookies_if_any_agree :
  agree eq (Scraper.accept_cookies_if_any E1) (Scraper.accept_cookies_if_any E2).
Proof. unfold Scraper.accept_cookies_if_any. agree_auto HE. Qed.

Hint Resolve accept_cookies_if_any_agree : agree.

Lemma open_session_agree (company source : string) (headless : bool)
    (user_data_dir start_url : option string) (wait_after_nav : Z) :
  agree eq
    (Scraper.open_session E1 company source headless user_data_dir start_url
       wait_after_nav)
    (Scraper.open_session E2 company source headless user_data_dir start_url
       wait_after_nav).
Proof. unfold Scraper.open_session. agree_auto HE. Qed.

Lemma card_iteration_agree (selectors : Scraper.Selectors)
    (start end_ : datetime) (source : string) (c : card) :
  agree eq (Scraper.card_iteration dateparse E1 selectors start end_ source c)
    (Scraper.card_iteration dateparse E2 selectors start end_ source c).
Proof.
  unfold Scraper.card_iteration, Scraper.card_body, Scraper.normalized_date,
    Scraper.date_raw_of, Scraper.parse_date_str, Scraper.now_utc,
    Scraper.classify.
  agree_auto HE.
Qed.

Hint Resolve card_iteration_agree : agree.

Lemma page_iteration_agree (selectors : Scraper.Selectors)
    (start end_ : datetime) (source : string) :
  agree eq (Scraper.page_iteration dateparse E1 selectors start end_ source)
    (Scraper.page_iteration dateparse E2 selectors start end_ source).
Proof.
  unfold Scraper.page_iteration, Scraper.paginate. agree_auto HE.
Qed.

(** Two runs of scraper.py on the same fixture hand back the same. *)
Lemma scrape_reviews_agree (fuel : nat)
    (company start_date end_date source : string) (headless : bool)
    (user_data_dir start_url : option string) (wait_after_nav : Z) :
  outcome (Scraper.scrape_reviews dateparse E1 fuel company start_date end_date
             source headless user_data_dir start_url wait_after_nav) =
  outcome (Scraper.scrape_reviews dateparse E2 fuel company start_date end_date
             source headless user_data_dir start_url wait_after_nav).
Proof.
  unfold Scraper.scrape_reviews.
  destruct (Scraper.get_selectors source) as [selectors|]; [|reflexivity].
  destruct (strptime_ymd start_date) as [start|]; [|reflexivity].
  destruct (strptime_ymd end_date) as [end_|]; [|reflexivity].
  destruct (dt_lt end_ start); [reflexivity|].
  pose proof (open_session_agree company source headless user_data_dir
                start_url wait_after_nav) as Hopen.
  destruct (Hopen Scraper.initial Scraper.initial eq_refl) as [Hr Hc].
  destruct (Scraper.open_session E1 _ _ _ _ _ _ _) as [[[]|e1] s1],
           (Scraper.open_session E2 _ _ _ _ _ _ _) as [[[]|e2] s2];
    cbn in Hr, Hc; try contradiction; [|now subst].
  pose proof (@agree_while_true _ _ _
                (page_iteration_agree selectors start end_ source)
                fuel s1 s2 Hc) as Hloop.
  destruct (while_true fuel _ s1) as [[r1 t1]|],
           (while_true fuel _ s2) as [[r2 t2]|]; try contradiction;
    [|reflexivity].
  destruct Hloop as [<- Ht]. destruct r1 as [[]|e]; cbn; [|reflexivity].
  unfold core in Ht. do 3 f_equal. congruence.
Qed.

End TwoRunsScraper.

Section TwoRunsReviewScraper.

Variable dateutil_parse : string -> datetime -> res datetime.
Variables E1 E2 : env.
Hypothesis HE : same_fixture E1 E2.

Lemma open_session_agree_rs (company source : string) :
  agree eq (ReviewScraper.open_session E1 company source)
    (ReviewScraper.open_session E2 company source).
Proof.
  unfold ReviewScraper.open_session. agree_auto HE.
Qed.

Lemma card_iteration_agree_rs (selectors : ReviewScraper.selector_dict)
    (start end_ : datetime) (source : string) (c : card) :
  agree eq
    (ReviewScraper.card_iteration dateutil_parse E1 selectors start end_ source c)
    (ReviewScraper.card_iteration dateutil_parse E2 selectors start end_ source c).
Proof.
  unfold ReviewScraper.card_iteration, ReviewScraper.card_body,
    ReviewScraper.review_date_of, ReviewScraper.date_text_of,
    ReviewScraper.parse_date, ReviewScraper.classify, ReviewScraper.text_or.
  agree_auto HE.
Qed.

Hint Resolve card_iteration_agree_rs : agree.

Lemma loop_body_agree_rs (selectors : option ReviewScraper.selector_dict)
    (start end_ : datetime) (source : string) :
  agree eq
    (ReviewScraper.loop_body dateutil_parse E1 selectors start end_ source)
    (ReviewScraper.loop_body dateutil_parse E2 selectors start end_ source).
Proof.
  unfold ReviewScraper.loop_body, ReviewScraper.page_iteration,
    ReviewScraper.paginate.
  agree_auto HE.
Qed.

(** Two runs of review_scraper.py on the same fixture hand back the same. *)
Lemma scrape_reviews_agree_rs (fuel : nat)
    (company start_date end_date source : string) :
  outcome (ReviewScraper.scrape_reviews dateutil_parse E1 fuel company start_date
             end_date source) =
  outcome (ReviewScraper.scrape_reviews dateutil_parse E2 fuel company start_date
             end_date source).
Proof.
  unfold ReviewScraper.scrape_reviews.
  destruct (strptime_ymd start_date) as [start|]; [|reflexivity].
  destruct (strptime_ymd end_date) as [end_|]; [|reflexivity].
  pose proof (open_session_agree_rs company source) as Hopen.
  destruct (Hopen ReviewScraper.initial ReviewScraper.initial eq_refl)
    as [Hr Hc].
  destruct (ReviewScraper.open_session E1 _ _ _) as [[[]|e1] s1],
           (ReviewScraper.open_session E2 _ _ _) as [[[]|e2] s2];
    cbn in Hr, Hc; try contradiction; [|now subst].
  pose proof (@agree_while_true _ _ _
                (loop_body_agree_rs (ReviewScraper.get_selectors source)
                   start end_ source)
                fuel s1 s2 Hc) as Hloop.
  destruct (while_true fuel _ s1) as [[r1 t1]|],
           (while_true fuel _ s2) as [[r2 t2]|]; try contradiction;
    [|reflexivity].
  destruct Hloop as [<- Ht]. destruct r1 as [[]|e]; cbn; [|reflexivity].
  unfold core in Ht. do 3 f_equal. congruence.
Qed.

End TwoRunsReviewScraper.

(** C8 (as amended): two runs of either script on the same page fixture
    that also read the same clock hand back the same ordered list of
    dictionaries (or the same exception), whatever the random generator
    gives for the user agent, the viewport, the scrolling and the pauses. *)
Theorem same_fixture_same_output :
  forall (dateparse : string -> datetime -> res (option datetime))
         (dateutil_parse : string -> datetime -> res datetime) (E1 E2 : env),
    same_fixture E1 E2 ->
    (forall fuel company start_date end_date source headless user_data_dir
            start_url wait_after_nav,
        outcome (Scraper.scrape_reviews dateparse E1 fuel company start_date
                   end_date source headless user_data_dir start_url
                   wait_after_nav) =
        outcome (Scraper.scrape_reviews dateparse E2 fuel company start_date
                   end_date source headless user_data_dir start_url
                   wait_after_nav))
    /\
    (forall fuel company start_date end_date source,
        outcome (ReviewScraper.scrape_reviews dateutil_parse E1 fuel company
                   start_date end_date source) =
        outcome (ReviewScraper.scrape_reviews dateutil_parse E2 fuel company
                   start_date end_date source)).
Proof.
  intros dateparse dateutil_parse E1 E2 HE. split.
  - intros. now apply scrape_reviews_agree.
  - intros. now apply scrape_reviews_agree_rs.
Qed.

(** Two runs with different random numbers on the three-page fixture behind
    a challenge that lasts: the pauses, the scrolling and the number of looks
    at the challenge before the deadline differ, the returned dictionaries do
    not. *)
Lemma same_fixture_same_output_witness :
  let W1 := Fixture.world Fixture.challenged_pages (Fixture.noon 2024 3 10) 7 in
  let W2 := Fixture.world Fixture.challenged_pages (Fixture.noon 2024 3 10) 1000 in
  let run W := Scraper.scrape_reviews Fixture.iso_dateparse W 5 "Acme Tool"
                 "2024-03-01" "2024-03-09" "SourceForge" true None None 0 in
  same_fixture W1 W2 /\
  outcome (run W1) = outcome (run W2) /\
  option_map (fun r => List.length (Scraper.results (vars (snd r)))) (run W1)
    = Some 8 /\
  option_map (fun r => List.length (trace (snd r))) (run W1)
    <> option_map (fun r => List.length (trace (snd r))) (run W2).
Proof.
  cbv zeta.
  assert (HE : same_fixture
                 (Fixture.world Fixture.challenged_pages (Fixture.noon 2024 3 10) 7)
                 (Fixture.world Fixture.challenged_pages (Fixture.noon 2024 3 10)
                    1000))
    by (repeat split).
  split; [exact HE|]. split; [|split].
  - apply (proj1 (same_fixture_same_output Fixture.iso_dateparse
                    Fixture.iso_dateutil HE)).
  - vm_compute. reflexivity.
  - vm_compute. discriminate.
Defined.

(** scraper.py on a card dated [now], read on 10 March and on 11 March 2024:
    the date of the returned dictionary is the day of the run. *)
Example relative_date_follows_the_clock :
  let pages := [Fixture.listing [Fixture.in_range_card "now"] false] in
  let run today :=
    Scraper.scrape_reviews Fixture.relative_dateparse
      (Fixture.world pages today 0) 2 "acme" "2024-03-01" "2024-03-31"
      "sourceforge" true None None 0 in
  option_map (fun r => map date r) (option_map fst_ok (run (midnight 2024 3 10)))
    = Some ["2024-03-10"%string]
  /\
  option_map (fun r => map date r) (option_map fst_ok (run (midnight 2024 3 11)))
    = Some ["2024-03-11"%string].
Proof. cbv zeta. split; vm_compute; reflexivity. Qed.

(** The same page read by review_scraper.py on 10 March and on 11 March
    2024: the card without a readable date comes back dated with the day of
    the run. *)
Lemma same_fixture_counterexample :
  let pages := [Fixture.listing [Fixture.in_range_card "not a date"] false] in
  let run today :=
    ReviewScraper.scrape_reviews Fixture.iso_dateutil
      (Fixture.world pages today 0) 2 "acme" "2024-03-01" "2024-03-31"
      "sourceforge" in
  outcome (run (Fixture.noon 2024 3 10))
    = Some (Ok [mk_review "sourceforge" "Great" "Works well" "2024-03-10" "N/A"])
  /\
  outcome (run (Fixture.noon 2024 3 11))
    = Some (Ok [mk_review "sourceforge" "Great" "Works well" "2024-03-11" "N/A"]).
Proof. cbv zeta. split; vm_compute; reflexivity. Qed.

(* ===================================================================== *)
(** * The normalizers and the external parsers *)
(* ===================================================================== *)

Section Normalizers.

Local Open Scope string_scope.

(** [parse_date] of review_scraper.py hands the text without its prefix to
    [dateutil]. *)
Example clean_str_of_written_on :
  ReviewScraper.clean_str_of "Written on March 3, 2024" = "March 3, 2024".
Proof. vm_compute. reflexivity. Qed.

Example clean_str_of_posted_on :
  ReviewScraper.clean_str_of "Posted on 2024-03-03 " = "2024-03-03".
Proof. vm_compute. reflexivity. Qed.

(** [parse_date_str] of scraper.py hands a non-empty text to [dateparser]
    as it is, prefix included. *)
Lemma parse_date_str_written_on
    (dateparse : string -> datetime -> res (option datetime)) (E : env)
    (s : state Scraper.locals) :
  Scraper.parse_date_str dateparse E (Some "Written on March 3, 2024") s =
  (dateparse "Written on March 3, 2024" (clock E (clock_reads s)), tick s).
Proof. now apply parse_date_str_truthy. Qed.

(** A time later on a day is after the midnight that starts the day: the
    range test, which compares with the midnight of the end date, takes a
    candidate dated later on the last day for newer than the range. *)
Lemma later_on_the_day_is_after_midnight (y m d h mi sec us : Z) :
  (0 < h)%Z -> dt_lt (midnight y m d) (mk_datetime y m d h mi sec us) = true.
Proof.
  intros Hh. unfold dt_lt, dt_compare, dt_fields, midnight; cbn.
  rewrite !Z.compare_refl.
  destruct h; [lia | reflexivity | lia].
Qed.

End Normalizers.

(* ===================================================================== *)
(** * Further properties of the two scripts *)
(* ===================================================================== *)

(** ** Texts *)

Section Texts.

Local Open Scope string_scope.

Lemma has_char_app (c : ascii) (a b : string) :
  has_char c (a ++ b) = has_char c a || has_char c b.
Proof.
  induction a as [|x a IH]; cbn; [reflexivity|].
  now rewrite IH, orb_assoc.
Qed.

Lemma replace_blank_has_no_blank (s : string) :
  has_char " " (replace " " "-" s) = false.
Proof.
  assert (Hp : forall t, prefix "" t = true) by (intros []; reflexivity).
  unfold replace. induction s as [|c s IH]; [reflexivity|].
  cbn [replace_from prefix String.length Nat.sub].
  destruct (ascii_dec " " c) as [<-|Hc].
  - rewrite Hp. cbn [append has_char]. rewrite IH. reflexivity.
  - cbn [has_char]. rewrite IH, orb_false_r. apply Ascii.eqb_neq. congruence.
Qed.

Lemma lstrip_head (s : string) :
  lstrip s = "" \/ exists c t, lstrip s = String c t /\ is_space c = false.
Proof.
  induction s as [|c s IH]; cbn; [auto|].
  destruct (is_space c) eqn:Hc; [exact IH|]. right. eauto.
Qed.

Lemma rstrip_idempotent (s : string) : rstrip (rstrip s) = rstrip s.
Proof.
  induction s as [|c s IH]; cbn; [reflexivity|].
  destruct (rstrip s) as [|d r] eqn:Hr.
  - destruct (is_space c) eqn:Hc; cbn; [reflexivity|]. now rewrite Hc.
  - cbn [rstrip]. cbn [rstrip] in IH. rewrite IH. reflexivity.
Qed.

Lemma rstrip_head (c : ascii) (t : string) :
  is_space c = false -> exists r, rstrip (String c t) = String c r.
Proof.
  intros Hc. cbn. destruct (rstrip t); [rewrite Hc|]; eauto.
Qed.

(** Stripping a stripped text changes nothing. *)
Lemma strip_idempotent (s : string) : strip (strip s) = strip s.
Proof.
  unfold strip.
  destruct (lstrip_head s) as [-> | (c & t & -> & Hc)]; [reflexivity|].
  destruct (@rstrip_head c t Hc) as [r Hr]. rewrite Hr.
  cbn [lstrip]. rewrite Hc. rewrite <- Hr. apply rstrip_idempotent.
Qed.

Lemma take_digits_spec (s d r : string) :
  take_digits s = (d, r) -> all_digits d = true /\ s = d ++ r.
Proof.
  revert d r; induction s as [|c s IH]; intros d r; cbn.
  - intros [= <- <-]. auto.
  - destruct (is_digit c) eqn:Hc.
    + destruct (take_digits s) as [d' r']. intros [= <- <-].
      destruct (IH _ _ eq_refl) as [H1 H2]. cbn. rewrite Hc, H1.
      split; [reflexivity|congruence].
    + intros [= <- <-]. auto.
Qed.

Lemma take_fraction_spec (s frac r : string) :
  take_fraction s = (frac, r) ->
  frac = "" \/ exists f, frac = String "." f /\ digit_run f = true.
Proof.
  unfold take_fraction. destruct s as [|c s]; [intros [= <- <-]; auto|].
  destruct (Ascii.eqb c ".") eqn:Hc; [|intros [= <- <-]; auto].
  destruct (take_digits s) as [f r'] eqn:Hf.
  destruct (truthy f) eqn:Ht; intros [= <- <-]; [|auto].
  right. apply Ascii.eqb_eq in Hc as ->. exists f. split; [reflexivity|].
  unfold digit_run. rewrite Ht. now apply take_digits_spec in Hf as [-> _].
Qed.

Lemma match_rating_here_decimal (s g : string) :
  match_rating_here s = Some g -> decimal_number g.
Proof.
  unfold match_rating_here.
  destruct (take_digits s) as [whole r1] eqn:Hw.
  destruct (truthy whole) eqn:Ht; [|discriminate].
  destruct (take_fraction r1) as [frac r2] eqn:Hf.
  destruct (match_ci "out of" (lstrip r2)) as [r3|]; [|discriminate].
  destruct (take_digits (lstrip r3)) as [scale r4].
  destruct (truthy scale); [|discriminate].
  intros [= <-]. exists whole, frac. split; [reflexivity|]. split.
  - unfold digit_run. rewrite Ht. now apply take_digits_spec in Hw as [-> _].
  - eapply take_fraction_spec; eauto.
Qed.

End Texts.

(** ** The URL of the listing *)

Section Urls.

Local Open Scope string_scope.

Lemma build_url_empty (src company : string) :
  Scraper.get_selectors src = None <-> Scraper.build_url src company = "".
Proof.
  unfold Scraper.get_selectors, Scraper.build_url.
  destruct (lower src =? "g2"); [split; discriminate|].
  destruct (lower src =? "capterra"); [split; discriminate|].
  destruct (lower src =? "sourceforge"); [split; discriminate|].
  split; reflexivity.
Qed.

(** X1: [build_url] of scraper.py yields the empty URL exactly for the
    sources [get_selectors] has no selectors for, whatever the company;
    so the empty URL that [build_url] falls back to is out of reach once
    the source has passed the check at the head of [scrape_reviews]. *)
Theorem build_url_is_empty_only_for_an_unsupported_source :
  forall src company : string,
    Scraper.get_selectors src = None <->
    Scraper.build_url src company = "".
Proof.
  intros src company. unfold Scraper.get_selectors, Scraper.build_url.
  destruct (lower src =? "g2"); [split; discriminate|].
  destruct (lower src =? "capterra"); [split; discriminate|].
  destruct (lower src =? "sourceforge"); [split; discriminate|].
  split; reflexivity.
Qed.

Lemma lower_char_idempotent (c : ascii) : lower_char (lower_char c) = lower_char c.
Proof.
  destruct c as [[] [] [] [] [] [] [] []]; reflexivity.
Qed.

Lemma lower_cons (c : ascii) (s : string) :
  lower (String c s) = String (lower_char c) (lower s).
Proof. reflexivity. Qed.

Lemma lower_idempotent (s : string) : lower (lower s) = lower s.
Proof.
  induction s as [|c s IH]; [reflexivity|].
  now rewrite !lower_cons, lower_char_idempotent, IH.
Qed.

Lemma lower_app (a b : string) : lower (a ++ b) = lower a ++ lower b.
Proof.
  induction a as [|c a IH]; [reflexivity|].
  cbn [append]. rewrite !lower_cons. cbn [append]. now rewrite IH.
Qed.

Lemma lower_char_blank (c : ascii) : lower_char c = " "%char -> c = " "%char.
Proof.
  destruct c as [[] [] [] [] [] [] [] []]; vm_compute; intros H;
    first [reflexivity | discriminate H].
Qed.

Lemma lower_replace_blank (s : string) :
  lower (replace " " "-" s) = replace " " "-" (lower s).
Proof.
  assert (Hp : forall t, prefix "" t = true) by (intros []; reflexivity).
  unfold replace. induction s as [|c s IH]; [reflexivity|].
  rewrite lower_cons. cbn [replace_from prefix String.length Nat.sub].
  destruct (ascii_dec " " c) as [<-|Hc].
  - change (lower_char " ") with " "%char.
    destruct (ascii_dec " " " ") as [_|N]; [|congruence].
    rewrite !Hp. cbn [append]. rewrite lower_cons. now rewrite IH.
  - destruct (ascii_dec " " (lower_char c)) as [E|_].
    + symmetry in E. apply lower_char_blank in E. congruence.
    + rewrite lower_cons. now rewrite IH.
Qed.

(** X2: the URL that [build_url] of scraper.py builds holds no blank and
    no upper-case letter, whatever the spelling of the source and of the
    company: the blanks of the company name are replaced by hyphens and
    its letters are lowered. *)
Theorem build_url_is_lower_case_without_blanks :
  forall source company : string,
    has_char " " (Scraper.build_url source company) = false /\
    lower (Scraper.build_url source company) = Scraper.build_url source company.
Proof.
  intros source company. unfold Scraper.build_url.
  destruct (lower source =? "g2");
    [|destruct (lower source =? "capterra");
      [|destruct (lower source =? "sourceforge"); [|split; reflexivity]]];
    (split;
     [ rewrite !has_char_app, replace_blank_has_no_blank; reflexivity
     | rewrite !lower_app, lower_replace_blank, lower_idempotent; reflexivity ]).
Qed.

End Urls.

(** ** Dates written and read back *)

Section DatesReadBack.

Local Open Scope Z_scope.

Lemma digit_char_is_digit (d : Z) :
  0 <= d <= 9 -> is_digit (digit_char d) = true /\ digit_val (digit_char d) = d.
Proof.
  intros H.
  assert (C : d = 0 \/ d = 1 \/ d = 2 \/ d = 3 \/ d = 4 \/ d = 5 \/ d = 6 \/
              d = 7 \/ d = 8 \/ d = 9) by lia.
  repeat (destruct C as [-> | C]; [split; reflexivity|]).
  subst d; split; reflexivity.
Qed.

Lemma parse_month_pad2 (m : Z) (rest : string) :
  1 <= m <= 12 -> parse_month (pad2 m ++ rest) = Some (m, rest).
Proof.
  intros H.
  assert (C : m = 1 \/ m = 2 \/ m = 3 \/ m = 4 \/ m = 5 \/ m = 6 \/ m = 7 \/
              m = 8 \/ m = 9 \/ m = 10 \/ m = 11 \/ m = 12) by lia.
  repeat (destruct C as [-> | C]; [reflexivity|]).
  subst m; reflexivity.
Qed.

Lemma parse_day_pad2 (d : Z) :
  1 <= d <= 31 -> parse_day (pad2 d) = Some (d, EmptyString).
Proof.
  intros H.
  assert (C : d = 1 \/ d = 2 \/ d = 3 \/ d = 4 \/ d = 5 \/ d = 6 \/ d = 7 \/
              d = 8 \/ d = 9 \/ d = 10 \/ d = 11 \/ d = 12 \/ d = 13 \/
              d = 14 \/ d = 15 \/ d = 16 \/ d = 17 \/ d = 18 \/ d = 19 \/
              d = 20 \/ d = 21 \/ d = 22 \/ d = 23 \/ d = 24 \/ d = 25 \/
              d = 26 \/ d = 27 \/ d = 28 \/ d = 29 \/ d = 30 \/ d = 31) by lia.
  repeat (destruct C as [-> | C]; [reflexivity|]).
  subst d; reflexivity.
Qed.

Lemma days_in_month_le_31 (y m : Z) : days_in_month y m <= 31.
Proof.
  unfold days_in_month.
  destruct (m =? 2); [destruct (is_leap y); lia|].
  destruct ((m =? 4) || (m =? 6) || (m =? 9) || (m =? 11))%bool; lia.
Qed.

(** X3: a day of the calendar with a four-digit year that [iso_date] of
    scraper.py has written is read back by [strptime] with the format of
    the start and end dates as the midnight of that day: the date of a
    returned dictionary can be given back to the script as a start or end
    date. *)
Theorem iso_date_is_read_back :
  forall dt : datetime,
    1000 <= year dt <= 9999 ->
    1 <= month dt <= 12 ->
    1 <= day dt <= days_in_month (year dt) (month dt) ->
    strptime_ymd (Scraper.iso_date dt)
    = Some (midnight (year dt) (month dt) (day dt)).
Proof.
  intros [y m d h mi sec us]; cbn [year month day]. intros Hy Hm Hd.
  pose proof (days_in_month_le_31 y m) as H31.
  unfold Scraper.iso_date, strftime_ymd, pad4. cbn [year month day].
  set (a := y / 1000 mod 10). set (b := y / 100 mod 10).
  unfold pad2 at 1. set (c := y / 10 mod 10). set (e := y mod 10).
  assert (Ha : 0 <= a <= 9) by (subst a; match goal with |- _ <= ?x mod 10 <= _ => pose proof (Z.mod_pos_bound x 10) end; lia).
  assert (Hb : 0 <= b <= 9) by (subst b; match goal with |- _ <= ?x mod 10 <= _ => pose proof (Z.mod_pos_bound x 10) end; lia).
  assert (Hc : 0 <= c <= 9) by (subst c; match goal with |- _ <= ?x mod 10 <= _ => pose proof (Z.mod_pos_bound x 10) end; lia).
  assert (He : 0 <= e <= 9) by (subst e; match goal with |- _ <= ?x mod 10 <= _ => pose proof (Z.mod_pos_bound x 10) end; lia).
  assert (Hyv : 1000 * a + 100 * b + 10 * c + e = y).
  { subst a b c e. Z.div_mod_to_equations. lia. }
  destruct (digit_char_is_digit Ha) as [Da Va], (digit_char_is_digit Hb) as [Db Vb],
    (digit_char_is_digit Hc) as [Dc Vc], (digit_char_is_digit He) as [De Ve].
  unfold strptime_ymd. cbn [append].
  rewrite Da, Db, Dc, De, Va, Vb, Vc, Ve, Hyv. cbn [andb Ascii.eqb].
  change (Ascii.eqb "-" "-") with true. cbn iota.
  rewrite parse_month_pad2 by exact Hm.
  cbn [append]. change (Ascii.eqb "-" "-") with true. cbn iota.
  change (pad2 d ++ "")%string with (pad2 d).
  rewrite parse_day_pad2 by lia.
  replace (1 <=? y) with true by (symmetry; apply Z.leb_le; lia).
  replace (d <=? days_in_month y m) with true by (symmetry; apply Z.leb_le; lia).
  reflexivity.
Qed.

(** The ninth of March 2024, written and read back. *)
Lemma iso_date_is_read_back_witness :
  strptime_ymd (Scraper.iso_date (mk_datetime 2024 3 9 17 45 0 0))
  = Some (midnight 2024 3 9).
Proof.
  apply (iso_date_is_read_back (mk_datetime 2024 3 9 17 45 0 0));
    vm_compute; split; discriminate.
Defined.

End DatesReadBack.

(** ** The rating read from the label *)

Section RatingLabel.

Local Open Scope string_scope.

Lemma search_rating_decimal (s g : string) :
  search_rating s = Some g -> decimal_number g.
Proof.
  induction s as [|c s IH]; cbn [search_rating].
  - destruct (match_rating_here "") eqn:H; [|discriminate].
    intros [= <-]. eauto using match_rating_here_decimal.
  - destruct (match_rating_here (String c s)) eqn:H; [|exact IH].
    intros [= <-]. eauto using match_rating_here_decimal.
Qed.

(** What [extract_rating_safe] returns for an element whose label the
    pattern matches. *)
Lemma extract_rating_safe_label (root : card) (sel : string) (el : element)
    (aria g : string) :
  truthy sel = true ->
  query_selector root sel = Ok (Some el) ->
  get_attribute el "aria-label" = Ok (Some aria) ->
  search_rating aria = Some g ->
  Scraper.extract_rating_safe root (Some sel) = g.
Proof.
  intros Hsel Hq Ha Hs. unfold Scraper.extract_rating_safe.
  rewrite Hsel, Hq, Ha. cbn [negb opt_or].
  destruct aria as [|c aria].
  - cbn in Hs. discriminate.
  - cbn [str_or truthy]. now rewrite Hs.
Qed.

(** X4: when the pattern of [extract_rating_safe] matches the
    [aria-label] of the rating element, the rating returned is the first
    group of the match, a decimal number (digits, possibly followed by a
    point and digits), whatever the text of the element is. *)
Theorem rating_from_the_label_is_a_number :
  forall (root : card) (sel : string) (el : element) (aria g : string),
    truthy sel = true ->
    query_selector root sel = Ok (Some el) ->
    get_attribute el "aria-label" = Ok (Some aria) ->
    search_rating aria = Some g ->
    Scraper.extract_rating_safe root (Some sel) = g /\ decimal_number g.
Proof.
  intros root sel el aria g Hsel Hq Ha Hs. split.
  - eapply extract_rating_safe_label; eauto.
  - eapply search_rating_decimal; eauto.
Qed.

(** The card of the fixture, labelled [4.5 out of 5 stars]. *)
Lemma rating_from_the_label_is_a_number_witness :
  Scraper.extract_rating_safe (Fixture.in_range_card "2024-03-05")
    (Some "div.stars") = "4.5" /\ decimal_number "4.5".
Proof.
  pose proof (@rating_from_the_label_is_a_number
                (Fixture.in_range_card "2024-03-05") "div.stars"
                (Fixture.stars_element "4.5 out of 5 stars")
                "4.5 out of 5 stars" "4.5"
                eq_refl eq_refl eq_refl eq_refl) as (H1 & H2).
  split; [exact H1 | exact H2].
Defined.

Lemma is_digit_not_space (c : ascii) : is_digit c = true -> is_space c = false.
Proof.
  destruct c as [[] [] [] [] [] [] [] []]; vm_compute; intros H;
    first [reflexivity | discriminate H].
Qed.

Lemma append_empty (s : string) : s ++ "" = s.
Proof. induction s as [|c s IH]; cbn; [reflexivity|now rewrite IH]. Qed.

Lemma append_assoc (a b c : string) : (a ++ b) ++ c = a ++ b ++ c.
Proof. induction a as [|x a IH]; cbn; [reflexivity|now rewrite IH]. Qed.

Lemma take_digits_app (d r : string) :
  all_digits d = true ->
  take_digits (d ++ r) = (d ++ fst (take_digits r), snd (take_digits r)).
Proof.
  induction d as [|c d IH]; cbn [all_digits append]; intros H.
  - now destruct (take_digits r).
  - apply andb_prop in H as [Hc Hd]. cbn [take_digits]. rewrite Hc, (IH Hd).
    reflexivity.
Qed.

(** A run of digits is taken up to a character that is not a digit. *)
Lemma take_digits_run (d : string) (c : ascii) (r : string) :
  all_digits d = true -> is_digit c = false ->
  take_digits (d ++ String c r) = (d, String c r).
Proof.
  intros Hd Hc. rewrite take_digits_app by exact Hd.
  cbn [take_digits]. rewrite Hc. cbn [fst snd]. now rewrite append_empty.
Qed.

Lemma search_rating_skips (pre s : string) :
  no_digit pre = true -> search_rating (pre ++ s) = search_rating s.
Proof.
  induction pre as [|c pre IH]; cbn [no_digit append]; intros H; [reflexivity|].
  apply andb_prop in H as [Hc Hp]. apply negb_true_iff in Hc.
  cbn [search_rating]. unfold match_rating_here at 1.
  cbn [take_digits]. rewrite Hc. cbn [truthy]. auto.
Qed.

(** The pattern at the head of a label that starts with a number followed
    by [ out of ] and a scale. *)
Lemma match_rating_here_number (whole frac scale tail : string) :
  digit_run whole = true ->
  (frac = "" \/ exists f, frac = String "." f /\ digit_run f = true) ->
  digit_run scale = true ->
  match_rating_here (whole ++ frac ++ " out of " ++ scale ++ tail)
  = Some (whole ++ frac).
Proof.
  unfold digit_run. intros Hw Hf Hs.
  apply andb_prop in Hw as [Hw1 Hw2]. apply andb_prop in Hs as [Hs1 Hs2].
  assert (Htail : forall r,
             r = " out of " ++ scale ++ tail ->
             match match_ci "out of" (lstrip r) with
             | Some r3 =>
                 let (sc, _) := take_digits (lstrip r3) in
                 if truthy sc then Some (whole ++ frac) else None
             | None => None
             end = Some (whole ++ frac)).
  { intros r ->. cbn [append lstrip]. 
    change (is_space " ") with true. change (is_space "o") with false.
    cbn iota. cbn [match_ci]. 
    change (Ascii.eqb (lower_char "o") "o") with true.
    change (Ascii.eqb (lower_char "u") "u") with true.
    change (Ascii.eqb (lower_char "t") "t") with true.
    change (Ascii.eqb (lower_char " ") " ") with true.
    change (Ascii.eqb (lower_char "f") "f") with true.
    cbn iota. cbn [lstrip]. change (is_space " ") with true. cbn iota.
    destruct scale as [|c0 scale]; [discriminate|].
    cbn [all_digits] in Hs2. apply andb_prop in Hs2 as [Hc0 Hs2].
    cbn [append lstrip]. rewrite (is_digit_not_space _ Hc0).
    cbn [take_digits]. rewrite Hc0.
    destruct (take_digits (scale ++ tail)). reflexivity. }
  unfold match_rating_here.
  destruct Hf as [-> | (f & -> & Hf)].
  - cbn [append]. rewrite take_digits_run by (exact Hw2 || reflexivity).
    rewrite Hw1. cbn [take_fraction]. change (Ascii.eqb " " ".") with false.
    cbn iota. now apply Htail.
  - apply andb_prop in Hf as [Hf1 Hf2].
    cbn [append]. rewrite take_digits_run by (exact Hw2 || reflexivity).
    rewrite Hw1. cbn [take_fraction]. change (Ascii.eqb "." ".") with true.
    cbn iota. rewrite take_digits_run by (exact Hf2 || reflexivity).
    rewrite Hf1. now apply Htail.
Qed.

(** X5: for a rating element whose [aria-label] reads, after a text
    without digits, a decimal number followed by [ out of ] and a scale in
    digits (as in [Rated 4.5 out of 5 stars]), [extract_rating_safe]
    returns that number. *)
Theorem rating_is_the_number_before_out_of :
  forall (root : card) (sel : string) (el : element)
         (pre number scale tail : string),
    truthy sel = true ->
    query_selector root sel = Ok (Some el) ->
    get_attribute el "aria-label"
      = Ok (Some (pre ++ number ++ " out of " ++ scale ++ tail)) ->
    no_digit pre = true ->
    decimal_number number ->
    digit_run scale = true ->
    Scraper.extract_rating_safe root (Some sel) = number.
Proof.
  intros root sel el pre number scale tail Hsel Hq Ha Hpre Hn Hs.
  eapply extract_rating_safe_label; eauto.
  rewrite search_rating_skips by exact Hpre.
  destruct Hn as (whole & frac & -> & Hw & Hf).
  assert (Hm : match_rating_here
                 ((whole ++ frac) ++ " out of " ++ scale ++ tail)
               = Some (whole ++ frac))
    by (rewrite append_assoc; now apply match_rating_here_number).
  destruct ((whole ++ frac) ++ " out of " ++ scale ++ tail);
    cbn [search_rating]; now rewrite Hm.
Qed.

(** [Rated 4.5 out of 5 stars] gives [4.5]. *)
Lemma rating_is_the_number_before_out_of_witness :
  Scraper.extract_rating_safe
    (mk_card (fun _ => Ok (Some (Fixture.stars_element "Rated 4.5 out of 5 stars"))))
    (Some "div.stars") = "4.5".
Proof.
  apply (@rating_is_the_number_before_out_of
           (mk_card (fun _ => Ok (Some (Fixture.stars_element
                                          "Rated 4.5 out of 5 stars"))))
           "div.stars" (Fixture.stars_element "Rated 4.5 out of 5 stars")
           "Rated " "4.5" "5" " stars");
    try reflexivity.
  exists "4", ".5". split; [reflexivity|]. split; [reflexivity|].
  right. exists "5". split; reflexivity.
Defined.

End RatingLabel.

(** ** The prefixes that [parse_date] removes *)

Section Prefixes.

Local Open Scope string_scope.

Lemma replace_from_skip (old new p s : string) :
  replace_from (String.length p) old new (p ++ s) = replace_from 0 old new s.
Proof.
  induction p as [|c p IH]; [reflexivity|]. cbn [String.length append replace_from].
  exact IH.
Qed.

Lemma prefix_app (p s : string) : prefix p (p ++ s) = true.
Proof.
  induction p as [|c p IH]; [destruct s; reflexivity|].
  cbn [append prefix]. destruct (ascii_dec c c); [exact IH|congruence].
Qed.

(** An occurrence at the head of the text is replaced, and the search goes
    on behind it. *)
Lemma replace_head (c : ascii) (old new s : string) :
  replace (String c old) new (String c old ++ s)
  = new ++ replace (String c old) new s.
Proof.
  unfold replace. cbn [append replace_from].
  pose proof (prefix_app (String c old) s) as Hp. cbn [append] in Hp. rewrite Hp.
  cbn [String.length Nat.sub]. rewrite Nat.sub_0_r.
  now rewrite replace_from_skip.
Qed.

(** A text in which [old] does not occur is left as it is. *)
Lemma replace_absent (old new s : string) :
  occurs old s = false -> replace old new s = s.
Proof.
  unfold replace. induction s as [|c s IH]; [reflexivity|].
  cbn [occurs]. intros H. apply orb_false_iff in H as [Hp Ho].
  cbn [replace_from]. rewrite Hp, (IH Ho). reflexivity.
Qed.

(** X6: [parse_date] of review_scraper.py takes no notice of a leading
    [Written on] or [Posted on]: for a text in which neither phrase
    occurs, the parser is handed the stripped text, with or without such a
    prefix, and [parse_date] returns the same in the three cases. *)
Theorem parse_date_ignores_the_prefix :
  forall (dateutil_parse : string -> datetime -> res datetime) (E : env)
         (s : string) (st : state ReviewScraper.locals),
    occurs "Written on" s = false ->
    occurs "Posted on" s = false ->
    ReviewScraper.clean_str_of s = strip s /\
    ReviewScraper.clean_str_of ("Written on" ++ s) = strip s /\
    ReviewScraper.clean_str_of ("Posted on" ++ s) = strip s /\
    ReviewScraper.parse_date dateutil_parse E ("Written on" ++ s) st
      = ReviewScraper.parse_date dateutil_parse E s st /\
    ReviewScraper.parse_date dateutil_parse E ("Posted on" ++ s) st
      = ReviewScraper.parse_date dateutil_parse E s st.
Proof.
  intros dateutil_parse E s st Hw Hp.
  assert (H0 : ReviewScraper.clean_str_of s = strip s).
  { unfold ReviewScraper.clean_str_of.
    now rewrite (replace_absent _ _ _ Hw), (replace_absent _ _ _ Hp). }
  assert (H1 : ReviewScraper.clean_str_of ("Written on" ++ s) = strip s).
  { unfold ReviewScraper.clean_str_of.
    rewrite (replace_head "W" "ritten on" "" s). cbn [append].
    now rewrite (replace_absent _ _ _ Hw), (replace_absent _ _ _ Hp). }
  assert (H2 : ReviewScraper.clean_str_of ("Posted on" ++ s) = strip s).
  { unfold ReviewScraper.clean_str_of.
    assert (Hw' : occurs "Written on" ("Posted on" ++ s) = false).
    { cbn [append occurs prefix].
      repeat match goal with
             | |- context [ascii_dec ?a ?b] =>
                 destruct (ascii_dec a b); [discriminate|]
             end.
      exact Hw. }
    rewrite (replace_absent _ _ _ Hw').
    rewrite (replace_head "P" "osted on" "" s). cbn [append].
    now rewrite (replace_absent _ _ _ Hp). }
  repeat split; try assumption;
    unfold ReviewScraper.parse_date; rewrite ?H1, ?H2, H0; reflexivity.
Qed.

(** [Written on March 3, 2024] and [Posted on March 3, 2024] are parsed as
    [March 3, 2024] is. *)
Lemma parse_date_ignores_the_prefix_witness :
  ReviewScraper.clean_str_of " March 3, 2024" = "March 3, 2024" /\
  ReviewScraper.clean_str_of "Written on March 3, 2024" = "March 3, 2024" /\
  ReviewScraper.clean_str_of "Posted on March 3, 2024" = "March 3, 2024" /\
  ReviewScraper.parse_date Fixture.iso_dateutil
    (Fixture.world Fixture.three_pages (Fixture.noon 2024 3 10) 7)
    "Written on March 3, 2024" ReviewScraper.initial
  = ReviewScraper.parse_date Fixture.iso_dateutil
      (Fixture.world Fixture.three_pages (Fixture.noon 2024 3 10) 7)
      " March 3, 2024" ReviewScraper.initial /\
  ReviewScraper.parse_date Fixture.iso_dateutil
    (Fixture.world Fixture.three_pages (Fixture.noon 2024 3 10) 7)
    "Posted on March 3, 2024" ReviewScraper.initial
  = ReviewScraper.parse_date Fixture.iso_dateutil
      (Fixture.world Fixture.three_pages (Fixture.noon 2024 3 10) 7)
      " March 3, 2024" ReviewScraper.initial.
Proof.
  exact (@parse_date_ignores_the_prefix Fixture.iso_dateutil
           (Fixture.world Fixture.three_pages (Fixture.noon 2024 3 10) 7)
           " March 3, 2024" ReviewScraper.initial eq_refl eq_refl).
Defined.

End Prefixes.

(** ** Scrolling and pauses *)

Section Pacing.

Variable E : env.

Local Open Scope Z_scope.

Lemma slept_app (a b : list event) : slept (a ++ b) = slept a + slept b.
Proof.
  induction a as [|e a IH]; cbn [app slept]; [lia|].
  destruct e; rewrite ?IH; lia.
Qed.

Lemma randint_in_range (a b r : Z) : a <= b -> a <= a + r mod (b - a + 1) <= b.
Proof. intros H. pose proof (Z.mod_pos_bound r (b - a + 1)). lia. Qed.

Lemma randint_run (L : Type) (a b : Z) (s : state L) :
  randint E a b s =
  (Ok (a + rand E (rand_reads s) mod (b - a + 1)),
   mk_state (vars s) (browser_page s) (trace s) (clock_reads s)
     (S (rand_reads s))).
Proof. reflexivity. Qed.

(** A pause: one random number is drawn, and the sleep lies between the
    bounds. *)
Lemma human_sleep_run (a b : Z) (s : state Scraper.locals) :
  a <= b ->
  exists t,
    a <= t <= b /\
    Scraper.human_sleep E a b s =
    (Ok tt, mk_state (vars s) (browser_page s) (trace s ++ [Sleep t])
              (clock_reads s) (S (rand_reads s))).
Proof.
  intros H. exists (a + rand E (rand_reads s) mod (b - a + 1)).
  split; [now apply randint_in_range | reflexivity].
Qed.

Lemma bind_ok (L A B : Type) (m : M L A) (k : A -> M L B)
    (s s1 : state L) (a : A) :
  m s = (Ok a, s1) -> bind m k s = k a s1.
Proof. intros H. unfold bind. now rewrite H. Qed.

End Pacing.

(** What [scroll_page] does, step by step. *)
Lemma scroll_page_run :
  forall (E : env) (steps : nat) (s : state Scraper.locals),
    exists s' evs,
      Scraper.scroll_page E steps s = (Ok tt, s') /\
      vars s' = vars s /\ browser_page s' = browser_page s /\
      clock_reads s' = clock_reads s /\
      trace s' = trace s ++ evs /\
      List.length evs = (2 * steps)%nat /\
      List.length (wheeled evs) = steps /\
      Forall (fun dy => 800 <= dy <= 1400)%Z (wheeled evs) /\
      List.length (pauses evs) = steps /\
      Forall (fun t => 400 <= t <= 1000)%Z (pauses evs).
Proof.
  intros E. induction steps as [|k IH]; intros s.
  - exists s, []. cbn. rewrite app_nil_r. repeat split; constructor.
  - cbn [Scraper.scroll_page].
    erewrite bind_ok by apply randint_run.
    set (dy := (800 + rand E (rand_reads s) mod (1400 - 800 + 1))%Z).
    assert (Hdy : (800 <= dy <= 1400)%Z) by (apply randint_in_range; lia).
    erewrite bind_ok by reflexivity.
    match goal with
    | |- context [bind (Scraper.human_sleep E 400 1000) _ ?s1] =>
        destruct (@human_sleep_run E 400 1000 s1 ltac:(lia)) as (t & Ht & Hrun)
    end.
    erewrite bind_ok by exact Hrun.
    match goal with
    | |- context [Scraper.scroll_page E k ?s2] =>
        destruct (IH s2) as (s' & evs & Hk & Hv & Hp & Hc & Ht' & Hl & Hw & Hwr & Hs & Hsr)
    end.
    cbn [vars browser_page trace clock_reads] in Hv, Hp, Hc, Ht'.
    exists s', (MouseWheel dy :: Sleep t :: evs).
    split; [exact Hk|]. repeat split; try assumption.
    + rewrite Ht', <- !app_assoc. reflexivity.
    + cbn [List.length]. lia.
    + cbn [wheeled List.length]. lia.
    + cbn [wheeled]. constructor; assumption.
    + cbn [pauses List.length]. lia.
    + cbn [pauses]. constructor; assumption.
Qed.


(** ** The wait for a challenge to be solved *)

Section Challenge.

Variable E : env.

Local Open Scope Z_scope.

(** The state after a look for [sel]. *)
Lemma emit_run (L : Type) (e : event) (s : state L) :
  emit e s = (Ok tt, mk_state (vars s) (browser_page s) (trace s ++ [e])
                       (clock_reads s) (rand_reads s)).
Proof. reflexivity. Qed.

(** The polling loop returns; it leaves the variables, the page and the
    clock alone; and when it has slept at all, the sleeps end less than two
    seconds after the deadline. *)
Lemma wait_for_manual_solve_run (fuel : nat) (sel : string) (deadline : Z)
    (still : nat) (s : state Scraper.locals) :
  exists s',
    Scraper.wait_for_manual_solve E fuel sel deadline still s = (Ok tt, s') /\
    core s' = core s /\
    slept (trace s) <= slept (trace s') /\
    (slept (trace s') = slept (trace s) \/ slept (trace s') < deadline + 2000).
Proof.
  revert still s; induction fuel as [|fuel IH]; intros still s;
    cbn [Scraper.wait_for_manual_solve].
  - exists s. repeat split; [lia | auto].
  - erewrite bind_ok by reflexivity.
    destruct (slept (trace s) <? deadline) eqn:Hlt;
      [|exists s; repeat split; [lia | auto]].
    apply Z.ltb_lt in Hlt.
    destruct (@human_sleep_run E 1000 2000 s ltac:(lia)) as (t & Ht & Hrun).
    erewrite bind_ok by exact Hrun.
    erewrite bind_ok by apply emit_run.
    cbn [vars browser_page trace clock_reads rand_reads].
    set (s2 := mk_state _ _ _ _ _).
    assert (Hs2 : slept (trace s2) = slept (trace s) + t).
    { subst s2. cbn [trace]. rewrite !slept_app. cbn [slept]. lia. }
    destruct still as [|still].
    + exists s2. split; [reflexivity|]. split; [reflexivity|]. lia.
    + destruct (IH still s2) as (s' & Hk & Hc & Hle & Hb).
      exists s'. split; [exact Hk|]. split; [exact Hc|]. lia.
Qed.

(** The look for one signal. *)
Lemma challenge_look_run (max_wait_seconds : Z) (sel : string)
    (s : state Scraper.locals) :
  (emit (QuerySelector sel) ;;
   p <- page E ;;
   match pf_challenge p sel with
   | Some still =>
       t <- time_time ;;
       Scraper.wait_for_manual_solve E (S (Z.to_nat max_wait_seconds)) sel
         (t + 1000 * max_wait_seconds) still ;;
       ret Break
   | None => ret Continue
   end)%py s =
  match pf_challenge (site E (browser_page s)) sel with
  | Some still =>
      (Ok Break,
       snd (Scraper.wait_for_manual_solve E (S (Z.to_nat max_wait_seconds)) sel
              (slept (trace s ++ [QuerySelector sel]) + 1000 * max_wait_seconds)
              still
              (mk_state (vars s) (browser_page s) (trace s ++ [QuerySelector sel])
                 (clock_reads s) (rand_reads s))))
  | None =>
      (Ok Continue,
       mk_state (vars s) (browser_page s) (trace s ++ [QuerySelector sel])
         (clock_reads s) (rand_reads s))
  end.
Proof.
  erewrite bind_ok by apply emit_run.
  erewrite bind_ok by reflexivity.
  cbn [vars browser_page trace clock_reads rand_reads].
  destruct (pf_challenge (site E (browser_page s)) sel) as [still|];
    [|reflexivity].
  erewrite bind_ok by reflexivity.
  cbn [vars browser_page trace clock_reads rand_reads].
  match goal with
  | |- context [Scraper.wait_for_manual_solve E ?f ?sl ?d ?st ?s0] =>
      destruct (wait_for_manual_solve_run f sl d st s0) as (s' & Hk & _)
  end.
  erewrite bind_ok by exact Hk. rewrite Hk. reflexivity.
Qed.

(** The loop over the signals, for any list of signals. *)
Lemma challenge_loop_run (max_wait_seconds : Z) (signals : list string)
    (s : state Scraper.locals) :
  0 <= max_wait_seconds ->
  exists s',
    for_each_break
      (fun sel =>
         emit (QuerySelector sel) ;;
         p <- page E ;;
         match pf_challenge p sel with
         | Some still =>
             t <- time_time ;;
             Scraper.wait_for_manual_solve E (S (Z.to_nat max_wait_seconds)) sel
               (t + 1000 * max_wait_seconds) still ;;
             ret Break
         | None => ret Continue
         end)%py
      signals s = (Ok tt, s') /\
    core s' = core s /\
    slept (trace s) <= slept (trace s')
      < slept (trace s) + 1000 * max_wait_seconds + 2000 /\
    ((forall sel, In sel signals ->
                  pf_challenge (site E (browser_page s)) sel = None) ->
     slept (trace s') = slept (trace s)).
Proof.
  intros Hmw. revert s; induction signals as [|sel signals IH]; intros s;
    cbn [for_each_break].
  - exists s. split; [reflexivity|]. split; [reflexivity|]. split; [lia|auto].
  - unfold bind at 1. rewrite challenge_look_run.
    assert (Hq : slept (trace s ++ [QuerySelector sel]) = slept (trace s))
      by (rewrite slept_app; cbn [slept]; lia).
    destruct (pf_challenge (site E (browser_page s)) sel) as [still|] eqn:Hch.
    + match goal with
      | |- context [Scraper.wait_for_manual_solve E ?f ?sl ?d ?st ?s0] =>
          destruct (wait_for_manual_solve_run f sl d st s0)
            as (s' & Hk & Hc & Hle & Hb)
      end.
      rewrite Hk. cbn [snd]. exists s'. split; [reflexivity|].
      cbn [trace] in Hle, Hb. rewrite Hq in *.
      split; [exact Hc|]. split; [lia|].
      intros Hnone. specialize (Hnone sel (or_introl eq_refl)). congruence.
    + match goal with
      | |- context [for_each_break _ signals ?s1] =>
          destruct (IH s1) as (s' & Hk & Hc & Hb & Hn)
      end.
      cbn [trace browser_page] in Hb, Hn. rewrite Hq in *.
      exists s'. split; [exact Hk|]. split; [exact Hc|]. split; [exact Hb|].
      intros Hnone. apply Hn. intros sel' Hin. apply Hnone. now right.
Qed.

End Challenge.

(** X8: [detect_and_handle_captcha] of scraper.py never raises and leaves
    the variables, the page shown and the clock alone; the time it spends
    asleep is less than [max_wait_seconds] plus two seconds, and when none
    of the four signals is on the page it does not sleep at all. *)
Theorem detect_and_handle_captcha_waits_at_most :
  forall (E : env) (max_wait_seconds : Z) (s : state Scraper.locals),
    (0 <= max_wait_seconds)%Z ->
    exists s',
      Scraper.detect_and_handle_captcha E max_wait_seconds s = (Ok tt, s') /\
      core s' = core s /\
      (slept (trace s) <= slept (trace s')
       < slept (trace s) + 1000 * max_wait_seconds + 2000)%Z /\
      ((forall sel, In sel Scraper.captcha_signals ->
                    pf_challenge (site E (browser_page s)) sel = None) ->
       slept (trace s') = slept (trace s)).
Proof.
  intros E mw s Hmw. unfold Scraper.detect_and_handle_captcha, try_except.
  destruct (challenge_loop_run E Scraper.captcha_signals s Hmw)
    as (s' & Hk & Hc & Hb & Hn).
  rewrite Hk. exists s'. auto.
Qed.

(** The first page of the fixture behind a challenge that stays: with two
    minutes to wait, the look sleeps for less than 122 seconds. *)
Lemma detect_and_handle_captcha_waits_at_most_witness :
  exists s',
    Scraper.detect_and_handle_captcha
      (Fixture.world Fixture.challenged_pages (Fixture.noon 2024 3 10) 7) 120
      Scraper.initial = (Ok tt, s') /\
    (0 <= slept (trace s') < 122000)%Z.
Proof.
  destruct (@detect_and_handle_captcha_waits_at_most
              (Fixture.world Fixture.challenged_pages (Fixture.noon 2024 3 10) 7)
              120 Scraper.initial ltac:(lia)) as (s' & Hk & _ & Hb & _).
  exists s'. split; [exact Hk | exact Hb].
Defined.

Section ChallengeThatStays.

Variable E : env.

Local Open Scope Z_scope.

(** With a signal that stays on the page at every look, the polling loop
    goes on until the sleeps have reached the deadline. *)
Lemma wait_for_manual_solve_reaches_the_deadline (fuel : nat) (sel : string)
    (deadline : Z) (still : nat) (s : state Scraper.locals) :
  (fuel <= still)%nat ->
  deadline - slept (trace s) <= 1000 * Z.of_nat fuel ->
  deadline <= slept (trace (snd (Scraper.wait_for_manual_solve E fuel sel
                                   deadline still s))).
Proof.
  revert still s; induction fuel as [|fuel IH]; intros still s Hst Hd;
    cbn [Scraper.wait_for_manual_solve].
  - cbn [ret snd]. lia.
  - erewrite bind_ok by reflexivity.
    destruct (slept (trace s) <? deadline) eqn:Hlt;
      [|apply Z.ltb_ge in Hlt; exact Hlt].
    destruct (@human_sleep_run E 1000 2000 s ltac:(lia)) as (t & Ht & Hrun).
    erewrite bind_ok by exact Hrun.
    erewrite bind_ok by apply emit_run.
    cbn [vars browser_page trace clock_reads rand_reads].
    destruct still as [|still]; [lia|].
    apply IH; [lia|]. cbn [trace]. rewrite !slept_app. cbn [slept]. lia.
Qed.

Lemma challenge_loop_reaches_the_deadline (max_wait_seconds : Z)
    (signals : list string) (s : state Scraper.locals) :
  0 <= max_wait_seconds ->
  (forall sel still,
      pf_challenge (site E (browser_page s)) sel = Some still ->
      (Z.to_nat max_wait_seconds < still)%nat) ->
  (exists sel, In sel signals /\
               pf_challenge (site E (browser_page s)) sel <> None) ->
  slept (trace s) + 1000 * max_wait_seconds <=
  slept (trace (snd (for_each_break
      (fun sel =>
         emit (QuerySelector sel) ;;
         p <- page E ;;
         match pf_challenge p sel with
         | Some still =>
             t <- time_time ;;
             Scraper.wait_for_manual_solve E (S (Z.to_nat max_wait_seconds)) sel
               (t + 1000 * max_wait_seconds) still ;;
             ret Break
         | None => ret Continue
         end)%py
      signals s))).
Proof.
  intros Hmw. revert s; induction signals as [|sel signals IH];
    intros s Hstay (sel0 & Hin & Hsome); [destruct Hin|].
  cbn [for_each_break]. unfold bind at 1. rewrite challenge_look_run.
  assert (Hq : slept (trace s ++ [QuerySelector sel]) = slept (trace s))
    by (rewrite slept_app; cbn [slept]; lia).
  destruct (pf_challenge (site E (browser_page s)) sel) as [still|] eqn:Hch.
  - specialize (Hstay _ _ Hch).
    match goal with
    | |- context [Scraper.wait_for_manual_solve E ?f ?sl ?d ?st ?s0] =>
        pose proof (@wait_for_manual_solve_reaches_the_deadline f sl d st s0) as Hw;
        destruct (wait_for_manual_solve_run E f sl d st s0) as (s' & Hk & _)
    end.
    rewrite Hk in Hw |- *. cbn [snd ret] in Hw |- *. cbn [trace] in Hw.
    rewrite Hq in Hw. apply Hw; lia.
  - destruct Hin as [<- | Hin]; [congruence|].
    match goal with
    | |- context [for_each_break _ signals ?s1] => specialize (IH s1)
    end.
    cbn [trace browser_page] in IH. rewrite Hq in IH.
    apply IH; [exact Hstay | eauto].
Qed.

End ChallengeThatStays.

(** X9: when a challenge signal is on the page and stays there at every
    look, [detect_and_handle_captcha] of scraper.py goes on polling until
    its sleeps add up to [max_wait_seconds] at least, and then returns
    normally: an unsolved challenge delays the run and does not fail
    it. *)
Theorem detect_and_handle_captcha_waits_for_a_challenge_that_stays :
  forall (E : env) (max_wait_seconds : Z) (s : state Scraper.locals),
    (0 <= max_wait_seconds)%Z ->
    (forall sel still,
        pf_challenge (site E (browser_page s)) sel = Some still ->
        (Z.to_nat max_wait_seconds < still)%nat) ->
    (exists sel, In sel Scraper.captcha_signals /\
                 pf_challenge (site E (browser_page s)) sel <> None) ->
    exists s',
      Scraper.detect_and_handle_captcha E max_wait_seconds s = (Ok tt, s') /\
      (slept (trace s) + 1000 * max_wait_seconds <= slept (trace s'))%Z.
Proof.
  intros E mw s Hmw Hstay Hsome.
  pose proof (challenge_loop_reaches_the_deadline E Scraper.captcha_signals s
                Hmw Hstay Hsome) as Hw.
  unfold Scraper.detect_and_handle_captcha, try_except.
  destruct (challenge_loop_run E Scraper.captcha_signals s Hmw)
    as (s' & Hk & _).
  rewrite Hk in Hw |- *. exists s'. split; [reflexivity | exact Hw].
Qed.

(** The first page of the fixture behind a challenge that stays for a
    thousand looks: the look with two minutes to wait sleeps for two
    minutes at least. *)
Lemma detect_and_handle_captcha_waits_for_a_challenge_that_stays_witness :
  exists s',
    Scraper.detect_and_handle_captcha
      (Fixture.world Fixture.challenged_pages (Fixture.noon 2024 3 10) 7) 120
      Scraper.initial = (Ok tt, s') /\
    (120000 <= slept (trace s'))%Z.
Proof.
  apply (@detect_and_handle_captcha_waits_for_a_challenge_that_stays
           (Fixture.world Fixture.challenged_pages (Fixture.noon 2024 3 10) 7)
           120 Scraper.initial).
  - lia.
  - intros sel still. cbn.
    destruct (sel =? "#challenge-stage")%string; [|discriminate].
    intros [= <-]. cbn. lia.
  - exists "#challenge-stage"%string. split; [cbn; auto|]. cbn. discriminate.
Defined.

(** ** The cookie banner *)

Section Cookies.

Variable E : env.

Local Open Scope Z_scope.

(** A click that is tried: the wait for the control, then the click when
    there is a control to click. *)
Lemma try_click_run (sel : string) (timeout_ms : Z) (s : state Scraper.locals) :
  Scraper.try_click E sel timeout_ms s =
  match pf_click (site E (browser_page s)) sel with
  | Some advances =>
      (Ok true,
       mk_state (vars s)
         (if advances then S (browser_page s) else browser_page s)
         ((trace s ++ [WaitForSelector sel timeout_ms]) ++ [Click sel])
         (clock_reads s) (rand_reads s))
  | None =>
      (Ok false,
       mk_state (vars s) (browser_page s)
         (trace s ++ [WaitForSelector sel timeout_ms])
         (clock_reads s) (rand_reads s))
  end.
Proof.
  unfold Scraper.try_click.
  erewrite bind_ok by apply emit_run.
  erewrite bind_ok by reflexivity.
  cbn [vars browser_page trace clock_reads rand_reads].
  destruct (pf_click (site E (browser_page s)) sel) as [[]|]; reflexivity.
Qed.

Lemma clicked_app (a b : list event) : clicked (a ++ b) = clicked a ++ clicked b.
Proof.
  induction a as [|e a IH]; cbn [app clicked]; [reflexivity|].
  destruct e; rewrite ?IH; reflexivity.
Qed.

Lemma pauses_app (a b : list event) : pauses (a ++ b) = pauses a ++ pauses b.
Proof.
  induction a as [|e a IH]; cbn [app pauses]; [reflexivity|].
  destruct e; rewrite ?IH; reflexivity.
Qed.

(** The loop over the candidates, for any list of candidates. *)
Lemma accept_loop_run (candidates : list string) (s : state Scraper.locals) :
  exists s' evs,
    for_each_break
      (fun sel =>
         clicked <- Scraper.try_click E sel 1500 ;;
         if clicked then Scraper.human_sleep E 800 1800 ;; ret Break
         else ret Continue)%py
      candidates s = (Ok tt, s') /\
    vars s' = vars s /\ clock_reads s' = clock_reads s /\
    trace s' = trace s ++ evs /\
    match find (clickable (site E (browser_page s))) candidates with
    | Some sel =>
        clicked evs = [sel] /\
        (exists t, pauses evs = [t] /\ 800 <= t <= 1800) /\
        browser_page s' =
          match pf_click (site E (browser_page s)) sel with
          | Some true => S (browser_page s)
          | _ => browser_page s
          end
    | None =>
        clicked evs = [] /\ pauses evs = [] /\
        browser_page s' = browser_page s
    end.
Proof.
  revert s; induction candidates as [|sel candidates IH]; intros s.
  - exists s, []. cbn. rewrite app_nil_r. auto 10.
  - cbn [for_each_break find]. unfold bind at 1. unfold bind at 1.
    rewrite try_click_run. unfold clickable at 1.
    destruct (pf_click (site E (browser_page s)) sel) as [advances|] eqn:Hc;
      cbv beta iota.
    + match goal with
      | |- context [bind (Scraper.human_sleep E 800 1800) _ ?s1] =>
          destruct (@human_sleep_run E 800 1800 s1 ltac:(lia)) as (t & Ht & Hrun)
      end.
      erewrite bind_ok by exact Hrun. cbn [ret].
      eexists _, [WaitForSelector sel 1500; Click sel; Sleep t].
      split; [reflexivity|].
      cbn [vars browser_page trace clock_reads rand_reads clicked pauses].
      split; [reflexivity|]. split; [reflexivity|].
      split; [rewrite <- !app_assoc; reflexivity|].
      split; [reflexivity|]. split; [eauto|].
      rewrite Hc. destruct advances; reflexivity.
    + cbn [ret].
      match goal with
      | |- context [for_each_break _ candidates ?s1] =>
          destruct (IH s1) as (s' & evs & Hk & Hv & Hcl & Ht & Hf)
      end.
      cbn [vars browser_page trace clock_reads] in Hv, Hcl, Ht, Hf.
      exists s', (WaitForSelector sel 1500 :: evs).
      split; [exact Hk|]. split; [exact Hv|]. split; [exact Hcl|].
      split; [rewrite Ht, <- app_assoc; reflexivity|].
      cbn [clicked pauses]. exact Hf.
Qed.

End Cookies.

(** X10: [accept_cookies_if_any] of scraper.py never raises and clicks at
    most once: it clicks the first of its six candidate buttons that the
    page shown has, pauses once for 0.8 to 1.8 seconds and tries no
    further candidate, and the page shown changes only when that click
    loads the next page; when the page has none of the buttons it neither
    clicks nor pauses, and the page shown stays. *)
Theorem accept_cookies_if_any_clicks_the_first_button :
  forall (E : env) (s : state Scraper.locals),
    exists s' evs,
      Scraper.accept_cookies_if_any E s = (Ok tt, s') /\
      vars s' = vars s /\ clock_reads s' = clock_reads s /\
      trace s' = trace s ++ evs /\
      match find (clickable (site E (browser_page s))) Scraper.possible_accepts with
      | Some sel =>
          clicked evs = [sel] /\
          (exists t, pauses evs = [t] /\ (800 <= t <= 1800)%Z) /\
          browser_page s' =
            match pf_click (site E (browser_page s)) sel with
            | Some true => S (browser_page s)
            | _ => browser_page s
            end
      | None =>
          clicked evs = [] /\ pauses evs = [] /\
          browser_page s' = browser_page s
      end.
Proof.
  intros E s. unfold Scraper.accept_cookies_if_any. apply accept_loop_run.
Qed.

(** ** The dictionaries of scraper.py *)

Section Dictionaries.

Local Open Scope string_scope.

Lemma get_selectors_supported (src : string) (selectors : Scraper.Selectors) :
  Scraper.get_selectors src = Some selectors ->
  In (lower src) ["g2"; "capterra"; "sourceforge"].
Proof.
  unfold Scraper.get_selectors. cbv zeta.
  destruct (lower src =? "g2") eqn:H1.
  { intros _. apply String.eqb_eq in H1 as ->. cbn; auto. }
  destruct (lower src =? "capterra") eqn:H2.
  { intros _. apply String.eqb_eq in H2 as ->. cbn; auto. }
  destruct (lower src =? "sourceforge") eqn:H3.
  { intros _. apply String.eqb_eq in H3 as ->. cbn; auto. }
  discriminate.
Qed.

Lemma extract_text_safe_stripped (root : card) (selector : string) :
  strip (Scraper.extract_text_safe root selector)
  = Scraper.extract_text_safe root selector.
Proof.
  unfold Scraper.extract_text_safe.
  destruct (query_selector root selector) as [[el|]|e]; try reflexivity.
  destruct (inner_text el) as [txt|e]; [|reflexivity].
  apply strip_idempotent.
Qed.

Lemma str_or_empty (a : string) : str_or a "" = a.
Proof. destruct a; reflexivity. Qed.

End Dictionaries.

(** X11: every dictionary that [scrape_reviews] of scraper.py returns
    names the source in lower case, however the caller spelled it, and
    that name is one of [g2], [capterra] and [sourceforge]. *)
Theorem scrape_reviews_names_the_source_in_lower_case :
  forall (dateparse : string -> datetime -> res (option datetime)) (E : env)
         (fuel : nat) (company start_date end_date src : string)
         (headless : bool) (user_data_dir start_url : option string)
         (wait_after_nav : Z) (rs : list review) (st : state Scraper.locals),
    Scraper.scrape_reviews dateparse E fuel company start_date end_date src
      headless user_data_dir start_url wait_after_nav = Some (Ok rs, st) ->
    In (lower src) ["g2"; "capterra"; "sourceforge"]%string /\
    Forall (fun r => source r = lower src) rs.
Proof.
  intros dateparse E fuel company start_date end_date src headless
    user_data_dir start_url wait_after_nav rs st Hrun. split.
  - apply scrape_reviews_returns in Hrun as (selectors & _ & _ & _ & _ & Hsel & _).
    eapply get_selectors_supported; eauto.
  - eapply scrape_reviews_all; [|exact Hrun]. reflexivity.
Qed.

(** The fixture run, called with the source spelled [SourceForge]. *)
Lemma scrape_reviews_names_the_source_in_lower_case_witness :
  exists rs st,
    fixture_run = Some (Ok rs, st) /\
    List.length rs = 8%nat /\
    Forall (fun r => source r = "sourceforge"%string) rs.
Proof.
  eexists _, _. split; [vm_compute; reflexivity|].
  split; [vm_compute; reflexivity|].
  refine (proj2 (@scrape_reviews_names_the_source_in_lower_case
                   Fixture.iso_dateparse
                   (Fixture.world Fixture.three_pages (Fixture.noon 2024 3 10) 7)
                   5 "Acme Tool" "2024-03-01" "2024-03-09" "SourceForge" true
                   None None 0%Z _ _ _))%string.
  vm_compute; reflexivity.
Defined.

(** X12: the title and the description of every dictionary that
    [scrape_reviews] of scraper.py returns come from [extract_text_safe]
    and carry no white space at either end. *)
Theorem scrape_reviews_texts_are_stripped :
  forall (dateparse : string -> datetime -> res (option datetime)) (E : env)
         (fuel : nat) (company start_date end_date src : string)
         (headless : bool) (user_data_dir start_url : option string)
         (wait_after_nav : Z) (rs : list review) (st : state Scraper.locals),
    Scraper.scrape_reviews dateparse E fuel company start_date end_date src
      headless user_data_dir start_url wait_after_nav = Some (Ok rs, st) ->
    Forall (fun r => strip (title r) = title r /\
                     strip (description r) = description r) rs.
Proof.
  intros dateparse E fuel company start_date end_date src headless
    user_data_dir start_url wait_after_nav rs st Hrun.
  eapply scrape_reviews_all; [|exact Hrun].
  intros selectors start end_ c dt _ _ _ _. unfold Scraper.record_of.
  cbn [title description]. rewrite !str_or_empty.
  split; apply extract_text_safe_stripped.
Qed.

(** A one-page listing whose card has white space around its title and
    its body. *)
Lemma scrape_reviews_texts_are_stripped_witness :
  exists rs st,
    Scraper.scrape_reviews Fixture.iso_dateparse
      (Fixture.world
         [Fixture.listing
            [Fixture.review_card "2024-03-05" "  Great " " Works well  "
               "4 out of 5"] false]
         (Fixture.noon 2024 3 10) 7)
      2 "acme" "2024-03-01" "2024-03-09" "sourceforge" true None None 0
    = Some (Ok rs, st) /\
    map title rs = ["Great"%string] /\
    Forall (fun r => strip (title r) = title r /\
                     strip (description r) = description r) rs.
Proof.
  eexists _, _. split; [vm_compute; reflexivity|].
  split; [vm_compute; reflexivity|].
  refine (@scrape_reviews_texts_are_stripped Fixture.iso_dateparse
            (Fixture.world
               [Fixture.listing
                  [Fixture.review_card "2024-03-05" "  Great " " Works well  "
                     "4 out of 5"] false]
               (Fixture.noon 2024 3 10) 7)
            2 "acme" "2024-03-01" "2024-03-09" "sourceforge" true None None
            0%Z _ _ _)%string.
  vm_compute; reflexivity.
Defined.

(** ** The browser session of scraper.py *)

Section Session.

Variable dateparse : string -> datetime -> res (option datetime).
Variable E : env.

Local Open Scope Z_scope.

Ltac on_the_site_prim :=
  let s := fresh "s" in
  intros s;
  first [ exists []; split; [now rewrite app_nil_r | constructor]
        | eexists; split; [reflexivity | repeat constructor] ].

Lemma human_sleep_on_the_site (a b : Z) :
  respects (grows on_the_site) (Scraper.human_sleep E a b).
Proof. unfold Scraper.human_sleep, uniform. respects_auto; on_the_site_prim. Qed.

Lemma scroll_page_on_the_site (steps : nat) :
  respects (grows on_the_site) (Scraper.scroll_page E steps).
Proof.
  induction steps as [|k IH]; cbn [Scraper.scroll_page]; respects_auto;
    auto using human_sleep_on_the_site; on_the_site_prim.
Qed.

Lemma try_click_on_the_site (selector : string) (timeout_ms : Z) :
  respects (grows on_the_site) (Scraper.try_click E selector timeout_ms).
Proof. unfold Scraper.try_click, page. respects_auto; on_the_site_prim. Qed.

Lemma accept_cookies_if_any_on_the_site :
  respects (grows on_the_site) (Scraper.accept_cookies_if_any E).
Proof.
  unfold Scraper.accept_cookies_if_any. respects_auto;
    auto using try_click_on_the_site, human_sleep_on_the_site.
Qed.

Lemma wait_for_manual_solve_on_the_site (fuel : nat) (sel : string)
    (deadline : Z) (still : nat) :
  respects (grows on_the_site)
    (Scraper.wait_for_manual_solve E fuel sel deadline still).
Proof.
  revert still; induction fuel as [|fuel IH]; intros still;
    cbn [Scraper.wait_for_manual_solve]; respects_auto;
    auto using human_sleep_on_the_site; on_the_site_prim.
Qed.

Lemma detect_and_handle_captcha_on_the_site (max_wait_seconds : Z) :
  respects (grows on_the_site)
    (Scraper.detect_and_handle_captcha E max_wait_seconds).
Proof.
  unfold Scraper.detect_and_handle_captcha, page. respects_auto;
    auto using wait_for_manual_solve_on_the_site; on_the_site_prim.
Qed.

Lemma card_iteration_on_the_site (selectors : Scraper.Selectors)
    (start end_ : datetime) (src : string) (c : card) :
  respects (grows on_the_site)
    (Scraper.card_iteration dateparse E selectors start end_ src c).
Proof.
  intros s.
  pose proof (card_iteration_browser_side dateparse E selectors start end_ src
                c s) as H.
  unfold keeps, browser_side in H.
  exists []. split; [rewrite app_nil_r; congruence | constructor].
Qed.

Lemma page_iteration_on_the_site (selectors : Scraper.Selectors)
    (start end_ : datetime) (src : string) :
  respects (grows on_the_site)
    (Scraper.page_iteration dateparse E selectors start end_ src).
Proof.
  unfold Scraper.page_iteration, Scraper.paginate, page. respects_auto;
    auto using detect_and_handle_captcha_on_the_site,
      card_iteration_on_the_site, scroll_page_on_the_site,
      try_click_on_the_site, human_sleep_on_the_site;
    on_the_site_prim.
Qed.

(** What follows the navigation in [open_session]. *)
Lemma after_the_navigation_on_the_site (wait_after_nav : Z) :
  respects (grows on_the_site)
    (Scraper.accept_cookies_if_any E ;;
     Scraper.detect_and_handle_captcha E 120 ;;
     (if 0 <? wait_after_nav then emit (Sleep (1000 * wait_after_nav))
      else ret tt) ;;
     Scraper.scroll_page E 5)%py.
Proof.
  respects_auto;
    auto using accept_cookies_if_any_on_the_site,
      detect_and_handle_captcha_on_the_site, scroll_page_on_the_site;
    on_the_site_prim.
Qed.

(** The navigation with its handler: a time-out is swallowed. *)
Lemma goto_handled_run (url : string) (s : state Scraper.locals) :
  try_except (goto E url)
    (fun e => match e with
              | PlaywrightTimeoutError => ret tt
              | _ => raise e
              end) s
  = (Ok tt, mk_state (vars s) (browser_page s) (trace s ++ [Goto url])
              (clock_reads s) (rand_reads s)).
Proof.
  unfold try_except, goto, bind, emit, ret, raise.
  destruct (goto_ok E url); reflexivity.
Qed.

Lemma choice_user_agent (r : Z) :
  In (nth (Z.to_nat (r mod Z.of_nat (List.length Scraper.USER_AGENTS)))
        Scraper.USER_AGENTS EmptyString) Scraper.USER_AGENTS.
Proof.
  change (Z.of_nat (List.length Scraper.USER_AGENTS)) with 3.
  pose proof (Z.mod_pos_bound r 3 ltac:(lia)) as Hb.
  assert (C : Z.to_nat (r mod 3) = 0%nat \/ Z.to_nat (r mod 3) = 1%nat \/
              Z.to_nat (r mod 3) = 2%nat) by lia.
  destruct C as [-> | [-> | ->]]; cbn; auto.
Qed.

End Session.

(** X13: a call of [scrape_reviews] of scraper.py that returns has opened
    one browser session and closed it: the browser calls are the launch
    (with one of the three user agents, a slow-motion delay of 200 to 600
    ms and a viewport of 1280-1680 by 800-1050), the stealth set-up, one
    navigation, to [start_url] when one is given and to the URL built from
    the source and the company otherwise, never to the empty URL; then
    only calls on the site; and last the close. *)
Theorem scrape_reviews_opens_one_session :
  forall (dateparse : string -> datetime -> res (option datetime)) (E : env)
         (fuel : nat) (company start_date end_date src : string)
         (headless : bool) (user_data_dir start_url : option string)
         (wait_after_nav : Z) (rs : list review) (st : state Scraper.locals),
    Scraper.scrape_reviews dateparse E fuel company start_date end_date src
      headless user_data_dir start_url wait_after_nav = Some (Ok rs, st) ->
    exists ua slow_mo width height url calls,
      trace st =
        Launch (truthy_opt user_data_dir) headless slow_mo (Some ua)
          (Some (width, height))
        :: ApplyStealth :: Goto url :: calls ++ [Close] /\
      In ua Scraper.USER_AGENTS /\
      (200 <= slow_mo <= 600)%Z /\
      (1280 <= width <= 1680)%Z /\ (800 <= height <= 1050)%Z /\
      url = (if truthy_opt start_url then opt_or start_url EmptyString
             else Scraper.build_url src company) /\
      truthy url = true /\
      Forall on_the_site calls.
Proof.
  intros dateparse E fuel company start_date end_date src headless
    user_data_dir start_url wait_after_nav rs st Hrun.
  apply scrape_reviews_returns in Hrun
    as (selectors & start & end_ & s1 & s2 & Hsel & _ & _ & _ & Hopen & Hloop
        & -> & _).
  unfold Scraper.open_session in Hopen.
  erewrite bind_ok in Hopen by reflexivity.
  erewrite bind_ok in Hopen by apply randint_run.
  erewrite bind_ok in Hopen by apply randint_run.
  erewrite bind_ok in Hopen by apply randint_run.
  erewrite bind_ok in Hopen by apply emit_run.
  erewrite bind_ok in Hopen by apply emit_run.
  erewrite bind_ok in Hopen by apply goto_handled_run.
  cbn [vars browser_page trace clock_reads rand_reads Scraper.initial
       initial_state app] in Hopen.
  match type of Hopen with
  | _ ?s0 = _ =>
      pose proof (after_the_navigation_on_the_site E wait_after_nav s0) as Hg1
  end.
  rewrite Hopen in Hg1. destruct Hg1 as (evs1 & Ht1 & Hq1).
  cbn [snd trace app] in Ht1.
  assert (Hg2 : grows on_the_site s1 s2)
    by (eapply respects_while_true;
        [exact _ | apply page_iteration_on_the_site | exact Hloop]).
  destruct Hg2 as (evs2 & Ht2 & Hq2).
  eexists _, _, _, _, _, (evs1 ++ evs2).
  split; [cbn [emit snd trace]; rewrite Ht2, Ht1; cbn [app];
          rewrite <- !app_assoc; reflexivity|].
  split; [apply choice_user_agent|].
  split; [apply randint_in_range; lia|].
  split; [apply randint_in_range; lia|].
  split; [apply randint_in_range; lia|].
  split; [reflexivity|].
  split; [|apply Forall_app; auto].
  destruct (truthy_opt start_url) eqn:Hs.
  - destruct start_url as [u|]; [|discriminate]. cbn in Hs |- *.
    unfold str_or. now rewrite Hs.
  - destruct (truthy (Scraper.build_url src company)) eqn:Hb; [reflexivity|].
    exfalso.
    assert (Hnone : Scraper.get_selectors src = None).
    { apply (build_url_empty src company).
      destruct (Scraper.build_url src company); [reflexivity|discriminate]. }
    congruence.
Qed.

(** The fixture run: the launch, the stealth set-up, the navigation to the
    SourceForge page of [acme-tool], the calls on the site, the close. *)
Lemma scrape_reviews_opens_one_session_witness :
  exists rs st,
    fixture_run = Some (Ok rs, st) /\
    exists ua slow_mo width height url calls,
      trace st =
        Launch false true slow_mo (Some ua) (Some (width, height))
        :: ApplyStealth :: Goto url :: calls ++ [Close] /\
      In ua Scraper.USER_AGENTS /\
      (200 <= slow_mo <= 600)%Z /\
      (1280 <= width <= 1680)%Z /\ (800 <= height <= 1050)%Z /\
      url = "https://sourceforge.net/software/product/acme-tool/reviews"%string /\
      truthy url = true /\
      Forall on_the_site calls.
Proof.
  eexists _, _. split; [vm_compute; reflexivity|].
  refine (@scrape_reviews_opens_one_session Fixture.iso_dateparse
            (Fixture.world Fixture.three_pages (Fixture.noon 2024 3 10) 7)
            5 "Acme Tool" "2024-03-01" "2024-03-09" "SourceForge" true
            None None 0%Z _ _ _)%string.
  vm_compute; reflexivity.
Defined.

(** ** The end of a run of scraper.py *)

Section RunEnds.

Variable dateparse : string -> datetime -> res (option datetime).
Variable E : env.

(** The page [n] of the listing has no control that can be clicked. *)
Variable n : nat.
Hypothesis last_page : forall sel, pf_click (site E n) sel = None.

(** The browser has not gone past page [n]. *)
Definition not_past (s s' : state Scraper.locals) : Prop :=
  (browser_page s <= n)%nat -> (browser_page s' <= n)%nat.

#[local] Instance not_past_pre : PreOrder not_past.
Proof.
  split; [intros s; red; auto | intros a b c H1 H2; red; auto].
Qed.

Ltac not_past_prim :=
  let s := fresh "s" in intros s; red; cbn; auto.

Lemma human_sleep_not_past (a b : Z) :
  respects not_past (Scraper.human_sleep E a b).
Proof. unfold Scraper.human_sleep, uniform. respects_auto; not_past_prim. Qed.

Lemma scroll_page_not_past (steps : nat) :
  respects not_past (Scraper.scroll_page E steps).
Proof.
  induction steps as [|k IH]; cbn [Scraper.scroll_page]; respects_auto;
    auto using human_sleep_not_past; not_past_prim.
Qed.

Lemma try_click_not_past (selector : string) (timeout_ms : Z) :
  respects not_past (Scraper.try_click E selector timeout_ms).
Proof.
  intros s. rewrite try_click_run. red.
  destruct (pf_click (site E (browser_page s)) selector) as [advances|] eqn:Hc;
    cbn [snd browser_page]; [|auto].
  intros Hle. destruct advances; [|exact Hle].
  assert (browser_page s <> n) by (intros Heq; rewrite Heq, last_page in Hc;
                                   discriminate).
  lia.
Qed.

Lemma accept_cookies_if_any_not_past :
  respects not_past (Scraper.accept_cookies_if_any E).
Proof.
  unfold Scraper.accept_cookies_if_any. respects_auto;
    auto using try_click_not_past, human_sleep_not_past.
Qed.

Lemma detect_and_handle_captcha_not_past (max_wait_seconds : Z) :
  respects not_past (Scraper.detect_and_handle_captcha E max_wait_seconds).
Proof.
  intros s.
  pose proof (detect_and_handle_captcha_core E max_wait_seconds s) as H.
  unfold keeps, core in H. red. intros Hle.
  assert (browser_page (snd (Scraper.detect_and_handle_captcha E
                               max_wait_seconds s)) = browser_page s)
    by congruence.
  lia.
Qed.

Lemma open_session_not_past (company src : string) (headless : bool)
    (user_data_dir start_url : option string) (wait_after_nav : Z) :
  respects not_past
    (Scraper.open_session E company src headless user_data_dir start_url
       wait_after_nav).
Proof.
  unfold Scraper.open_session, choice, randint. respects_auto;
    auto using accept_cookies_if_any_not_past,
      detect_and_handle_captcha_not_past, scroll_page_not_past;
    not_past_prim.
Qed.

Lemma scroll_page_returns (steps : nat) (s : state Scraper.locals) :
  fst (Scraper.scroll_page E steps s) = Ok tt.
Proof.
  revert s; induction steps as [|k IH]; intros s; [reflexivity|]. apply IH.
Qed.

Lemma accept_cookies_if_any_returns (s : state Scraper.locals) :
  fst (Scraper.accept_cookies_if_any E s) = Ok tt.
Proof.
  unfold Scraper.accept_cookies_if_any.
  destruct (accept_loop_run E Scraper.possible_accepts s) as (s' & evs & H & _).
  now rewrite H.
Qed.

(** The session is opened without an exception. *)
Lemma open_session_returns (company src : string) (headless : bool)
    (user_data_dir start_url : option string) (wait_after_nav : Z)
    (s : state Scraper.locals) :
  fst (Scraper.open_session E company src headless user_data_dir start_url
         wait_after_nav s) = Ok tt.
Proof.
  unfold Scraper.open_session.
  erewrite bind_ok by reflexivity.
  erewrite bind_ok by apply randint_run.
  erewrite bind_ok by apply randint_run.
  erewrite bind_ok by apply randint_run.
  erewrite bind_ok by apply emit_run.
  erewrite bind_ok by apply emit_run.
  erewrite bind_ok by apply goto_handled_run.
  match goal with
  | |- context [bind (Scraper.accept_cookies_if_any E) _ ?s0] =>
      pose proof (accept_cookies_if_any_returns s0) as H1;
      destruct (Scraper.accept_cookies_if_any E s0) as [r1 s1] eqn:HA
  end.
  cbn [fst] in H1; subst r1.
  erewrite bind_ok by exact HA.
  pose proof (detect_and_handle_captcha_returns E 120 s1) as H2.
  destruct (Scraper.detect_and_handle_captcha E 120 s1) as [r2 s2] eqn:HD.
  cbn [fst] in H2; subst r2.
  erewrite bind_ok by exact HD.
  assert (H3 : exists s3,
             (if (0 <? wait_after_nav)%Z
              then emit (Sleep (1000 * wait_after_nav)) else ret tt) s2
             = (Ok tt, s3))
    by (destruct (0 <? wait_after_nav)%Z; eexists; reflexivity).
  destruct H3 as (s3 & H3). erewrite bind_ok by exact H3.
  apply scroll_page_returns.
Qed.

(** More passes than the loop needs change nothing. *)
Lemma while_true_more_fuel (L : Type) (body : M L ctl) (fuel more : nat)
    (s : state L) (r : res unit * state L) :
  while_true fuel body s = Some r ->
  while_true (fuel + more) body s = Some r.
Proof.
  revert s; induction fuel as [|fuel IH]; intros s; cbn [while_true Nat.add].
  - discriminate.
  - destruct (body s) as [[[]|e] s1]; auto.
Qed.

End RunEnds.

(** On the three pages of the fixture every click loads the next page, and
    the third page has no control to click. *)
Lemma three_pages_clicks_advance :
  forall k sel advances,
    pf_click (site (Fixture.world Fixture.three_pages (Fixture.noon 2024 3 10) 7) k)
      sel = Some advances ->
    advances = true.
Proof.
  intros k sel advances.
  change (site (Fixture.world Fixture.three_pages (Fixture.noon 2024 3 10) 7) k)
    with (nth k Fixture.three_pages (Fixture.listing [] false)).
  destruct (Nat.lt_ge_cases k 2) as [Hk | Hk].
  - assert (C : k = 0%nat \/ k = 1%nat) by lia.
    destruct C as [-> | ->]; cbn;
      destruct (prefix "a.pagination-next" sel); cbn; congruence.
  - assert (Hnone : pf_click (nth k Fixture.three_pages
                                (Fixture.listing [] false)) sel = None).
    { destruct (Nat.eq_dec k 2) as [-> | Hne].
      - cbn. now rewrite andb_false_r.
      - rewrite nth_overflow by (cbn; lia). cbn. now rewrite andb_false_r. }
    rewrite Hnone. discriminate.
Qed.

Lemma three_pages_end :
  forall sel,
    pf_click (site (Fixture.world Fixture.three_pages (Fixture.noon 2024 3 10) 7) 2)
      sel = None.
Proof. intros sel. cbn. now rewrite andb_false_r. Qed.

(** X14: on a listing whose clicks load the next page and whose page [n]
    has no control to click, a call of [scrape_reviews] of scraper.py with
    arguments that pass the checks ends: it returns a list, after at most
    [n + 1] passes through the page loop. *)
Theorem scrape_reviews_ends_on_a_finite_listing :
  forall (dateparse : string -> datetime -> res (option datetime)) (E : env)
         (n fuel : nat) (company start_date end_date src : string)
         (headless : bool) (user_data_dir start_url : option string)
         (wait_after_nav : Z) (start end_ : datetime),
    Scraper.get_selectors src <> None ->
    strptime_ymd start_date = Some start ->
    strptime_ymd end_date = Some end_ ->
    dt_lt end_ start = false ->
    (forall k sel advances,
        pf_click (site E k) sel = Some advances -> advances = true) ->
    (forall sel, pf_click (site E n) sel = None) ->
    (n < fuel)%nat ->
    exists rs st,
      Scraper.scrape_reviews dateparse E fuel company start_date end_date src
        headless user_data_dir start_url wait_after_nav = Some (Ok rs, st).
Proof.
  intros dateparse E n fuel company start_date end_date src headless
    user_data_dir start_url wait_after_nav start end_ Hsel Hs He Hlt Hadv Hlast
    Hfuel.
  unfold Scraper.scrape_reviews.
  destruct (Scraper.get_selectors src) as [selectors|]; [|congruence].
  rewrite Hs, He, Hlt.
  pose proof (open_session_returns E company src headless user_data_dir
                start_url wait_after_nav Scraper.initial) as Hret.
  pose proof (@open_session_not_past E n Hlast company src headless
                user_data_dir start_url wait_after_nav Scraper.initial) as Hpast.
  destruct (Scraper.open_session _ _ _ _ _ _ _ _) as [r s1].
  cbn [fst snd] in Hret, Hpast. subst r.
  assert (Hle : (browser_page s1 <= n)%nat) by (apply Hpast; cbn; lia).
  destruct (@while_true_page_iteration_ends dateparse E selectors start end_ src
              (n - browser_page s1) s1 Hadv) as (s2 & Hloop).
  { replace (browser_page s1 + (n - browser_page s1))%nat with n by lia.
    exact Hlast. }
  apply (while_true_more_fuel _ _ (fuel - S (n - browser_page s1))) in Hloop.
  replace (S (n - browser_page s1) + (fuel - S (n - browser_page s1)))%nat
    with fuel in Hloop by lia.
  rewrite Hloop. cbn. eauto.
Qed.

(** The three pages of the fixture: the third has no next-page control,
    and the run returns within three passes. *)
Lemma scrape_reviews_ends_on_a_finite_listing_witness :
  exists rs st, fixture_run = Some (Ok rs, st).
Proof.
  refine (@scrape_reviews_ends_on_a_finite_listing Fixture.iso_dateparse
            (Fixture.world Fixture.three_pages (Fixture.noon 2024 3 10) 7)
            2 5 "Acme Tool" "2024-03-01" "2024-03-09" "SourceForge" true
            None None 0%Z (midnight 2024 3 1) (midnight 2024 3 9)
            _ _ _ _ _ _ _)%string.
  - vm_compute. discriminate.
  - vm_compute; reflexivity.
  - vm_compute; reflexivity.
  - vm_compute; reflexivity.
  - exact three_pages_clicks_advance.
  - exact three_pages_end.
  - lia.
Defined.

(** ** A listing without an end *)

Section NoPageLimit.

Variable dateparse : string -> datetime -> res (option datetime).
Variable E : env.
Variable selectors : Scraper.Selectors.
Variables start end_ : datetime.
Variable src : string.

(** The parser never gives a date before the start of the range. *)
Hypothesis no_older :
  forall text base d, dateparse text base = Ok (Some d) -> dt_lt d start = false.

(** A date that was normalized is a date the parser gave. *)
Lemma normalized_date_from_the_parser (c : card) (s s1 : state Scraper.locals)
    (d : datetime) :
  Scraper.normalized_date dateparse E selectors c s = (Ok (Some d), s1) ->
  exists text base, dateparse text base = Ok (Some d).
Proof.
  unfold Scraper.normalized_date. intros H.
  apply bind_inv in H as [(raw & s0 & _ & H) | (e & _ & [=])].
  destruct (truthy_opt raw) eqn:Hraw.
  - destruct raw as [text|]; [|discriminate]. cbn in Hraw.
    rewrite parse_date_str_truthy in H by exact Hraw.
    injection H as H _. eauto.
  - rewrite parse_date_str_falsy in H by exact Hraw. discriminate.
Qed.

Lemma card_iteration_keeps_the_flag_unset (c : card) :
  respects (holds (fun l => Scraper.old_review_reached l = false))
    (Scraper.card_iteration dateparse E selectors start end_ src c).
Proof.
  intros s. red. intros Hflag.
  destruct (Scraper.normalized_date dateparse E selectors c s)
    as [[dt|e] s1] eqn:Hn.
  - erewrite card_iteration_normalized by exact Hn. rewrite classify_cases.
    assert (Hv : vars s1 = vars s)
      by (apply normalized_date_state in Hn as [[-> _] | ->]; reflexivity).
    cbn [snd]. destruct dt as [d|]; [|now rewrite Hv].
    apply normalized_date_from_the_parser in Hn as (text & base & Hp).
    rewrite (no_older Hp).
    destruct (Scraper.within_range d start end_); cbn; now rewrite Hv.
  - unfold Scraper.card_iteration, try_except, Scraper.card_body, bind.
    rewrite Hn. cbn.
    apply normalized_date_state in Hn as [[-> _] | ->]; exact Hflag.
Qed.

(** Every page shows cards and a next-page control that can be clicked. *)
Variable next_btn : string.
Hypothesis has_next_btn : Scraper.s_next_btn selectors = Some next_btn.
Hypothesis next_btn_truthy : truthy next_btn = true.
Hypothesis cards_appear :
  forall k, pf_appears (site E k) (Scraper.s_review_card selectors) = true.
Hypothesis cards_found :
  forall k, pf_query_all (site E k) (Scraper.s_review_card selectors) <> [].
Hypothesis next_clicks :
  forall k, pf_click (site E k) next_btn <> None.

(** The pass over a page says [continue] and leaves the flag unset. *)
Lemma page_iteration_goes_on (s : state Scraper.locals) :
  Scraper.old_review_reached (vars s) = false ->
  exists s',
    Scraper.page_iteration dateparse E selectors start end_ src s
      = (Ok Continue, s') /\
    Scraper.old_review_reached (vars s') = false.
Proof.
  intros Hflag. unfold Scraper.page_iteration.
  (* the look for a challenge wall *)
  destruct (@challenge_loop_run E 120 Scraper.captcha_signals s ltac:(lia))
    as (sD & HD & HcD & _).
  assert (HD' : Scraper.detect_and_handle_captcha E 120 s = (Ok tt, sD))
    by (unfold Scraper.detect_and_handle_captcha, try_except; now rewrite HD).
  erewrite bind_ok by exact HD'.
  unfold core in HcD. injection HcD as HvD HpD _.
  erewrite bind_ok by apply emit_run.
  erewrite bind_ok by reflexivity.
  cbn [vars browser_page trace clock_reads rand_reads].
  rewrite cards_appear. cbn [negb].
  erewrite bind_ok by apply emit_run.
  pose proof (cards_found (browser_page sD)) as Hcards.
  destruct (pf_query_all (site E (browser_page sD))
              (Scraper.s_review_card selectors)) as [|c0 cards] eqn:Hq;
    [congruence|].
  (* the cards *)
  match goal with
  | |- context [bind (for_each ?body (c0 :: cards)) _ ?s0] =>
      pose proof (for_each_card_returns dateparse E selectors start end_ src
                    (c0 :: cards) s0) as Hret;
      pose proof (@respects_for_each _ _ (holds_pre _) _ body (c0 :: cards)
                    card_iteration_keeps_the_flag_unset s0) as Hkeep;
      pose proof (for_each_card_page_kept dateparse E selectors start end_ src
                    (c0 :: cards) s0) as Hpage;
      destruct (for_each body (c0 :: cards) s0) as [r sC] eqn:HC
  end.
  cbn [fst snd] in Hret, Hkeep, Hpage. subst r.
  red in Hkeep. cbn [vars] in Hkeep. rewrite HvD in Hkeep.
  specialize (Hkeep Hflag).
  destruct Hpage as (_ & HpC & _). cbn [browser_page] in HpC.
  erewrite bind_ok by exact HC.
  erewrite bind_ok by reflexivity. rewrite Hkeep.
  (* the click on the next-page control *)
  unfold Scraper.paginate. rewrite has_next_btn, next_btn_truthy.
  destruct (scroll_page_run E 3 sC) as (s1 & evs1 & HS1 & V1 & P1 & _).
  destruct (scroll_page_run E 3 s1) as (s2 & evs2 & HS2 & V2 & P2 & _).
  assert (Hflag2 : Scraper.old_review_reached (vars s2) = false)
    by (rewrite V2, V1; exact Hkeep).
  assert (Hp2 : browser_page s2 = browser_page sD) by congruence.
  unfold bind at 1.
  erewrite bind_ok by exact HS1. erewrite bind_ok by exact HS2.
  rewrite try_click_run, Hp2, HpD.
  pose proof (next_clicks (browser_page s)) as Hnext.
  destruct (pf_click (site E (browser_page s)) next_btn) as [advances|];
    [|congruence].
  cbv beta iota. cbn [negb].
  erewrite bind_ok by reflexivity.
  match goal with
  | |- context [bind (Scraper.human_sleep E 2000 4000) _ ?s3] =>
      destruct (@human_sleep_run E 2000 4000 s3 ltac:(lia)) as (t & _ & Hrun)
  end.
  erewrite bind_ok by exact Hrun.
  eexists. split; [reflexivity|]. cbn. exact Hflag2.
Qed.

(** The loop over the pages has not ended after any number of passes. *)
Lemma while_true_page_iteration_goes_on (fuel : nat) (s : state Scraper.locals) :
  Scraper.old_review_reached (vars s) = false ->
  while_true fuel (Scraper.page_iteration dateparse E selectors start end_ src) s
  = None.
Proof.
  revert s; induction fuel as [|fuel IH]; intros s Hflag; [reflexivity|].
  cbn [while_true].
  destruct (page_iteration_goes_on s Hflag) as (s' & -> & Hflag').
  now apply IH.
Qed.

End NoPageLimit.

Lemma get_selectors_next_btn (src : string) (selectors : Scraper.Selectors) :
  Scraper.get_selectors src = Some selectors ->
  exists next_btn,
    Scraper.s_next_btn selectors = Some next_btn /\ truthy next_btn = true.
Proof.
  unfold Scraper.get_selectors. cbv zeta.
  destruct (lower src =? "g2")%string; [intros [= <-]; cbn; eauto|].
  destruct (lower src =? "capterra")%string; [intros [= <-]; cbn; eauto|].
  destruct (lower src =? "sourceforge")%string; [intros [= <-]; cbn; eauto|].
  discriminate.
Qed.

(** X15: the page loop of scraper.py has no limit of its own: on a
    listing whose every page shows cards and a next-page control that can
    be clicked, and with a parser that never gives a date before the start
    of the range, a call of [scrape_reviews] with arguments that pass the
    checks has not returned after any number of passes. *)
Theorem scrape_reviews_has_no_page_limit :
  forall (dateparse : string -> datetime -> res (option datetime)) (E : env)
         (fuel : nat) (company start_date end_date src : string)
         (headless : bool) (user_data_dir start_url : option string)
         (wait_after_nav : Z) (selectors : Scraper.Selectors)
         (start end_ : datetime),
    Scraper.get_selectors src = Some selectors ->
    strptime_ymd start_date = Some start ->
    strptime_ymd end_date = Some end_ ->
    dt_lt end_ start = false ->
    (forall text base d,
        dateparse text base = Ok (Some d) -> dt_lt d start = false) ->
    (forall k, pf_appears (site E k) (Scraper.s_review_card selectors) = true) ->
    (forall k, pf_query_all (site E k) (Scraper.s_review_card selectors) <> []) ->
    (forall k next_btn,
        Scraper.s_next_btn selectors = Some next_btn ->
        pf_click (site E k) next_btn <> None) ->
    Scraper.scrape_reviews dateparse E fuel company start_date end_date src
      headless user_data_dir start_url wait_after_nav = None.
Proof.
  intros dateparse E fuel company start_date end_date src headless
    user_data_dir start_url wait_after_nav selectors start end_
    Hsel Hs He Hlt Hold Happear Hfound Hclick.
  unfold Scraper.scrape_reviews. rewrite Hsel, Hs, He, Hlt.
  pose proof (open_session_returns E company src headless user_data_dir
                start_url wait_after_nav Scraper.initial) as Hret.
  pose proof (@open_session_vars E eq _ company src headless user_data_dir
                start_url wait_after_nav Scraper.initial) as Hvars.
  destruct (Scraper.open_session _ _ _ _ _ _ _ _) as [r s1].
  cbn [fst snd] in Hret, Hvars. subst r. red in Hvars.
  destruct (get_selectors_next_btn _ Hsel) as (next_btn & Hnb & Ht).
  rewrite (@while_true_page_iteration_goes_on dateparse E selectors start end_
             src Hold next_btn Hnb Ht Happear Hfound
             (fun k => Hclick k next_btn Hnb) fuel s1);
    [reflexivity|].
  now rewrite <- Hvars.
Qed.

(** A listing whose every page shows one card dated 5 March 2024 and a
    next-page control: the run for March 2024 is still going on after seven
    pages. *)
Lemma scrape_reviews_has_no_page_limit_witness :
  Scraper.scrape_reviews (fun _ _ => Ok (Some (midnight 2024 3 5)))
    (mk_env (fun _ => Fixture.noon 2024 3 10) (fun k => Z.of_nat k)
       (fun _ => Fixture.listing [Fixture.in_range_card "2024-03-05"] true)
       (fun _ => true))
    7 "acme" "2024-03-01" "2024-03-31" "sourceforge" true None None 0
  = None.
Proof.
  refine (@scrape_reviews_has_no_page_limit _ _ 7 "acme" "2024-03-01"
            "2024-03-31" "sourceforge" true None None 0%Z Fixture.sourceforge
            (midnight 2024 3 1) (midnight 2024 3 31) _ _ _ _ _ _ _ _)%string.
  - reflexivity.
  - vm_compute; reflexivity.
  - vm_compute; reflexivity.
  - vm_compute; reflexivity.
  - intros text base d [= <-]. vm_compute; reflexivity.
  - intros k. reflexivity.
  - intros k. cbn. discriminate.
  - intros k next_btn [= <-]. cbn. discriminate.
Defined.

(** ** The sources of the command line *)

Section Sources.

Local Open Scope string_scope.

(** X16: [scrape_reviews] of scraper.py accepts exactly the sources that
    its command line admits, in any mix of upper and lower case: there are
    selectors for a source if and only if its lower-case spelling is one
    of the [choices] of [--source]. *)
Theorem get_selectors_knows_the_sources_of_the_command_line :
  forall src : string,
    Scraper.get_selectors src <> None <->
    In (lower src) Scraper.SOURCE_CHOICES.
Proof.
  intros src. unfold Scraper.get_selectors, Scraper.SOURCE_CHOICES. cbv zeta.
  destruct (lower src =? "g2") eqn:H1.
  { apply String.eqb_eq in H1. rewrite H1. split; [cbn; auto|discriminate]. }
  destruct (lower src =? "capterra") eqn:H2.
  { apply String.eqb_eq in H2. rewrite H2. split; [cbn; auto|discriminate]. }
  destruct (lower src =? "sourceforge") eqn:H3.
  { apply String.eqb_eq in H3. rewrite H3. split; [cbn; auto|discriminate]. }
  apply String.eqb_neq in H1, H2, H3.
  split; [congruence|]. cbn. intros [H | [H | [H | []]]]; congruence.
Qed.

End Sources.

(** ** review_scraper.py and its sources *)

Section ReviewScraperSources.

Variable dateutil_parse : string -> datetime -> res datetime.
Variable E : env.

Local Open Scope string_scope.

(** The session of review_scraper.py is opened for the three sources of
    the command line only. *)
Lemma open_session_sources_rs (company src : string)
    (s s1 : state ReviewScraper.locals) :
  ReviewScraper.open_session E company src s = (Ok tt, s1) ->
  In src ReviewScraper.SOURCE_CHOICES.
Proof.
  unfold ReviewScraper.open_session, ReviewScraper.url_of,
    ReviewScraper.SOURCE_CHOICES.
  erewrite bind_ok by apply emit_run. unfold bind at 1, lift.
  destruct (src =? "g2") eqn:H1;
    [apply String.eqb_eq in H1; cbn; auto|].
  destruct (src =? "capterra") eqn:H2;
    [apply String.eqb_eq in H2; cbn; auto|].
  destruct (src =? "sourceforge") eqn:H3;
    [apply String.eqb_eq in H3; cbn; auto|].
  discriminate.
Qed.

(** Without selectors the first pass through the loop raises. *)
Lemma while_true_without_selectors_rs (fuel : nat) (start end_ : datetime)
    (src : string) (s s2 : state ReviewScraper.locals) :
  while_true fuel
    (ReviewScraper.loop_body dateutil_parse E None start end_ src) s
  <> Some (Ok tt, s2).
Proof. destruct fuel; discriminate. Qed.

End ReviewScraperSources.

(** X17: [scrape_reviews] of review_scraper.py returns a list only when
    the source is [sourceforge]: for every other source it raises or is
    refused, because [get_selectors] knows G2 and Capterra by their URLs
    while the URL is built for the names [g2] and [capterra].  So every
    dictionary it returns names [sourceforge] as its source. *)
Theorem review_scraper_returns_for_sourceforge_only :
  forall (dateutil_parse : string -> datetime -> res datetime) (E : env)
         (fuel : nat) (company start_date end_date src : string)
         (rs : list review) (st : state ReviewScraper.locals),
    ReviewScraper.scrape_reviews dateutil_parse E fuel company start_date
      end_date src = Some (Ok rs, st) ->
    src = "sourceforge"%string /\
    Forall (fun r => source r = "sourceforge"%string) rs.
Proof.
  intros dateutil_parse E fuel company start_date end_date src rs st Hrun.
  assert (Hsrc : src = "sourceforge"%string).
  { apply scrape_reviews_returns_rs in Hrun
      as (start & end_ & s1 & s2 & _ & _ & Hopen & Hloop & _).
    apply open_session_sources_rs in Hopen.
    destruct Hopen as [<- | [<- | [<- | []]]]; [| |reflexivity];
      exfalso; revert Hloop; apply while_true_without_selectors_rs. }
  split; [exact Hsrc|].
  eapply scrape_reviews_all_rs; [|exact Hrun].
  intros t b d. exact Hsrc.
Qed.

(** The fixture run of review_scraper.py, for [sourceforge]. *)
Lemma review_scraper_returns_for_sourceforge_only_witness :
  exists rs st,
    fixture_run_rs = Some (Ok rs, st) /\
    List.length rs = 6%nat /\
    Forall (fun r => source r = "sourceforge"%string) rs.
Proof.
  eexists _, _. split; [vm_compute; reflexivity|].
  split; [vm_compute; reflexivity|].
  refine (proj2 (@review_scraper_returns_for_sourceforge_only
                   Fixture.iso_dateutil
                   (Fixture.world Fixture.three_pages (Fixture.noon 2024 3 10) 7)
                   5 "Acme Tool" "2024-03-01" "2024-03-09" "sourceforge"
                   _ _ _))%string.
  vm_compute; reflexivity.
Defined.



(** ** Dates that cannot be read *)



(** ** The URLs of the two scripts *)

Section TwoUrls.

Local Open Scope string_scope.

Lemma no_space_lstrip (s : string) : no_space s = true -> lstrip s = s.
Proof.
  destruct s as [|c s]; [reflexivity|]. cbn. intros H.
  apply andb_prop in H as [Hc _]. apply negb_true_iff in Hc. now rewrite Hc.
Qed.

Lemma no_space_rstrip (s : string) : no_space s = true -> rstrip s = s.
Proof.
  induction s as [|c s IH]; [reflexivity|]. cbn. intros H.
  apply andb_prop in H as [Hc Hs]. apply negb_true_iff in Hc.
  rewrite (IH Hs). destruct s; [now rewrite Hc | reflexivity].
Qed.

Lemma no_space_strip (s : string) : no_space s = true -> strip s = s.
Proof.
  intros H. unfold strip. rewrite (no_space_lstrip _ H). now apply no_space_rstrip.
Qed.

Lemma lower_char_space (c : ascii) : is_space (lower_char c) = is_space c.
Proof. destruct c as [[] [] [] [] [] [] [] []]; reflexivity. Qed.

Lemma no_space_lower (s : string) : no_space (lower s) = no_space s.
Proof.
  induction s as [|c s IH]; [reflexivity|].
  rewrite lower_cons. cbn [no_space]. now rewrite lower_char_space, IH.
Qed.

Lemma no_space_replace_blank (s : string) :
  no_space s = true -> replace " " "-" s = s.
Proof.
  unfold replace. induction s as [|c s IH]; [reflexivity|].
  cbn [no_space]. intros H. apply andb_prop in H as [Hc Hs].
  cbn [replace_from prefix].
  destruct (ascii_dec " " c) as [<-|Hne]; [discriminate Hc|].
  now rewrite (IH Hs).
Qed.

(** The slug of a company name that holds no white space is the name in
    lower case. *)
Lemma build_url_slug (company : string) :
  no_space company = true ->
  replace " " "-" (lower (strip company)) = lower company.
Proof.
  intros H. rewrite (no_space_strip _ H).
  apply no_space_replace_blank. now rewrite no_space_lower.
Qed.

End TwoUrls.

(** X20: for a company name without white space, the URL that
    review_scraper.py navigates to for [g2] or [capterra] is the URL that
    [build_url] of scraper.py builds for them; for [sourceforge] the two
    agree when the name is in lower case, since review_scraper.py puts the
    name into that URL as it is written. *)
Theorem the_two_scripts_build_the_same_url :
  forall src company url : string,
    no_space company = true ->
    (src = "sourceforge"%string -> lower company = company) ->
    ReviewScraper.url_of src company = Ok url ->
    Scraper.build_url src company = url.
Proof.
  intros src company url Hns Hlow.
  unfold ReviewScraper.url_of, Scraper.build_url. cbv zeta.
  rewrite (build_url_slug _ Hns).
  destruct (src =? "g2")%string eqn:H1.
  { apply String.eqb_eq in H1 as ->. intros [= <-]. reflexivity. }
  destruct (src =? "capterra")%string eqn:H2.
  { apply String.eqb_eq in H2 as ->. intros [= <-]. reflexivity. }
  destruct (src =? "sourceforge")%string eqn:H3.
  { apply String.eqb_eq in H3 as ->. intros [= <-].
    rewrite (Hlow eq_refl). reflexivity. }
  discriminate.
Qed.

(** [Slack] on G2, and [acme-tool] on SourceForge. *)
Lemma the_two_scripts_build_the_same_url_witness :
  Scraper.build_url "g2" "Slack" = "https://www.g2.com/products/slack/reviews"%string
  /\
  Scraper.build_url "sourceforge" "acme-tool"
  = "https://sourceforge.net/software/product/acme-tool/reviews"%string.
Proof.
  split.
  - apply (@the_two_scripts_build_the_same_url "g2" "Slack"
             "https://www.g2.com/products/slack/reviews");
      [reflexivity | discriminate | reflexivity].
  - apply (@the_two_scripts_build_the_same_url "sourceforge" "acme-tool"
             "https://sourceforge.net/software/product/acme-tool/reviews");
      reflexivity.
Defined.

(** ** The last day of the range *)

Section LastDay.

Local Open Scope Z_scope.

(** [strptime] with the format [%Y-%m-%d] gives the midnight of a day. *)
Lemma strptime_ymd_midnight (text : string) (d : datetime) :
  strptime_ymd text = Some d -> d = midnight (year d) (month d) (day d).
Proof.
  unfold strptime_ymd.
  repeat match goal with
         | |- context [match ?x with _ => _ end] => destruct x; try discriminate
         end.
  intros [= <-]. reflexivity.
Qed.

(** A time after midnight on a day is after the midnight of that day. *)
Lemma after_midnight_is_later (dt : datetime) :
  after_midnight dt ->
  dt_lt (midnight (year dt) (month dt) (day dt)) dt = true.
Proof.
  destruct dt as [y m d h mi sec us]. unfold after_midnight.
  cbn [year month day hour minute second microsecond].
  intros (Hh & Hm & Hs & Hu & Hpos).
  unfold dt_lt, dt_compare, dt_fields, midnight.
  cbn [year month day hour minute second microsecond tuple_compare].
  rewrite !Z.compare_refl.
  destruct (Z.compare_spec 0 h) as [<- | _ | ?]; [|reflexivity|lia].
  destruct (Z.compare_spec 0 mi) as [<- | _ | ?]; [|reflexivity|lia].
  destruct (Z.compare_spec 0 sec) as [<- | _ | ?]; [|reflexivity|lia].
  destruct (Z.compare_spec 0 us) as [<- | _ | ?]; [lia|reflexivity|lia].
Qed.

End LastDay.

(** X22: the range of scraper.py ends at the midnight that starts the end
    date.  A candidate whose normalized date falls on the end date at a
    time after midnight fails the range test: the pass over it appends
    nothing and sets no flag. *)
Theorem later_on_the_end_date_is_left_out :
  forall (dateparse : string -> datetime -> res (option datetime)) (E : env)
         (selectors : Scraper.Selectors) (start end_ : datetime)
         (end_date src : string) (c : card) (s s1 : state Scraper.locals)
         (dt : datetime),
    strptime_ymd end_date = Some end_ ->
    dt_le start end_ = true ->
    Scraper.normalized_date dateparse E selectors c s = (Ok (Some dt), s1) ->
    year dt = year end_ -> month dt = month end_ -> day dt = day end_ ->
    after_midnight dt ->
    Scraper.within_range dt start end_ = false /\
    Scraper.card_iteration dateparse E selectors start end_ src c s = (Ok tt, s1).
Proof.
  intros dateparse E selectors start end_ end_date src c s s1 dt
    Hend Hse Hn Hy Hm Hd Hlate.
  assert (Hlt : dt_lt end_ dt = true).
  { rewrite (strptime_ymd_midnight _ Hend), <- Hy, <- Hm, <- Hd.
    now apply after_midnight_is_later. }
  split.
  - unfold Scraper.within_range. rewrite dt_lt_not_le in Hlt.
    destruct (dt_le dt end_); [discriminate|]. apply andb_false_r.
  - eapply card_iteration_newer; eauto.
Qed.

(** A card dated 9 March 2024 at 17:45, with the range 1 to 9 March. *)
Lemma later_on_the_end_date_is_left_out_witness :
  let W := Fixture.world Fixture.three_pages (Fixture.noon 2024 3 10) 7 in
  let parse := fun (_ : string) (_ : datetime) =>
                 Ok (Some (mk_datetime 2024 3 9 17 45 0 0)) in
  let c := Fixture.in_range_card "9 March 2024, 17:45" in
  Scraper.within_range (mk_datetime 2024 3 9 17 45 0 0)
    (midnight 2024 3 1) (midnight 2024 3 9) = false /\
  Scraper.card_iteration parse W Fixture.sourceforge (midnight 2024 3 1)
    (midnight 2024 3 9) "sourceforge" c Scraper.initial
  = (Ok tt, tick Scraper.initial).
Proof.
  cbv zeta.
  apply (@later_on_the_end_date_is_left_out
           (fun _ _ => Ok (Some (mk_datetime 2024 3 9 17 45 0 0)))
           (Fixture.world Fixture.three_pages (Fixture.noon 2024 3 10) 7)
           Fixture.sourceforge (midnight 2024 3 1) (midnight 2024 3 9)
           "2024-03-09" "sourceforge"
           (Fixture.in_range_card "9 March 2024, 17:45") Scraper.initial
           (tick Scraper.initial) (mk_datetime 2024 3 9 17 45 0 0));
    try (vm_compute; reflexivity).
  unfold after_midnight; cbn; lia.
Defined.

(** ** The pass over the cards of a page as a filter *)

Section PageFilter.

Variable dateparse : string -> datetime -> res (option datetime).
Variable E : env.
Variable selectors : Scraper.Selectors.
Variables start end_ : datetime.
Variable src : string.
Variable base : datetime.

(** The parser reads absolute dates: the current time it is given makes no
    difference. *)
Hypothesis absolute_dates :
  forall text b1 b2, dateparse text b1 = dateparse text b2.

Lemma date_raw_of_run (c : card) (s : state Scraper.locals) :
  Scraper.date_raw_of selectors c s = (date_text selectors c, s).
Proof.
  unfold Scraper.date_raw_of, date_text. cbv zeta.
  destruct (truthy (Scraper.extract_text_safe c (Scraper.s_date selectors)));
    cbn [negb]; [reflexivity|].
  unfold bind, lift.
  destruct (query_selector c (Scraper.s_date selectors)) as [[el|]|e];
    reflexivity.
Qed.

(** The pass over one card. *)
Lemma card_iteration_run (c : card) (s : state Scraper.locals) :
  exists s1,
    Scraper.card_iteration dateparse E selectors start end_ src c s = (Ok tt, s1) /\
    browser_side s1 = browser_side s /\
    vars s1 =
      match card_date dateparse base selectors c with
      | Some d =>
          if dt_lt d start then Scraper.set_old_review_reached true (vars s)
          else if Scraper.within_range d start end_
          then Scraper.append_result (Scraper.record_of selectors src c d) (vars s)
          else vars s
      | None => vars s
      end.
Proof.
  unfold Scraper.card_iteration, try_except, Scraper.card_body,
    Scraper.normalized_date, card_date.
  unfold bind at 1. unfold bind at 1. rewrite date_raw_of_run.
  destruct (date_text selectors c) as [[text|]|e];
    [|eexists; repeat split|eexists; repeat split].
  destruct (truthy text) eqn:Ht.
  - rewrite parse_date_str_truthy by exact Ht.
    rewrite (absolute_dates text (clock E (clock_reads s)) base).
    destruct (dateparse text base) as [[d|]|e];
      [|eexists; repeat split|eexists; repeat split].
    rewrite classify_cases.
    destruct (dt_lt d start); [eexists; repeat split|].
    destruct (Scraper.within_range d start end_); eexists; repeat split.
  - rewrite parse_date_str_falsy by (cbn; exact Ht).
    eexists; repeat split.
Qed.

(** The passes over the cards of a page. *)
Lemma for_each_card_run (cards : list card) (s : state Scraper.locals) :
  exists s',
    for_each (Scraper.card_iteration dateparse E selectors start end_ src)
      cards s = (Ok tt, s') /\
    browser_side s' = browser_side s /\
    Scraper.results (vars s') =
      Scraper.results (vars s)
      ++ page_records dateparse base selectors start end_ src cards /\
    Scraper.old_review_reached (vars s') =
      Scraper.old_review_reached (vars s)
      || page_has_older dateparse base selectors start cards /\
    Scraper.page_index (vars s') = Scraper.page_index (vars s).
Proof.
  revert s; induction cards as [|c cards IH]; intros s.
  - exists s. cbn. rewrite app_nil_r, orb_false_r. auto.
  - rewrite for_each_card_cons.
    destruct (card_iteration_run c s) as (s1 & H1 & Hb1 & Hv1).
    rewrite H1. cbn [snd].
    destruct (IH s1) as (s' & Hk & Hb & Hr & Ho & Hi).
    exists s'. split; [exact Hk|]. split; [congruence|].
    cbn [page_records flat_map page_has_older existsb].
    fold (page_records dateparse base selectors start end_ src cards).
    fold (page_has_older dateparse base selectors start cards).
    rewrite Hr, Ho, Hi, Hv1.
    destruct (card_date dateparse base selectors c) as [d|];
      [|cbn; auto].
    destruct (dt_lt d start) eqn:Hlt.
    + assert (Hin : Scraper.within_range d start end_ = false).
      { unfold Scraper.within_range. rewrite dt_lt_not_le in Hlt.
        destruct (dt_le start d); [discriminate|reflexivity]. }
      rewrite Hin. cbn. rewrite orb_true_r. auto.
    + destruct (Scraper.within_range d start end_); cbn;
        rewrite <- ?app_assoc; auto.
Qed.

End PageFilter.



(** ** The end of a run of review_scraper.py *)

Section RunEndsReviewScraper.

Variable dateutil_parse : string -> datetime -> res datetime.
Variable E : env.
Variable selectors : ReviewScraper.selector_dict.
Variables start end_ : datetime.
Variable src : string.

(** The pass over a page does not raise; it says [continue] only after a
    click on the next-page control of the page shown. *)
Lemma page_iteration_cases_rs (s s' : state ReviewScraper.locals) (c : res ctl) :
  ReviewScraper.page_iteration dateutil_parse E selectors start end_ src s
    = (c, s') ->
  c = Ok Break \/
  (c = Ok Continue /\
   exists advances,
     pf_click (site E (browser_page s)) (ReviewScraper.k_next_btn selectors)
       = Some advances /\
     browser_page s' =
       if advances then S (browser_page s) else browser_page s).
Proof.
  unfold ReviewScraper.page_iteration.
  erewrite bind_ok by apply emit_run.
  erewrite bind_ok by reflexivity.
  cbn [vars browser_page trace clock_reads rand_reads].
  destruct (pf_query_all _ _) as [|c0 cards]; [intros [= <- _]; auto|].
  erewrite bind_ok by reflexivity.
  match goal with
  | |- context [bind (for_each_break ?body (c0 :: cards)) _ ?s0] =>
      pose proof (for_each_break_returns_rs dateutil_parse E selectors start
                    end_ src (c0 :: cards) s0) as Hret;
      assert (Hside : keeps (@browser_side _) s0
                        (snd (for_each_break body (c0 :: cards) s0)))
        by (apply respects_for_each_break;
            [exact _ | intros x; apply card_iteration_browser_side_rs]);
      destruct (for_each_break body (c0 :: cards) s0) as [r sC] eqn:HC
  end.
  cbn [fst snd] in Hret, Hside. subst r.
  unfold keeps, browser_side in Hside. cbn [browser_page with_vars] in Hside.
  assert (Hp : browser_page sC = browser_page s) by congruence.
  erewrite bind_ok by exact HC.
  erewrite bind_ok by reflexivity.
  destruct (ReviewScraper.found_old_review (vars sC));
    [intros [= <- _]; auto|].
  unfold ReviewScraper.paginate.
  erewrite bind_ok by apply emit_run.
  erewrite bind_ok by reflexivity.
  cbn [vars browser_page trace clock_reads rand_reads]. rewrite Hp.
  destruct (pf_click (site E (browser_page s))
              (ReviewScraper.k_next_btn selectors)) as [advances|];
    [|intros [= <- _]; auto].
  erewrite bind_ok by apply emit_run.
  intros Hrun. right.
  destruct advances;
    (erewrite bind_ok in Hrun by reflexivity;
     unfold uniform in Hrun;
     erewrite bind_ok in Hrun by apply randint_run;
     erewrite bind_ok in Hrun by apply emit_run;
     injection Hrun as <- <-; split; [reflexivity|];
     eexists; split; [reflexivity|]; cbn; congruence).
Qed.

(** On a listing whose clicks load the next page and whose page [n] pages
    ahead has no control to click, the loop over the pages ends within
    [n + 1] passes. *)
Lemma while_true_page_iteration_ends_rs (n : nat) (s : state ReviewScraper.locals) :
  (forall k sel advances,
      pf_click (site E k) sel = Some advances -> advances = true) ->
  (forall sel, pf_click (site E (browser_page s + n)) sel = None) ->
  exists s',
    while_true (S n)
      (ReviewScraper.loop_body dateutil_parse E (Some selectors) start end_ src) s
    = Some (Ok tt, s').
Proof.
  intros Hadv. revert s; induction n as [|n IH]; intros s Hlast;
    cbn [while_true ReviewScraper.loop_body].
  - rewrite Nat.add_0_r in Hlast.
    destruct (ReviewScraper.page_iteration _ _ _ _ _ _ s) as [c s'] eqn:Hrun.
    apply page_iteration_cases_rs in Hrun as [-> | (-> & adv & Hc & _)];
      [eauto|].
    rewrite Hlast in Hc. discriminate.
  - destruct (ReviewScraper.page_iteration _ _ _ _ _ _ s) as [c s1] eqn:Hrun.
    apply page_iteration_cases_rs in Hrun as [-> | (-> & adv & Hc & Hs1)];
      [eauto|].
    rewrite (Hadv _ _ _ Hc) in Hs1.
    apply IH. rewrite Hs1.
    replace (S (browser_page s) + n) with (browser_page s + S n) by lia.
    exact Hlast.
Qed.

End RunEndsReviewScraper.

(** X23: for [sourceforge], on a listing whose clicks load the next page
    and whose page [n] has no control to click, [scrape_reviews] of
    review_scraper.py returns a list within [n + 1] passes through the
    page loop when the navigation completes; when the navigation times
    out it raises the time-out, which it does not handle, with the browser
    launched and nothing collected. *)
Theorem review_scraper_ends_on_a_finite_listing :
  forall (dateutil_parse : string -> datetime -> res datetime) (E : env)
         (n fuel : nat) (company start_date end_date : string)
         (start end_ : datetime),
    strptime_ymd start_date = Some start ->
    strptime_ymd end_date = Some end_ ->
    (forall k sel advances,
        pf_click (site E k) sel = Some advances -> advances = true) ->
    (forall sel, pf_click (site E n) sel = None) ->
    (n < fuel)%nat ->
    let url := ("https://sourceforge.net/software/product/" ++ company
                ++ "/reviews")%string in
    (goto_ok E url = true ->
     exists rs st,
       ReviewScraper.scrape_reviews dateutil_parse E fuel company start_date
         end_date "sourceforge" = Some (Ok rs, st))
    /\
    (goto_ok E url = false ->
     exists st,
       ReviewScraper.scrape_reviews dateutil_parse E fuel company start_date
         end_date "sourceforge" = Some (Raise PlaywrightTimeoutError, st) /\
       trace st = [Launch false false 500 None None; Goto url] /\
       ReviewScraper.reviews_data (vars st) = []).
Proof.
  intros dateutil_parse E n fuel company start_date end_date start end_
    Hs He Hadv Hlast Hfuel url.
  unfold ReviewScraper.scrape_reviews. rewrite Hs, He.
  unfold ReviewScraper.open_session.
  erewrite bind_ok by apply emit_run.
  erewrite bind_ok by reflexivity.
  unfold goto. fold url.
  split; intros Hg.
  - erewrite bind_ok
      by (erewrite bind_ok by apply emit_run; rewrite Hg; reflexivity).
    rewrite emit_run.
    change (ReviewScraper.get_selectors "sourceforge")
      with (Some Fixture.sourceforge_rs).
    match goal with
    | |- context [while_true fuel ?body ?s1] =>
        destruct (@while_true_page_iteration_ends_rs dateutil_parse E
                    Fixture.sourceforge_rs start end_ "sourceforge" n s1 Hadv
                    Hlast) as (s2 & Hloop)
    end.
    apply (while_true_more_fuel _ _ (fuel - S n)) in Hloop.
    replace (S n + (fuel - S n))%nat with fuel in Hloop by lia.
    rewrite Hloop. cbn. eauto.
  - unfold bind at 1. erewrite bind_ok by apply emit_run. rewrite Hg.
    cbn [raise]. eexists. repeat split.
Qed.

(** The three pages of the fixture, read by review_scraper.py. *)
Lemma review_scraper_ends_on_a_finite_listing_witness :
  exists rs st, fixture_run_rs = Some (Ok rs, st).
Proof.
  refine (proj1 (@review_scraper_ends_on_a_finite_listing Fixture.iso_dateutil
                   (Fixture.world Fixture.three_pages (Fixture.noon 2024 3 10) 7)
                   2 5 "Acme Tool" "2024-03-01" "2024-03-09"
                   (midnight 2024 3 1) (midnight 2024 3 9) _ _ _ _ _) _)%string.
  - vm_compute; reflexivity.
  - vm_compute; reflexivity.
  - exact three_pages_clicks_advance.
  - exact three_pages_end.
  - lia.
  - reflexivity.
Defined.

(** ** What scraper.py lets out *)

Section NothingLetOut.

Variable dateparse : string -> datetime -> res (option datetime).
Variable E : env.

(** The pass over a page does not raise. *)
Lemma page_iteration_returns (selectors : Scraper.Selectors)
    (start end_ : datetime) (src : string) (s s' : state Scraper.locals)
    (c : res ctl) :
  Scraper.page_iteration dateparse E selectors start end_ src s = (c, s') ->
  exists k, c = Ok k.
Proof.
  intros Hrun.
  apply page_iteration_cases in Hrun as [(-> & _) | (sC & _ & _ & Hrun)];
    [eauto|].
  apply paginate_cases in Hrun as [-> | (-> & _)]; eauto.
Qed.

Lemma while_true_page_iteration_returns (selectors : Scraper.Selectors)
    (start end_ : datetime) (src : string) (fuel : nat)
    (s s' : state Scraper.locals) (r : res unit) :
  while_true fuel (Scraper.page_iteration dateparse E selectors start end_ src) s
    = Some (r, s') ->
  r = Ok tt.
Proof.
  revert s; induction fuel as [|fuel IH]; intros s; cbn [while_true];
    [discriminate|].
  destruct (Scraper.page_iteration _ _ _ _ _ _ s) as [c s1] eqn:Hrun.
  destruct (page_iteration_returns _ _ _ _ _ Hrun) as (k & ->).
  destruct k; [apply IH | intros [= <- _]; reflexivity].
Qed.

End NothingLetOut.



(** ** What a run of scraper.py collects *)

Section Crawl.

Variable dateparse : string -> datetime -> res (option datetime).
Variable E : env.
Variable selectors : Scraper.Selectors.
Variables start end_ : datetime.
Variable src : string.
Variable base : datetime.

Hypothesis absolute_dates :
  forall text b1 b2, dateparse text b1 = dateparse text b2.

#[local] Abbreviation records_from :=
  (listing_records dateparse base E selectors start end_ src).

(** One pass through the page loop, started with the flag unset. *)
Lemma page_iteration_step (passes : nat) (s : state Scraper.locals) :
  Scraper.old_review_reached (vars s) = false ->
  exists c s',
    Scraper.page_iteration dateparse E selectors start end_ src s = (Ok c, s') /\
    match c with
    | Break =>
        Scraper.results (vars s') =
          Scraper.results (vars s) ++ records_from (S passes) (browser_page s)
    | Continue =>
        Scraper.old_review_reached (vars s') = false /\
        Scraper.results (vars s') ++ records_from passes (browser_page s') =
          Scraper.results (vars s) ++ records_from (S passes) (browser_page s)
    end.
Proof.
  intros Hflag. unfold Scraper.page_iteration. cbn [listing_records].
  destruct (@challenge_loop_run E 120 Scraper.captcha_signals s ltac:(lia))
    as (sD & HD & HcD & _).
  assert (HD' : Scraper.detect_and_handle_captcha E 120 s = (Ok tt, sD))
    by (unfold Scraper.detect_and_handle_captcha, try_except; now rewrite HD).
  erewrite bind_ok by exact HD'.
  unfold core in HcD. injection HcD as HvD HpD _.
  erewrite bind_ok by apply emit_run.
  erewrite bind_ok by reflexivity.
  cbn [vars browser_page trace clock_reads rand_reads]. rewrite HpD.
  destruct (pf_appears (site E (browser_page s)) (Scraper.s_review_card selectors));
    cbn [negb].
  2:{ exists Break. eexists. split; [reflexivity|]. cbn [vars].
      now rewrite app_nil_r, HvD. }
  erewrite bind_ok by apply emit_run.
  destruct (pf_query_all (site E (browser_page s))
              (Scraper.s_review_card selectors)) as [|c0 cards] eqn:Hq.
  { exists Break. eexists. split; [reflexivity|]. cbn [vars].
    now rewrite app_nil_r, HvD. }
  match goal with
  | |- context [bind (for_each _ (c0 :: cards)) _ ?s0] =>
      destruct (@for_each_card_run dateparse E selectors start end_ src base
                  absolute_dates (c0 :: cards) s0)
        as (sC & HC & HbC & HrC & HoC & _)
  end.
  cbn [vars browser_page trace clock_reads rand_reads] in HrC, HoC.
  unfold browser_side in HbC. cbn [browser_page trace rand_reads] in HbC.
  assert (HpC : browser_page sC = browser_page s) by congruence.
  rewrite HvD in HrC, HoC. rewrite Hflag in HoC. cbn [orb] in HoC.
  erewrite bind_ok by exact HC.
  erewrite bind_ok by reflexivity. rewrite HoC.
  destruct (page_has_older dateparse base selectors start (c0 :: cards)).
  { exists Break. eexists. split; [reflexivity|]. now rewrite HrC, app_nil_r. }
  unfold Scraper.paginate.
  destruct (Scraper.s_next_btn selectors) as [next_btn|].
  2:{ erewrite bind_ok by reflexivity. cbn [negb].
      exists Break. eexists. split; [reflexivity|]. now rewrite HrC, app_nil_r. }
  destruct (truthy next_btn).
  2:{ erewrite bind_ok by reflexivity. cbn [negb].
      exists Break. eexists. split; [reflexivity|]. now rewrite HrC, app_nil_r. }
  destruct (scroll_page_run E 3 sC) as (s1 & evs1 & HS1 & V1 & P1 & _).
  destruct (scroll_page_run E 3 s1) as (s2 & evs2 & HS2 & V2 & P2 & _).
  unfold bind at 1.
  erewrite bind_ok by exact HS1. erewrite bind_ok by exact HS2.
  rewrite try_click_run.
  replace (browser_page s2) with (browser_page s) by congruence.
  destruct (pf_click (site E (browser_page s)) next_btn) as [advances|];
    cbv beta iota; cbn [negb].
  2:{ exists Break. eexists. split; [reflexivity|]. cbn [vars].
      now rewrite V2, V1, HrC, app_nil_r. }
  erewrite bind_ok by reflexivity.
  match goal with
  | |- context [bind (Scraper.human_sleep E 2000 4000) _ ?s3] =>
      destruct (@human_sleep_run E 2000 4000 s3 ltac:(lia)) as (t & _ & Hrun)
  end.
  erewrite bind_ok by exact Hrun.
  exists Continue. eexists. split; [reflexivity|].
  cbn [vars browser_page with_vars Scraper.incr_page_index
       Scraper.old_review_reached Scraper.results].
  rewrite V2, V1. split; [exact HoC|].
  rewrite HrC, <- app_assoc. reflexivity.
Qed.

(** The page loop, started with the flag unset. *)
Lemma while_true_page_iteration_run (fuel : nat) (s s' : state Scraper.locals)
    (r : res unit) :
  Scraper.old_review_reached (vars s) = false ->
  while_true fuel (Scraper.page_iteration dateparse E selectors start end_ src) s
    = Some (r, s') ->
  Scraper.results (vars s') =
    Scraper.results (vars s) ++ records_from fuel (browser_page s).
Proof.
  revert s; induction fuel as [|fuel IH]; intros s Hflag; cbn [while_true];
    [discriminate|].
  destruct (page_iteration_step fuel s Hflag) as (c & s1 & -> & Hc).
  destruct c.
  - destruct Hc as [Hflag1 Hrec]. intros Hloop.
    rewrite (IH s1 Hflag1 Hloop). exact Hrec.
  - intros [= _ <-]. exact Hc.
Qed.

(** The session is opened on the landing page, with nothing collected. *)
Lemma open_session_run (company : string) (headless : bool)
    (user_data_dir start_url : option string) (wait_after_nav : Z) :
  exists s1,
    Scraper.open_session E company src headless user_data_dir start_url
      wait_after_nav Scraper.initial = (Ok tt, s1) /\
    vars s1 = vars Scraper.initial /\
    browser_page s1 = landing_page E.
Proof.
  unfold Scraper.open_session.
  erewrite bind_ok by reflexivity.
  erewrite bind_ok by apply randint_run.
  erewrite bind_ok by apply randint_run.
  erewrite bind_ok by apply randint_run.
  erewrite bind_ok by apply emit_run.
  erewrite bind_ok by apply emit_run.
  erewrite bind_ok by apply goto_handled_run.
  cbn [vars browser_page trace clock_reads rand_reads Scraper.initial
       initial_state].
  match goal with
  | |- context [bind (Scraper.accept_cookies_if_any E) _ ?s0] =>
      destruct (accept_loop_run E Scraper.possible_accepts s0)
        as (sA & evs & HA & HvA & _ & _ & HfA)
  end.
  cbn [vars browser_page] in HvA, HfA.
  assert (HpA : browser_page sA = landing_page E).
  { unfold landing_page.
    destruct (find (clickable (site E 0)) Scraper.possible_accepts) as [sel|].
    - destruct HfA as (_ & _ & ->).
      destruct (pf_click (site E 0) sel) as [[]|]; reflexivity.
    - now destruct HfA as (_ & _ & ->). }
  fold (Scraper.accept_cookies_if_any E) in HA.
  erewrite bind_ok by exact HA.
  destruct (@challenge_loop_run E 120 Scraper.captcha_signals sA ltac:(lia))
    as (sD & HD & HcD & _).
  assert (HD' : Scraper.detect_and_handle_captcha E 120 sA = (Ok tt, sD))
    by (unfold Scraper.detect_and_handle_captcha, try_except; now rewrite HD).
  erewrite bind_ok by exact HD'.
  unfold core in HcD. injection HcD as HvD HpD _.
  assert (H3 : exists s3,
             (if (0 <? wait_after_nav)%Z
              then emit (Sleep (1000 * wait_after_nav)) else ret tt) sD
             = (Ok tt, s3) /\ vars s3 = vars sD /\
             browser_page s3 = browser_page sD)
    by (destruct (0 <? wait_after_nav)%Z; eexists; repeat split).
  destruct H3 as (s3 & H3 & Hv3 & Hp3). erewrite bind_ok by exact H3.
  destruct (scroll_page_run E 5 s3) as (s4 & evs4 & H4 & Hv4 & Hp4 & _).
  exists s4. split; [exact H4|]. split; congruence.
Qed.

End Crawl.

(** X25: with a parser that reads absolute dates, the list that
    [scrape_reviews] of scraper.py returns is the list of the dictionaries
    of the cards dated within the range, page after page and in the order
    of the cards, from the landing page up to the first page that shows no
    cards, holds a card dated before the start of the range, or has no
    next-page control that can be clicked. *)
Theorem scrape_reviews_returns_the_records_of_the_listing :
  forall (dateparse : string -> datetime -> res (option datetime)) (E : env)
         (base : datetime) (fuel : nat)
         (company start_date end_date src : string)
         (headless : bool) (user_data_dir start_url : option string)
         (wait_after_nav : Z) (selectors : Scraper.Selectors)
         (start end_ : datetime) (rs : list review) (st : state Scraper.locals),
    (forall text b1 b2, dateparse text b1 = dateparse text b2) ->
    Scraper.get_selectors src = Some selectors ->
    strptime_ymd start_date = Some start ->
    strptime_ymd end_date = Some end_ ->
    Scraper.scrape_reviews dateparse E fuel company start_date end_date src
      headless user_data_dir start_url wait_after_nav = Some (Ok rs, st) ->
    rs = listing_records dateparse base E selectors start end_ src fuel
           (landing_page E).
Proof.
  intros dateparse E base fuel company start_date end_date src headless
    user_data_dir start_url wait_after_nav selectors start end_ rs st
    Habs Hsel Hs He Hrun.
  apply scrape_reviews_returns in Hrun
    as (selectors' & start' & end' & s1 & s2 & Hsel' & Hs' & He' & _ & Hopen
        & Hloop & _ & ->).
  assert (selectors' = selectors) by congruence.
  assert (start' = start) by congruence.
  assert (end' = end_) by congruence. subst.
  destruct (open_session_run E src company headless user_data_dir start_url
              wait_after_nav) as (s1' & Hopen' & Hv1 & Hp1).
  assert (s1' = s1) by congruence. subst s1'.
  rewrite (@while_true_page_iteration_run dateparse E selectors start end_ src
             base Habs fuel s1 s2 (Ok tt)); [|now rewrite Hv1|exact Hloop].
  now rewrite Hv1, Hp1.
Qed.

(** The fixture run returns the cards of March of the first two pages. *)
Lemma scrape_reviews_returns_the_records_of_the_listing_witness :
  exists rs st,
    fixture_run = Some (Ok rs, st) /\
    rs = listing_records Fixture.iso_dateparse (Fixture.noon 2024 3 10)
           (Fixture.world Fixture.three_pages (Fixture.noon 2024 3 10) 7)
           Fixture.sourceforge (midnight 2024 3 1) (midnight 2024 3 9)
           "SourceForge" 5 0 /\
    List.length rs = 8%nat.
Proof.
  eexists _, _. split; [vm_compute; reflexivity|]. split.
  - refine (@scrape_reviews_returns_the_records_of_the_listing
              Fixture.iso_dateparse
              (Fixture.world Fixture.three_pages (Fixture.noon 2024 3 10) 7)
              (Fixture.noon 2024 3 10) 5 "Acme Tool" "2024-03-01" "2024-03-09"
              "SourceForge" true None None 0%Z Fixture.sourceforge
              (midnight 2024 3 1) (midnight 2024 3 9) _ _ _ _ _ _ _)%string.
    + reflexivity.
    + vm_compute; reflexivity.
    + vm_compute; reflexivity.
    + vm_compute; reflexivity.
    + vm_compute; reflexivity.
  - vm_compute; reflexivity.
Defined.

(** ** The date of a card *)

(** X26: the loop of scraper.py dates a card by the visible text of its
    date element, stripped, when that text is not blank, and without a
    look at the attributes; when the text is blank it dates the card by
    the [datetime] attribute of the element.  Either way the parser is
    called once, with one reading of the clock as its base. *)
Theorem blank_date_text_falls_back_to_the_datetime_attribute :
  forall (dateparse : string -> datetime -> res (option datetime)) (E : env)
         (selectors : Scraper.Selectors) (c : card) (el : element)
         (txt : string) (s : state Scraper.locals),
    query_selector c (Scraper.s_date selectors) = Ok (Some el) ->
    inner_text el = Ok txt ->
    (truthy (strip txt) = true ->
     Scraper.normalized_date dateparse E selectors c s
     = (dateparse (strip txt) (clock E (clock_reads s)), tick s))
    /\
    (forall attr,
        strip txt = EmptyString ->
        get_attribute el "datetime" = Ok (Some attr) ->
        truthy attr = true ->
        Scraper.normalized_date dateparse E selectors c s
        = (dateparse attr (clock E (clock_reads s)), tick s)).
Proof.
  intros dateparse E selectors c el txt s Hq Ht.
  assert (Hx : Scraper.extract_text_safe c (Scraper.s_date selectors) = strip txt).
  { unfold Scraper.extract_text_safe. rewrite Hq, Ht. now rewrite str_or_empty. }
  unfold Scraper.normalized_date, Scraper.date_raw_of. cbv zeta. rewrite Hx.
  split.
  - intros Htxt. rewrite Htxt. cbn [negb].
    erewrite bind_ok by reflexivity.
    now apply parse_date_str_truthy.
  - intros attr Hblank Ha Hattr. rewrite Hblank. cbn [truthy negb].
    erewrite bind_ok
      by (erewrite bind_ok by (unfold lift; rewrite Hq; reflexivity);
          unfold lift; rewrite Ha; reflexivity).
    now apply parse_date_str_truthy.
Qed.

(** A card whose date element shows no text and carries the attribute
    [datetime="2024-03-05"]. *)
Lemma blank_date_text_falls_back_to_the_datetime_attribute_witness :
  let el := mk_element (Ok "  "%string)
              (fun name => if (name =? "datetime")%string
                           then Ok (Some "2024-03-05"%string) else Ok None) in
  let c := mk_card (fun _ => Ok (Some el)) in
  Scraper.normalized_date Fixture.iso_dateparse
    (Fixture.world Fixture.three_pages (Fixture.noon 2024 3 10) 7)
    Fixture.sourceforge c Scraper.initial
  = (Ok (Some (midnight 2024 3 5)), tick Scraper.initial).
Proof.
  cbv zeta.
  refine (proj2 (@blank_date_text_falls_back_to_the_datetime_attribute
                   Fixture.iso_dateparse
                   (Fixture.world Fixture.three_pages (Fixture.noon 2024 3 10) 7)
                   Fixture.sourceforge
                   (mk_card
                      (fun _ =>
                         Ok (Some (mk_element (Ok "  "%string)
                                     (fun name =>
                                        if (name =? "datetime")%string
                                        then Ok (Some "2024-03-05"%string)
                                        else Ok None)))))
                   (mk_element (Ok "  "%string)
                      (fun name =>
                         if (name =? "datetime")%string
                         then Ok (Some "2024-03-05"%string) else Ok None))
                   "  "%string Scraper.initial eq_refl eq_refl)
            "2024-03-05"%string eq_refl eq_refl eq_refl).
Defined.
